(** * Storage: a shallow embedding of [Storage.py]

    The module keeps two process-wide variables (the server registry
    [__mdServers] and the table-name prefix [__msPrefix]), opens RethinkDB
    connections with a bounded retry, and offers a [Document] class whose
    methods build a ReQL cursor and run it on a scoped connection.

    Python code is embedded as state-passing functions that return either a
    value or a raised exception.  The RethinkDB driver and server are outside
    the repository: the part of their behaviour the source relies on is
    modelled in [Module Reql]. *)

From stdpp Require Import gmap strings list fin_maps.
From Stdlib Require Import ZArith Ascii String DecimalString DecimalPos DecimalZ.

#[local] Set Warnings "-register-all".

Local Open Scope string_scope.
Local Open Scope Z_scope.

(** ** Exceptions and results *)

(** The exception classes the module raises or lets through.  The source has
    a single domain exception, [StorageException]; its [args] tell the
    failures apart.  [ReqlOpFailedError] is a subclass of [RqlRuntimeError]
    in the driver, so an [except r.errors.RqlRuntimeError] clause catches
    both. *)
Inductive exn : Type :=
| StorageException (args : list string)
| ValueError (msg : string)
| KeyError (key : string)
| AttributeError (name : string)
| NameError (name : string)
| RuntimeError (msg : string)
| TypeError (msg : string)
| IndexError (msg : string)
| RqlDriverError (args : list string)
| RqlRuntimeError (msg : string)
| ReqlOpFailedError (msg : string).

Inductive res (A : Type) : Type :=
| Ret (a : A)
| Raise (e : exn).
Arguments Ret {A} a.
Arguments Raise {A} e.

Definition is_RqlRuntimeError (e : exn) : bool :=
  match e with
  | RqlRuntimeError _ | ReqlOpFailedError _ => true
  | _ => false
  end.

(** ** The state and exception monad *)

Definition M (S A : Type) : Type := S → res A * S.

Definition ret {S A} (a : A) : M S A := λ s, (Ret a, s).
Definition raise {S A} (e : exn) : M S A := λ s, (Raise e, s).
Definition bind {S A B} (m : M S A) (k : A → M S B) : M S B :=
  λ s, match m s with
       | (Ret a, s') => k a s'
       | (Raise e, s') => (Raise e, s')
       end.
(** [try m] runs [m] and hands its outcome to the handler that follows; the
    state changes [m] made before raising are kept, as in Python. *)
Definition try {S A} (m : M S A) : M S (res A) :=
  λ s, let '(r, s') := m s in (Ret r, s').
Definition gets {S A} (f : S → A) : M S A := λ s, (Ret (f s), s).
Definition modify {S} (f : S → S) : M S unit := λ s, (Ret tt, f s).

#[global] Instance res_ret : MRet res := λ A, Ret.
#[global] Instance res_bind : MBind res :=
  λ A B k m, match m with Ret a => k a | Raise e => Raise e end.
#[global] Instance M_ret {S} : MRet (M S) := λ A, ret.
#[global] Instance M_bind {S} : MBind (M S) := λ A B k m, bind m k.

(** ** Values *)

(** JSON values as the module handles them: scalars and lists (nested
    objects are left out).  Python's [None] is [DNull]; a Python list is
    [DArr]. *)
Inductive datum : Type :=
| DNull
| DBool (b : bool)
| DNum (n : Z)
| DStr (s : string)
| DArr (l : list datum).

Fixpoint datum_eqb (a b : datum) {struct a} : bool :=
  match a, b with
  | DNull, DNull => true
  | DBool x, DBool y => Bool.eqb x y
  | DNum x, DNum y => Z.eqb x y
  | DStr x, DStr y => String.eqb x y
  | DArr xs, DArr ys =>
      (fix go (xs ys : list datum) {struct xs} : bool :=
         match xs, ys with
         | [], [] => true
         | x :: xs', y :: ys' => datum_eqb x y && go xs' ys'
         | _, _ => false
         end) xs ys
  | _, _ => false
  end.

(** Python truthiness of a value ([if v:], [not v]). *)
Definition truthy (d : datum) : bool :=
  match d with
  | DNull => false
  | DBool b => b
  | DNum n => negb (n =? 0)
  | DStr s => negb (String.eqb s "")
  | DArr l => match l with [] => false | _ => true end
  end.

(** A record: field name to value.  Python dicts [_dData], [_dChanged], the
    rows of a table and the reply objects of the server all have this
    shape. *)
Abbreviation row := (gmap string datum).

(** [d[k]] on a dict, raising [KeyError] when the key is missing. *)
Definition getitem {S} (d : row) (k : string) : M S datum :=
  match d !! k with
  | Some v => mret v
  | None => raise (KeyError k)
  end.

(** Equality of two dicts, field by field. *)
Definition row_eqb (a b : row) : bool :=
  bool_decide (dom a = dom b) &&
  forallb (λ kv, match b !! kv.1 with
                 | Some v => datum_eqb kv.2 v
                 | None => false
                 end) (map_to_list a).

(** ** The part of RethinkDB the module relies on *)

Module Reql.

(** The server orders values of different types by type (arrays, booleans,
    null, numbers, strings), and arrays lexicographically. *)
Definition type_rank (d : datum) : Z :=
  match d with
  | DArr _ => 0
  | DBool _ => 1
  | DNull => 2
  | DNum _ => 3
  | DStr _ => 4
  end.

Fixpoint compare (a b : datum) {struct a} : comparison :=
  match a, b with
  | DArr xs, DArr ys =>
      (fix go (xs ys : list datum) {struct xs} : comparison :=
         match xs, ys with
         | [], [] => Eq
         | [], _ :: _ => Lt
         | _ :: _, [] => Gt
         | x :: xs', y :: ys' =>
             match compare x y with
             | Eq => go xs' ys'
             | c => c
             end
         end) xs ys
  | DBool x, DBool y => Bool.compare x y
  | DNum x, DNum y => Z.compare x y
  | DStr x, DStr y => String.compare x y
  | _, _ => Z.compare (type_rank a) (type_rank b)
  end.

(** A component of a [between] bound: a value, or one of the sentinels
    [r.minval] and [r.maxval]. *)
Inductive edge : Type :=
| minval
| val (d : datum)
| maxval.

Definition compare_edge (d : datum) (e : edge) : comparison :=
  match e with
  | minval => Gt
  | val d' => compare d d'
  | maxval => Lt
  end.

(** A key array against a bound array, component by component. *)
Fixpoint compare_bound (k : list datum) (b : list edge) : comparison :=
  match k, b with
  | [], [] => Eq
  | [], _ :: _ => Lt
  | _ :: _, [] => Gt
  | x :: k', e :: b' =>
      match compare_edge x e with
      | Eq => compare_bound k' b'
      | c => c
      end
  end.

(** [between(lo, hi)] is closed on the left and open on the right.  A key
    that is no array sorts after every array. *)
Definition in_range (key : datum) (lo hi : list edge) : bool :=
  match key with
  | DArr k =>
      match compare_bound k lo with Lt => false | _ => true end &&
      match compare_bound k hi with Lt => true | _ => false end
  | _ => false
  end.

(** A secondary index: over one field, or over several in order (a
    compound index, whose keys are arrays). *)
Inductive index_fn : Type :=
| on_field (f : string)
| on_fields (fs : list string).

(** The key of a row under an index; a row that lacks an indexed field is
    not in the index. *)
Definition index_key (ix : index_fn) (d : row) : option datum :=
  match ix with
  | on_field f => d !! f
  | on_fields fs => DArr <$> mapM (λ f, d !! f) fs
  end.

Record stored : Type := Stored {
  primary_key : string;
  rows : list row;
  indexes : gmap string index_fn
}.

(** The server: databases of tables, and a counter for generated keys. *)
Record server : Type := Server {
  dbs : gmap string (gmap string stored);
  keygen : nat
}.

(** The cursor expressions the module builds.  [pluck] stands for
    [.pluck(fields).default(None)]; [filter_contains f vs] for the filter
    by a function that tests whether field [f] of the row contains every
    value of [vs]. *)
Inductive term : Type :=
| table (db name : string)
| get (t : term) (id : datum)
| get_all (t : term) (keys : list datum) (index : option string)
| between (t : term) (lo hi : list edge) (index : string)
| filter (t : term) (obj : row)
| filter_contains (t : term) (f : string) (vs : list datum)
| limit (t : term) (n : Z)
| pluck (t : term) (fields : list string)
| order_by (t : term) (fields : list string)
| delete (t : term)
| update (t : term) (d : row)
| replace (t : term) (d : row)
| insert (t : term) (d : row) (conflict : string)
| table_create (db name primary : string)
| table_drop (db name : string)
| index_create (t : term) (name : string) (fn : option index_fn).

(** What [run] hands back: one object or null, or a sequence of rows. *)
Inductive reply : Type :=
| one (d : option row)
| many (l : list row).

Definition find_db (s : server) (db : string) : res (gmap string stored) :=
  match dbs s !! db with
  | Some tables => Ret tables
  | None => Raise (ReqlOpFailedError ("Database `" ++ db ++ "` does not exist."))
  end.

Definition find_table (s : server) (db name : string) : res stored :=
  tables ← find_db s db;
  match tables !! name with
  | Some tb => Ret tb
  | None =>
      Raise (ReqlOpFailedError ("Table `" ++ db ++ "." ++ name ++ "` does not exist."))
  end.

Definition find_index (tb : stored) (index : string) : res index_fn :=
  match indexes tb !! index with
  | Some ix => Ret ix
  | None =>
      Raise (ReqlOpFailedError ("Index `" ++ index ++ "` was not found on table."))
  end.

(** The table a selection reads from. *)
Fixpoint source (t : term) : option (string * string) :=
  match t with
  | table db name => Some (db, name)
  | get t' _ | get_all t' _ _ | between t' _ _ _ | filter t' _
  | filter_contains t' _ _ | limit t' _ | pluck t' _ | order_by t' _ => source t'
  | _ => None
  end.

Definition has_key (pk : string) (id : datum) (d : row) : bool :=
  match d !! pk with
  | Some v => datum_eqb v id
  | None => false
  end.

Definition key_among (key : option datum) (keys : list datum) : bool :=
  match key with
  | Some k => existsb (datum_eqb k) keys
  | None => false
  end.

Definition matches (obj d : row) : bool :=
  forallb (λ kv, match d !! kv.1 with
                 | Some v => datum_eqb v kv.2
                 | None => false
                 end) (map_to_list obj).

Definition contains_all (f : string) (vs : list datum) (d : row) : bool :=
  match d !! f with
  | Some (DArr l) => forallb (λ v, existsb (datum_eqb v) l) vs
  | _ => false
  end.

Definition pluck_row (fields : list string) (d : row) : row :=
  base.filter (λ kv, kv.1 ∈ fields) d.

(** Rows in ascending order of the listed fields (a missing field sorts as
    null), by stable insertion. *)
Definition sort_key (fields : list string) (d : row) : datum :=
  DArr ((λ f, default DNull (d !! f)) <$> fields).

Fixpoint place (fields : list string) (d : row) (l : list row) : list row :=
  match l with
  | [] => [d]
  | x :: l' =>
      match compare (sort_key fields d) (sort_key fields x) with
      | Lt => d :: l
      | _ => x :: place fields d l'
      end
  end.

Definition sorted (fields : list string) (l : list row) : list row :=
  foldr (place fields) [] l.

Definition sequence_expected : exn :=
  RqlRuntimeError "Cannot convert OBJECT to SEQUENCE".

(** The rows a read-only cursor expression selects from table [tb]. *)
Fixpoint select (tb : stored) (t : term) {struct t} : res reply :=
  let rows_of t' :=
    sel ← select tb t';
    match sel with
    | many l => Ret l
    | one _ => Raise sequence_expected
    end in
  match t with
  | table _ _ => Ret (many (rows tb))
  | get t' id =>
      l ← rows_of t';
      Ret (one (List.find (has_key (primary_key tb) id) l))
  | get_all t' keys None =>
      l ← rows_of t';
      Ret (many (List.filter (λ d, key_among (d !! primary_key tb) keys) l))
  | get_all t' keys (Some index) =>
      l ← rows_of t';
      ix ← find_index tb index;
      Ret (many (List.filter (λ d, key_among (index_key ix d) keys) l))
  | between t' lo hi index =>
      l ← rows_of t';
      ix ← find_index tb index;
      Ret (many (List.filter
                   (λ d, match index_key ix d with
                         | Some k => in_range k lo hi
                         | None => false
                         end) l))
  | filter t' obj =>
      l ← rows_of t';
      Ret (many (List.filter (matches obj) l))
  | filter_contains t' f vs =>
      l ← rows_of t';
      Ret (many (List.filter (contains_all f vs) l))
  | limit t' n =>
      l ← rows_of t';
      Ret (many (take (Z.to_nat n) l))
  | pluck t' fields =>
      sel ← select tb t';
      match sel with
      | many l => Ret (many (pluck_row fields <$> l))
      | one d => Ret (one (pluck_row fields <$> d))
      end
  | order_by t' fields =>
      l ← rows_of t';
      Ret (many (sorted fields l))
  | _ => Raise (RqlRuntimeError "Expected type SELECTION")
  end.

(** The reply object of a write. *)
Definition counts (inserted replaced unchanged deleted skipped errors : Z) : row :=
  list_to_map [("inserted", DNum inserted); ("replaced", DNum replaced);
               ("unchanged", DNum unchanged); ("deleted", DNum deleted);
               ("skipped", DNum skipped); ("errors", DNum errors)].

Definition put_table (s : server) (db name : string) (tb : stored) : server :=
  Server (<[db := <[name := tb]> (default ∅ (dbs s !! db))]> (dbs s)) (keygen s).

Definition with_rows (tb : stored) (l : list row) : stored :=
  Stored (primary_key tb) l (indexes tb).

(** The key the server makes up for a row inserted without one; it stands
    for a UUID and is taken to be unused. *)
Definition generated_key (n : nat) : datum :=
  DStr ("key-" ++ NilZero.string_of_uint (Nat.to_uint n)).

Inductive outcome : Type := untouched | rewritten | same | failed.

Definition outcome_is (a b : outcome) : bool :=
  match a, b with
  | untouched, untouched | rewritten, rewritten | same, same | failed, failed => true
  | _, _ => false
  end.

Definition option_datum_eqb (a b : option datum) : bool :=
  match a, b with
  | Some x, Some y => datum_eqb x y
  | None, None => true
  | _, _ => false
  end.

(** One stored row under [update] or [replace]: [f] gives the new content;
    the primary key may not change. *)
Definition rewrite_row (pk : string) (keys : list datum) (f : row → row)
    (x : row) : row * outcome :=
  if key_among (x !! pk) keys then
    let new := f x in
    if negb (option_datum_eqb (new !! pk) (x !! pk)) then (x, failed)
    else if row_eqb new x then (x, same)
    else (new, rewritten)
  else (x, untouched).

Definition tally (o : outcome) (l : list (row * outcome)) : Z :=
  Z.of_nat (List.length (List.filter (λ xo, outcome_is xo.2 o) l)).

Definition do_rewrite (s : server) (db name : string) (tb : stored)
    (keys : list datum) (f : row → row) : res reply * server :=
  let l := rewrite_row (primary_key tb) keys f <$> rows tb in
  (Ret (one (Some (counts 0 (tally rewritten l) (tally same l) 0 0 (tally failed l)))),
   put_table s db name (with_rows tb (fst <$> l))).

Definition skipped_one : reply := one (Some (counts 0 0 0 0 1 0)).

Definition do_insert (s : server) (db name : string) (d : row)
    (conflict : string) : res reply * server :=
  match find_table s db name with
  | Raise e => (Raise e, s)
  | Ret tb =>
      let pk := primary_key tb in
      match d !! pk with
      | None =>
          let k := generated_key (keygen s) in
          (Ret (one (Some (<["generated_keys" := DArr [k]]> (counts 1 0 0 0 0 0)))),
           Server (dbs (put_table s db name (with_rows tb (rows tb ++ [<[pk := k]> d]))))
                  (S (keygen s)))
      | Some id =>
          match List.find (has_key pk id) (rows tb) with
          | None =>
              (Ret (one (Some (counts 1 0 0 0 0 0))),
               put_table s db name (with_rows tb (rows tb ++ [d])))
          | Some _ =>
              if String.eqb conflict "replace" then
                do_rewrite s db name tb [id] (λ _, d)
              else if String.eqb conflict "update" then
                do_rewrite s db name tb [id] (λ old, d ∪ old)
              else
                (Ret (one (Some (<["first_error" := DStr "Duplicate primary key"]>
                                   (counts 0 0 0 0 0 1)))), s)
          end
      end
  end.

(** The primary keys of the rows a selection holds. *)
Definition keys_of (pk : string) (sel : reply) : list datum :=
  match sel with
  | one d => omap (λ x : row, x !! pk) (option_list d)
  | many l => omap (λ x : row, x !! pk) l
  end.

Definition do_write (s : server) (t : term)
    (k : string → string → stored → reply → res reply * server) : res reply * server :=
  match source t with
  | None => (Raise (RqlRuntimeError "Expected type SELECTION"), s)
  | Some (db, name) =>
      match find_table s db name with
      | Raise e => (Raise e, s)
      | Ret tb =>
          match select tb t with
          | Raise e => (Raise e, s)
          | Ret sel => k db name tb sel
          end
      end
  end.

(** [t.run(conn)]: what the server answers and how its content changes. *)
Definition run (t : term) : M server reply := λ s,
  match t with
  | table_create db name pk =>
      match find_db s db with
      | Raise e => (Raise e, s)
      | Ret tables =>
          match tables !! name with
          | Some _ =>
              (Raise (ReqlOpFailedError
                        ("Table `" ++ db ++ "." ++ name ++ "` already exists.")), s)
          | None =>
              (Ret (one (Some {["tables_created" := DNum 1]})),
               put_table s db name (Stored pk [] ∅))
          end
      end
  | table_drop db name =>
      match find_table s db name with
      | Raise e => (Raise e, s)
      | Ret _ =>
          (Ret (one (Some {["tables_dropped" := DNum 1]})),
           Server (<[db := base.delete name (default ∅ (dbs s !! db))]> (dbs s)) (keygen s))
      end
  | index_create (table db name) index fn =>
      match find_table s db name with
      | Raise e => (Raise e, s)
      | Ret tb =>
          match indexes tb !! index with
          | Some _ =>
              (Raise (ReqlOpFailedError ("Index `" ++ index ++ "` already exists.")), s)
          | None =>
              (Ret (one (Some {["created" := DNum 1]})),
               put_table s db name
                 (Stored (primary_key tb) (rows tb)
                    (<[index := default (on_field index) fn]> (indexes tb))))
          end
      end
  | insert (table db name) d conflict => do_insert s db name d conflict
  | delete t' =>
      do_write s t' (λ db name tb sel,
        match sel with
        | one None => (Ret skipped_one, s)
        | _ =>
            let keys := keys_of (primary_key tb) sel in
            let kept := List.filter (λ x, negb (key_among (x !! primary_key tb) keys))
                          (rows tb) in
            (Ret (one (Some (counts 0 0 0
                               (Z.of_nat (List.length (rows tb)) - Z.of_nat (List.length kept)) 0 0))),
             put_table s db name (with_rows tb kept))
        end)
  | update t' d =>
      do_write s t' (λ db name tb sel,
        match sel with
        | one None => (Ret skipped_one, s)
        | _ => do_rewrite s db name tb (keys_of (primary_key tb) sel) (λ old, d ∪ old)
        end)
  | replace t' d =>
      do_write s t' (λ db name tb sel,
        match sel, t' with
        | one None, get _ id =>
            if has_key (primary_key tb) id d then
              (Ret (one (Some (counts 1 0 0 0 0 0))),
               put_table s db name (with_rows tb (rows tb ++ [d])))
            else
              (Ret (one (Some (counts 0 0 0 0 0 1))), s)
        | one None, _ => (Ret skipped_one, s)
        | _, _ => do_rewrite s db name tb (keys_of (primary_key tb) sel) (λ _, d)
        end)
  | index_create _ _ _ | insert _ _ _ =>
      (Raise (RqlRuntimeError "Expected type TABLE"), s)
  | _ =>
      match source t with
      | None => (Raise (RqlRuntimeError "Expected type SELECTION"), s)
      | Some (db, name) =>
          match find_table s db name with
          | Raise e => (Raise e, s)
          | Ret tb => (select tb t, s)
          end
      end
  end.

End Reql.

(** ** Module state *)

(** A connection is known by the number the driver gave it. *)
Definition conn : Type := nat.

(** What the process does to the outside world, oldest first. *)
Inductive event : Type :=
| Slept (seconds : Z)
| Closed (c : conn)
| Printed (msg : string).

(** The module variables [__mdServers] and [__msPrefix], and the
    environment: [network d k] is the outcome of the [k]-th call of
    [r.connect] when made with details [d], [calls] counts the calls made so
    far, [rethinkdb] is the server the connections talk to. *)
Record world : Type := World {
  __mdServers : gmap string row;
  __msPrefix : string;
  network : row → nat → res conn;
  calls : nat;
  trace : list event;
  rethinkdb : Reql.server
}.

Definition set_servers (f : gmap string row → gmap string row) (w : world) : world :=
  World (f (__mdServers w)) (__msPrefix w) (network w) (calls w) (trace w) (rethinkdb w).
Definition set_prefix (p : string) (w : world) : world :=
  World (__mdServers w) p (network w) (calls w) (trace w) (rethinkdb w).
Definition set_calls (n : nat) (w : world) : world :=
  World (__mdServers w) (__msPrefix w) (network w) n (trace w) (rethinkdb w).
Definition emit (e : event) (w : world) : world :=
  World (__mdServers w) (__msPrefix w) (network w) (calls w) (trace w ++ [e]) (rethinkdb w).
Definition set_rethinkdb (s : Reql.server) (w : world) : world :=
  World (__mdServers w) (__msPrefix w) (network w) (calls w) (trace w) s.

(** A state that holds the module state: the world itself, or an instance
    together with the world. *)
Class HasWorld (S : Type) : Type := {
  the_world : S → world;
  with_world : world → S → S;
  the_with_world : ∀ w s, the_world (with_world w s) = w;
  with_with_world : ∀ w w' s, with_world w (with_world w' s) = with_world w s
}.

#[global] Instance world_has_world : HasWorld world :=
  {| the_world w := w; with_world w _ := w;
     the_with_world _ _ := eq_refl; with_with_world _ _ _ := eq_refl |}.

Definition zoom {S} `{HasWorld S} {A} (m : M world A) : M S A :=
  λ s, let '(r, w') := m (the_world s) in (r, with_world w' s).

(** [r.connect], called with the stored details as keyword arguments *)
Definition r_connect (details : row) : M world conn :=
  λ w, (network w details (calls w), set_calls (S (calls w)) w).

(** [time.sleep(seconds)] *)
Definition sleep (seconds : Z) : M world unit := modify (emit (Slept seconds)).

(** [conn.close()] *)
Definition close (c : conn) : M world unit := modify (emit (Closed c)).

(** Modelled from the spec: [print_error] of the repository's [OS] module,
    which is not among the sources.  The spec's logging sink takes a message,
    returns nothing and does not fail. *)
Definition print_error (msg : string) : M world unit := modify (emit (Printed msg)).

(** [cursor.run(conn)] *)
Definition run (oCon : conn) (t : Reql.term) : M world Reql.reply :=
  λ w, let '(r, s') := Reql.run t (rethinkdb w) in (r, set_rethinkdb s' w).

Definition dquote : string := String (ascii_of_nat 34) EmptyString.

(** ** Module functions *)

(** [globalPrefix(v = None)]: returns the prefix when [v] is falsy, stores
    [v] (and returns [None]) otherwise. *)
Definition globalPrefix (v : option string) : M world (option string) :=
  match v with
  | None | Some "" => p ← gets __msPrefix; mret (Some p)
  | Some v => modify (set_prefix v);; mret None
  end.

(** [server(name, details, update=False)] *)
Definition server (name : string) (details : row) (update : bool) : M world bool :=
  servers ← gets __mdServers;
  if bool_decide (servers !! name = None) || update then
    modify (set_servers <[name := details]>);;
    mret true
  else mret false.

(** [_connection(server, errcnt=0)].  The function calls itself after a
    failed attempt; [depth] is the number of frames the interpreter still
    allows. *)
Fixpoint _connection_at (depth : nat) (server : string) (errcnt : Z) : M world conn :=
  match depth with
  | O => raise (RuntimeError "maximum recursion depth exceeded")
  | S depth' =>
      servers ← gets __mdServers;
      match servers !! server with
      | None =>
          raise (ValueError ("_connection: no such server " ++ dquote ++ server ++ dquote))
      | Some details =>
          attempt ← try (r_connect details);
          match attempt with
          | Ret oCon => mret oCon
          | Raise (RqlDriverError args) =>
              let errcnt := errcnt + 1 in
              if errcnt =? 3 then raise (StorageException args)
              else sleep 1;; _connection_at depth' server errcnt
          | Raise e => raise e
          end
      end
  end.

Definition recursion_limit : nat := 1000.

Definition _connection (server : string) : M world conn :=
  _connection_at recursion_limit server 0.

(** [class connect_with] *)
Record connect_with : Type := { con : conn }.

Definition connect_with__init__ (server : string) : M world connect_with :=
  oCon ← _connection server;
  mret {| con := oCon |}.

Definition __enter__ (self : connect_with) : M world conn := mret (con self).

Definition __exit__ (self : connect_with) (exc : option exn) : M world datum :=
  close (con self);;
  match exc with
  | Some _ => mret (DBool false)
  | None => mret DNull
  end.

(** [with connect_with(server) as oCon: body].  [after] is the code that
    follows the statement, where control would continue if [__exit__]
    swallowed an exception of the body. *)
Definition with_connect_with {S} `{HasWorld S} {A} (server : string)
    (body : conn → M S A) (after : M S A) : M S A :=
  self ← zoom (connect_with__init__ server);
  oCon ← zoom (__enter__ self);
  outcome ← try (body oCon);
  match outcome with
  | Ret v => zoom (__exit__ self None);; mret v
  | Raise e =>
      swallow ← zoom (__exit__ self (Some e));
      if truthy swallow then after else raise e
  end.

(** ** Strings *)

(** [s.split(sep)] for a one-character separator. *)
Fixpoint split (sep : ascii) (s : string) : list string :=
  match s with
  | EmptyString => [EmptyString]
  | String c s' =>
      if Ascii.eqb c sep then EmptyString :: split sep s'
      else match split sep s' with
           | [] => [String c EmptyString]
           | x :: xs => String c x :: xs
           end
  end.

(** [int(s)] on a decimal literal with an optional minus sign. *)
Definition int {S} (s : string) : M S Z :=
  match NilZero.int_of_string s with
  | Some i => mret (Z.of_int i)
  | None => raise (ValueError ("invalid literal for int() with base 10: " ++ s))
  end.

(** ['%d' % n] *)
Definition format_d (n : Z) : string := NilZero.string_of_int (Z.to_int n).

(** ** Schema and configuration *)

(** A FormatOC tree, as far as the module uses it: its name, validation and
    cleaning of a whole record, and of one field through [tree[field]]. *)
Record node : Type := Node {
  node_valid : datum → bool;
  node_clean : datum → datum
}.

Record tree : Type := Tree {
  _name : string;
  valid : row → bool;
  validation_fail : row → string;
  clean : row → row;
  nodes : gmap string node
}.

(** The definition of an index in the configuration: nothing (or any falsy
    value), a field name, a list of field names, or a truthy value of another
    type, kept as its [str()]. *)
Inductive index_def : Type :=
| ix_none
| ix_field (f : string)
| ix_fields (fs : list string)
| ix_other (repr : string).

Record conf : Type := Conf {
  auto_id : bool;
  conf_server : string;
  conf_db : string;
  indexes : gmap string index_def;
  primary : string;
  revisions : bool
}.

(** What [struct()] of a Document subclass returns. *)
Record structure : Type := Structure {
  struct_tree : tree;
  struct_conf : conf
}.

(** A Document class is known by its [struct()]; the one of [Document]
    itself raises. *)
Record class : Type := Class_ { struct : res structure }.

Definition Document_class : class :=
  {| struct := Raise (StorageException ["child did not implement tree()"]) |}.

(** What [info()] returns. *)
Record info_t : Type := Info {
  info_tree : tree;
  info_conf : conf;
  info_server : string;
  info_db : string
}.

(** The dirty state [_dChanged]: a dict of changed fields, or a bool. *)
Inductive changed : Type :=
| changed_dict (d : row)
| changed_bool (b : bool).

Definition changed_truthy (c : changed) : bool :=
  match c with
  | changed_dict d => negb (bool_decide (map_to_list d = []))
  | changed_bool b => b
  end.

(** An instance of a Document class. *)
Record document : Type := Doc {
  __dInfo : info_t;
  _dData : row;
  _dChanged : changed
}.

Definition set_dData (d : row) (self : document) : document :=
  Doc (__dInfo self) d (_dChanged self).
Definition set_dChanged (c : changed) (self : document) : document :=
  Doc (__dInfo self) (_dData self) c.

#[global] Instance method_has_world : HasWorld (document * world) :=
  {| the_world s := s.2; with_world w s := (s.1, w);
     the_with_world _ _ := eq_refl; with_with_world _ _ _ := eq_refl |}.

(** The state of a method call: the instance and the module state. *)
Abbreviation method := (M (document * world)).

Definition self {A} (f : document → A) : method A := gets (λ s, f s.1).
Definition assign (f : document → document) : method unit :=
  modify (λ s, (f s.1, s.2)).

Definition lift {S A} (r : res A) : M S A := λ s, (r, s).

Definition is_empty (d : row) : bool := bool_decide (map_to_list d = []).

(** The arguments of [get] and [filter]. *)
Inductive selector : Type :=
| by_value (v : datum)
| by_tuple (l : list datum).

Inductive projection : Type :=
| raw_none
| raw_bool (b : bool)
| raw_fields (l : list string).

Definition raw_truthy (raw : projection) : bool :=
  match raw with
  | raw_none => false
  | raw_bool b => b
  | raw_fields l => match l with [] => false | _ => true end
  end.

Inductive ordering : Type :=
| order_none
| order_field (f : string)
| order_fields (l : list string).

(** What [get] and [filter] return: [None], one record, or a list; a record
    is an instance or a plain dict. *)
Inductive item : Type :=
| as_doc (d : document)
| as_raw (d : row).

Inductive fetched : Type :=
| nothing
| single (i : item)
| several (l : list item).

(** The names bound to strings at module level. *)
Definition module_strings : gmap string (world → string) :=
  {[ "__msPrefix" := __msPrefix ]}.

(** Reading a name that is no local variable of the function. *)
Definition global_name (n : string) : M world string :=
  match module_strings !! n with
  | Some f => gets f
  | None => raise (NameError n)
  end.

Definition has_field (d : row) (k : string) : bool :=
  match d !! k with
  | Some _ => true
  | None => false
  end.

Definition has_field_def {A} (k : string) (m : gmap string A) : bool :=
  match m !! k with
  | Some _ => true
  | None => false
  end.

(** [v[0]] *)
Definition first_item {S} (v : datum) : M S datum :=
  match v with
  | DArr (x :: _) => mret x
  | DArr [] => raise (IndexError "list index out of range")
  | _ => raise (TypeError "object has no attribute __getitem__")
  end.

(** Truthiness of what [run] returned: [None] and the empty dict are falsy,
    a cursor object is truthy. *)
Definition reply_truthy (r : Reql.reply) : bool :=
  match r with
  | Reql.one None => false
  | Reql.one (Some d) => negb (is_empty d)
  | Reql.many _ => true
  end.

Definition as_dict {S} (r : Reql.reply) : M S row :=
  match r with
  | Reql.one (Some d) => mret d
  | _ => raise (ValueError "reply is no object")
  end.

Fixpoint for_each {S A} (l : list A) (f : A → M S unit) : M S unit :=
  match l with
  | [] => mret tt
  | x :: l' => f x;; for_each l' f
  end.

Fixpoint for_list {S A B} (l : list A) (f : A → M S B) : M S (list B) :=
  match l with
  | [] => mret []
  | x :: l' => y ← f x; ys ← for_list l' f; mret (y :: ys)
  end.

Definition exn_str (e : exn) : string :=
  match e with
  | StorageException args => String.concat ", " args
  | ValueError s | KeyError s | AttributeError s | NameError s | RuntimeError s
  | TypeError s | IndexError s | RqlRuntimeError s | ReqlOpFailedError s => s
  | RqlDriverError args => String.concat ", " args
  end.

(** What [g] returns: the whole dict, or the value of one field. *)
Inductive got : Type :=
| whole (d : row)
| field_value (v : datum).

(** Truthiness of what [get] returned.  An instance is truthy: the class
    defines neither [__nonzero__] nor [__len__]. *)
Definition fetched_truthy (f : fetched) : bool :=
  match f with
  | nothing => false
  | single (as_doc _) => true
  | single (as_raw d) => negb (is_empty d)
  | several l => match l with [] => false | _ => true end
  end.

(** ** class Document *)

Module Document.
Section methods.

(** [md5(s).hexdigest()] and [json.dumps(d)] of the Python library. *)
Variable md5_hexdigest : string → string.
Variable json_dumps : row → string.

(** The class the methods are called on. *)
Variable cls : class.

Definition with_db (db : string) (i : info_t) : info_t :=
  Info (info_tree i) (info_conf i) (info_server i) db.

(** [info(cls, db={})] *)
Definition info (db : gmap string string) : M world info_t :=
  dStruct ← lift (struct cls);
  let dRet := Info (struct_tree dStruct) (struct_conf dStruct)
                   (conf_server (struct_conf dStruct)) (conf_db (struct_conf dStruct)) in
  let dRet := match db !! "server" with
              | Some srv => Info (info_tree dRet) (info_conf dRet) srv (info_db dRet)
              | None => dRet
              end in
  let dRet := match db !! "postfix" with
              | Some postfix => with_db (info_db dRet ++ "_" ++ postfix) dRet
              | None => dRet
              end in
  sPrefix ← globalPrefix None;
  match sPrefix with
  | Some p =>
      if negb (String.eqb p "") then mret (with_db (p ++ info_db dRet) dRet)
      else mret dRet
  | None => mret dRet
  end.

(** [cls(data, db)], the constructor. *)
Definition __init__ (data : row) (db : gmap string string) : M world document :=
  dInfo ← info db;
  (if negb (is_empty data) then
     if negb (valid (info_tree dInfo) data) then
       raise (ValueError (validation_fail (info_tree dInfo) data))
     else mret tt
   else mret tt);;
  mret (Doc dInfo (clean (info_tree dInfo) data) (changed_dict ∅)).

(** [_revision(self, init=False)] *)
Definition _revision (init : bool) : method bool :=
  if init then
    dData ← self _dData;
    (if has_field dData "_rev" then assign (set_dData (base.delete "_rev" dData))
     else mret tt);;
    dData ← self _dData;
    assign (set_dData (<["_rev" := DStr ("1-" ++ md5_hexdigest (json_dumps dData))]> dData));;
    mret true
  else
    dData ← self _dData;
    sOldRev ← getitem dData "_rev";
    assign (set_dData (base.delete "_rev" dData));;
    parts ← match sOldRev with
            | DStr rev => mret (split "-" rev)
            | _ => raise (AttributeError "split")
            end;
    match parts with
    | [sVer; sHash] =>
        dData ← self _dData;
        let sMD5 := md5_hexdigest (json_dumps dData) in
        if negb (String.eqb sHash sMD5) then
          n ← int sVer;
          assign (set_dData (<["_rev" := DStr (format_d (n + 1) ++ "-" ++ sMD5)]> dData));;
          dChanged ← self _dChanged;
          match dChanged with
          | changed_bool true => mret true
          | changed_dict c =>
              assign (set_dChanged (changed_dict (<["_rev" := DBool true]> c)));;
              mret true
          | changed_bool false =>
              raise (TypeError "bool object does not support item assignment")
          end
        else mret false
    | _ => raise (ValueError "wrong number of values to unpack")
    end.

(** [d(self, field)] *)
Definition d (field : string) : method unit :=
  dData ← self _dData;
  if negb (has_field dData field) then raise (KeyError field)
  else
    assign (set_dData (base.delete field dData));;
    assign (set_dChanged (changed_bool true)).

(** [s(self, field, value)] *)
Definition s (field : string) (value : datum) : method unit :=
  dStruct ← lift (struct cls);
  match nodes (struct_tree dStruct) !! field with
  | None => raise (KeyError field)
  | Some n =>
      if negb (node_valid n value) then raise (ValueError field)
      else
        let mClean := node_clean n value in
        dData ← self _dData;
        assign (set_dData (<[field := mClean]> dData));;
        dChanged ← self _dChanged;
        match dChanged with
        | changed_dict c => assign (set_dChanged (changed_dict (<[field := mClean]> c)))
        | changed_bool _ => mret tt
        end
  end.

Definition table_of (dInfo : info_t) : Reql.term :=
  Reql.table (info_db dInfo) (_name (info_tree dInfo)).

(** [delete(self)] *)
Definition delete : method bool :=
  dInfo ← self __dInfo;
  dData ← self _dData;
  let pk := primary (info_conf dInfo) in
  if negb (has_field dData pk) then
    raise (StorageException ["Can not delete document with no primary key"])
  else
    with_connect_with (info_server dInfo)
      (λ oCon,
         dData ← self _dData;
         id ← getitem dData pk;
         reply ← zoom (run oCon (Reql.delete (Reql.get (table_of dInfo) id)));
         dRes ← as_dict reply;
         deleted ← getitem dRes "deleted";
         if negb (datum_eqb deleted (DNum 1)) then mret false
         else
           dData ← self _dData;
           assign (set_dData (base.delete pk dData));;
           mret true)
      (mret true).

(** [insert(self, conflict='error')]: the ID, or [None]. *)
Definition insert (conflict : string) : method datum :=
  let conflict :=
    if bool_decide (conflict ∈ ["error"; "replace"; "update"]) then conflict
    else "error" in
  dInfo ← self __dInfo;
  (if revisions (info_conf dInfo) then _revision true;; mret tt else mret tt);;
  dRes ← with_connect_with (info_server dInfo)
           (λ oCon,
              dData ← self _dData;
              reply ← zoom (run oCon (Reql.insert (table_of dInfo) dData conflict));
              as_dict reply)
           (raise (NameError "dRes"));
  inserted ← getitem dRes "inserted";
  failed ← (if negb (datum_eqb inserted (DNum 1)) then
              replaced ← getitem dRes "replaced";
              mret (negb (datum_eqb replaced (DNum 1)))
            else mret false);
  if failed : bool then mret DNull
  else
    let pk := primary (info_conf dInfo) in
    (if auto_id (info_conf dInfo) then
       keys ← getitem dRes "generated_keys";
       key ← first_item keys;
       dData ← self _dData;
       assign (set_dData (<[pk := key]> dData))
     else mret tt);;
    dData ← self _dData;
    getitem dData pk.

(** The methods of the class that take no argument besides [self] and
    return a bool, by name.  The class body binds [__init__],
    [__contains__], [__delitem__], [__getitem__], [__setitem__],
    [__str__], [_revision], [d], [delete], [deleteGet], [exists], [filter],
    [g], [generateConfig], [get], [info], [insert], [s], [tableCreate],
    [tableDelete], [struct] and [update]; an instance adds [_dData],
    [_dChanged] and [__dInfo]. *)
Definition bound_method (name : string) : option (method bool) :=
  if String.eqb name "_revision" then Some (_revision false)
  else if String.eqb name "delete" then Some delete
  else None.

(** [self.name()] *)
Definition call (name : string) : method bool :=
  match bound_method name with
  | Some m => m
  | None => raise (AttributeError name)
  end.

(** [update(self, replace=False)].  The driver copies a dict into the
    cursor expression when the expression is built, so [oCur] holds
    [_dData] or [_dChanged] as they are at that point. *)
Definition update (replace : bool) : method bool :=
  dChanged ← self _dChanged;
  if negb (changed_truthy dChanged) then mret false
  else
    dInfo ← self __dInfo;
    dData ← self _dData;
    let pk := primary (info_conf dInfo) in
    if negb (has_field dData pk) then
      raise (StorageException ["Can not update document with no primary key"])
    else
      id ← getitem dData pk;
      let oCur := Reql.get (table_of dInfo) id in
      let oCur := match dChanged with
                  | changed_dict c =>
                      if replace then Reql.replace oCur dData else Reql.update oCur c
                  | changed_bool _ => Reql.replace oCur dData
                  end in
      let finish (dRes : row) : method bool :=
        replaced ← getitem dRes "replaced";
        if negb (datum_eqb replaced (DNum 1)) then mret false
        else assign (set_dChanged (changed_dict ∅));; mret true in
      if revisions (info_conf dInfo) then
        sRev ← getitem dData "_rev";
        fresh ← call "revision";
        if negb fresh then mret false
        else
          early ← with_connect_with (info_server dInfo)
                    (λ oCon,
                       dData ← self _dData;
                       id ← getitem dData pk;
                       dDoc ← zoom (run oCon (Reql.pluck (Reql.get (table_of dInfo) id)
                                                         ["_rev"]));
                       match dDoc with
                       | Reql.one (Some doc) =>
                           if is_empty doc then mret (inl false)
                           else
                             rev ← getitem doc "_rev";
                             if negb (datum_eqb rev sRev) then
                               raise (StorageException
                                 ["Document can not be updated because it is out of sync with the DB"])
                             else
                               reply ← zoom (run oCon oCur);
                               dRes ← as_dict reply;
                               mret (inr dRes)
                       | _ => mret (inl false)
                       end)
                    (raise (NameError "dRes"));
          match early with
          | inl b => mret b
          | inr dRes => finish dRes
          end
      else
        dRes ← with_connect_with (info_server dInfo)
                 (λ oCon, reply ← zoom (run oCon oCur); as_dict reply)
                 (raise (NameError "dRes"));
        finish dRes.

(** The index function handed to [index_create] for a definition. *)
Definition index_create_for (dInfo : info_t) (sIndex : string) (mFields : index_def)
    : res Reql.term :=
  let oCur := table_of dInfo in
  match mFields with
  | ix_none | ix_field "" | ix_fields [] => Ret (Reql.index_create oCur sIndex None)
  | ix_field f => Ret (Reql.index_create oCur sIndex (Some (Reql.on_field f)))
  | ix_fields fs => Ret (Reql.index_create oCur sIndex (Some (Reql.on_fields fs)))
  | ix_other repr => Raise (StorageException ["Unknown index format: " ++ repr])
  end.

(** The body of the loop over the declared indexes. *)
Definition create_index (dInfo : info_t) (oCon : conn) (ix : string * index_def)
    : M world unit :=
  oCur ← lift (index_create_for dInfo ix.1 ix.2);
  run oCon oCur;;
  mret tt.

(** [tableCreate(cls, db={})] *)
Definition tableCreate (db : gmap string string) : M world bool :=
  dInfo ← info db;
  with_connect_with (info_server dInfo)
    (λ oCon,
       outcome ← try (
         reply ← run oCon (Reql.table_create (info_db dInfo) (_name (info_tree dInfo))
                                             (primary (info_conf dInfo)));
         dRes ← as_dict reply;
         if negb (has_field dRes "tables_created")
            || negb (truthy (default DNull (dRes !! "tables_created")))
         then mret false
         else
           for_each (map_to_list (indexes (info_conf dInfo)))
             (create_index dInfo oCon);;
           mret true);
       match outcome with
       | Ret b => mret b
       | Raise e =>
           if is_RqlRuntimeError e then print_error (exn_str e);; mret false
           else raise e
       end)
    (mret true).

(** [tableDelete(cls, db={})] *)
Definition tableDelete (db : gmap string string) : M world bool :=
  dInfo ← info db;
  with_connect_with (info_server dInfo)
    (λ oCon,
       outcome ← try (
         reply ← run oCon (Reql.table_drop (info_db dInfo) (_name (info_tree dInfo)));
         dRes ← as_dict reply;
         if negb (has_field dRes "tables_dropped")
            || negb (truthy (default DNull (dRes !! "tables_dropped")))
         then mret false
         else mret true);
       match outcome with
       | Ret b => mret b
       | Raise e => if is_RqlRuntimeError e then mret false else raise e
       end)
    (mret true).

(** The loop of [get] over an index tuple: the position of its [None], or
    [-1]; a second [None] raises. *)
Fixpoint find_none (l : list datum) (i iNone : Z) : res Z :=
  match l with
  | [] => Ret iNone
  | DNull :: l' =>
      if negb (iNone =? -1) then
        Raise (StorageException ["can't list more than one None in an index tuple"])
      else find_none l' (i + 1) i
  | _ :: l' => find_none l' (i + 1) iNone
  end.

(** The selection part of the cursor that [get] builds, and whether
    several records are expected ([bMultiple]). *)
Definition select_by (oCur : Reql.term) (_id : selector) (index : option string)
    : res (Reql.term * bool) :=
  let index_given := match index with
                     | Some i => negb (String.eqb i "")
                     | None => false
                     end in
  match _id with
  | by_value DNull => Ret (oCur, true)
  | _ =>
      if index_given then
        match _id with
        | by_tuple l =>
            iNone ← find_none l 0 (-1);
            if iNone >? -1 then
              let idMax := <[Z.to_nat iNone := Reql.maxval]> (Reql.val <$> l) in
              let idMin := <[Z.to_nat iNone := Reql.minval]> (Reql.val <$> l) in
              Ret (Reql.between oCur idMin idMax (default "" index), true)
            else Ret (Reql.get_all oCur [DArr l] index, true)
        | by_value (DArr l) => Ret (Reql.get_all oCur l index, true)
        | by_value v => Ret (Reql.get_all oCur [v] index, true)
        end
      else
        match _id with
        | by_tuple l | by_value (DArr l) => Ret (Reql.get_all oCur l None, true)
        | by_value v => Ret (Reql.get oCur v, false)
        end
  end.

Definition with_pluck (raw : projection) (oCur : Reql.term) : Reql.term :=
  match raw with
  | raw_fields l => Reql.pluck oCur l
  | _ => oCur
  end.

Definition with_order (orderby : ordering) (oCur : Reql.term) : Reql.term :=
  match orderby with
  | order_fields l => Reql.order_by oCur l
  | order_field f => Reql.order_by oCur [f]
  | order_none => oCur
  end.

(** [raw and d or cls(d, db)] *)
Definition raw_or_instance (raw : projection) (row : row) (db : gmap string string)
    : M world item :=
  if raw_truthy raw && negb (is_empty row) then mret (as_raw row)
  else doc ← __init__ row db; mret (as_doc doc).

(** The list a result is returned as: the rows as they are when [raw] is
    truthy, instances otherwise. *)
Definition listed (raw : projection) (l : list row) (db : gmap string string)
    : M world fetched :=
  if raw_truthy raw then mret (several (as_raw <$> l))
  else docs ← for_list l (λ row, __init__ row db); mret (several (as_doc <$> docs)).

(** [get(cls, _id=None, index=None, filter=None, contains=None, raw=None,
    orderby=None, limit=0, db={})] *)
Definition get (_id : selector) (index : option string) (filter : option row)
    (contains : option (string * datum)) (raw : projection) (orderby : ordering)
    (limit : Z) (db : gmap string string) : M world fetched :=
  dInfo ← info db;
  (match index with
   | Some i =>
       if negb (String.eqb i "") && negb (has_field_def i (indexes (info_conf dInfo)))
       then raise (StorageException ["no index"; i; "tree"])
       else mret tt
   | None => mret tt
   end);;
  with_connect_with (info_server dInfo)
    (λ oCon,
       '(oCur, bMultiple) ← lift (select_by (table_of dInfo) _id index);
       let oCur := match filter with
                   | Some obj => if negb (is_empty obj) then Reql.filter oCur obj else oCur
                   | None => oCur
                   end in
       let oCur := match contains with
                   | Some (f, DArr vs) => Reql.filter_contains oCur f vs
                   | Some (f, v) => Reql.filter_contains oCur f [v]
                   | None => oCur
                   end in
       let oCur := if limit >? 0 then Reql.limit oCur limit else oCur in
       let oCur := with_order orderby (with_pluck raw oCur) in
       outcome ← try (run oCon oCur);
       itRes ← match outcome with
               | Ret reply => mret reply
               | Raise (ReqlOpFailedError msg) =>
                   if String.eqb (substring 0 5 msg) "Index" then
                     raise (StorageException ["no index"; default "None" index; "table"])
                   else raise (ReqlOpFailedError msg)
               | Raise e => raise e
               end;
       if limit =? 1 then
         match itRes with
         | Reql.many [] => mret nothing
         | Reql.many (dRow :: _) => i ← raw_or_instance raw dRow db; mret (single i)
         | Reql.one _ => raise (AttributeError "next")
         end
       else if negb (reply_truthy itRes) then
         if bMultiple : bool then
           if limit =? 1 then mret nothing else mret (several [])
         else mret nothing
       else if bMultiple then
         match itRes with
         | Reql.many l => listed raw l db
         | Reql.one _ => raise (TypeError "rows expected")
         end
       else
         match itRes with
         | Reql.one (Some row) => i ← raw_or_instance raw row db; mret (single i)
         | _ => raise (TypeError "object expected")
         end)
    (mret nothing).

(** [filter(cls, obj, raw=None, orderby=None, db={})] *)
Definition filter (obj : row) (raw : projection) (orderby : ordering)
    (db : gmap string string) : M world fetched :=
  dInfo ← info db;
  let obj := clean (info_tree dInfo) obj in
  sServer ← global_name "sServer";
  with_connect_with sServer
    (λ oCon,
       let oCur := Reql.filter (table_of dInfo) obj in
       let oCur := with_order orderby (with_pluck raw oCur) in
       itRes ← run oCon oCur;
       if negb (reply_truthy itRes) then mret (several [])
       else
         match itRes with
         | Reql.many l => listed raw l db
         | Reql.one _ => raise (TypeError "rows expected")
         end)
    (mret nothing).

(** [__contains__(self, field)] *)
Definition __contains__ (field : string) : method bool :=
  dData ← self _dData;
  mret (has_field dData field).

(** [g(self, field=None, default=None)] *)
Definition g (field : option string) (default : datum) : method got :=
  dData ← self _dData;
  match field with
  | None | Some "" => mret (whole dData)
  | Some f =>
      if negb (has_field dData f) then mret (field_value default)
      else v ← getitem dData f; mret (field_value v)
  end.

(** [__delitem__], [__getitem__] and [__setitem__] *)
Definition __delitem__ (field : string) : method unit := d field.
Definition __getitem__ (field : string) : method got := g (Some field) DNull.
Definition __setitem__ (field : string) (value : datum) : method unit := s field value.

(** [deleteGet(cls, _id, index=None, db={})]: the number of records
    deleted.  With an index, and with a tuple or list of primary keys, [_id]
    is handed to [get_all] as one key. *)
Definition deleteGet (_id : selector) (index : option string) (db : gmap string string)
    : M world datum :=
  dInfo ← info db;
  let index_given := match index with
                     | Some i => negb (String.eqb i "")
                     | None => false
                     end in
  (match index with
   | Some i =>
       if negb (String.eqb i "") && negb (has_field_def i (indexes (info_conf dInfo)))
       then raise (StorageException ["no index"; i; "tree"])
       else mret tt
   | None => mret tt
   end);;
  with_connect_with (info_server dInfo)
    (λ oCon,
       let oCur := table_of dInfo in
       let oCur := match _id with
                   | by_value DNull => oCur
                   | by_tuple l | by_value (DArr l) =>
                       if index_given then Reql.get_all oCur [DArr l] index
                       else Reql.get_all oCur [DArr l] None
                   | by_value v =>
                       if index_given then Reql.get_all oCur [v] index
                       else Reql.get oCur v
                   end in
       reply ← run oCon (Reql.delete oCur);
       dRes ← as_dict reply;
       getitem dRes "deleted")
    (mret DNull).

(** [exists(cls, _id, index=None, db={})] *)
Definition exists_ (_id : selector) (index : option string) (db : gmap string string)
    : M world bool :=
  dInfo ← info db;
  found ← get _id index None None (raw_fields [primary (info_conf dInfo)]) order_none 0 db;
  if negb (fetched_truthy found) then mret false else mret true.

End methods.
End Document.

(** ** Scenarios *)

(** Calling [globalPrefix] with each argument of a list in turn. *)
Definition globalPrefix_calls (vs : list (option string)) : M world unit :=
  for_each vs (λ v, globalPrefix v;; mret tt).

(** The arguments [globalPrefix] takes as "nothing was passed". *)
Definition falsy_arg (v : option string) : bool :=
  match v with
  | None | Some "" => true
  | Some _ => false
  end.

(** The database name of a configuration before the prefix is applied. *)
Definition unprefixed (c : conf) (db : gmap string string) : string :=
  match db !! "postfix" with
  | Some postfix => conf_db c ++ "_" ++ postfix
  | None => conf_db c
  end.

(** The index definitions [tableCreate] knows how to create. *)
Definition recognised (def : index_def) : bool :=
  match def with
  | ix_other _ => false
  | _ => true
  end.

(** The world after [n] calls of [r.connect], the last [n - 1] of them each
    preceded by a one-second sleep. *)
Definition after_attempts (n : nat) (w : world) : world :=
  World (__mdServers w) (__msPrefix w) (network w) (calls w + n)
        (trace w ++ replicate (n - 1) (Slept 1)) (rethinkdb w).

(** What the third, second and first of three attempts make of the outcome
    of [r.connect]: only the third turns a driver error into a
    [StorageException] with the same arguments. *)
Definition handed_on (last : bool) (r : res conn) : res conn :=
  match r with
  | Raise (RqlDriverError args) => if last then Raise (StorageException args) else r
  | _ => r
  end.

Definition driver_error (r : res conn) : bool :=
  match r with
  | Raise (RqlDriverError _) => true
  | _ => false
  end.


(** How often connection [c] was closed. *)
Definition closes (c : conn) (tr : list event) : nat :=
  List.length (List.filter (λ e, match e with
                                 | Closed c' => Nat.eqb c c'
                                 | _ => false
                                 end) tr).

(** *** A class, a registry and a server to run the functions on *)

Definition users_tree : tree :=
  Tree "users" (λ _, true) (λ _, "") (λ d, d)
       {[ "name" := Node (λ _, true) (λ v, v) ]}.

Definition users_conf : conf :=
  Conf false "default" "Test" {[ "ab" := ix_fields ["a"; "b"] ]} "_id" true.

Definition Users : class := Class_ (Ret (Structure users_tree users_conf)).

Definition users_info : info_t := Info users_tree users_conf "default" "Test".

(** A network on which every attempt succeeds, and one on which every
    attempt fails with a driver error. *)
Definition network_up : row → nat → res conn := λ _ k, Ret k.
Definition network_down : row → nat → res conn :=
  λ _ k, Raise (RqlDriverError ["Could not connect to localhost:28015."]).

Definition empty_server : Reql.server := Reql.Server {[ "Test" := ∅ ]} 0.

Definition world_up : world :=
  World {[ "default" := ∅ ]} "" network_up 0 [] empty_server.
Definition world_down : world :=
  World {[ "default" := ∅ ]} "" network_down 0 [] empty_server.

(** A persisted record of [Users] and an instance holding it. *)
Definition ann : row :=
  {[ "_id" := DStr "ann"; "name" := DStr "Ann"; "a" := DNum 5; "b" := DNum 7 ]}.

Definition ann_doc : document := Doc users_info ann (changed_dict ∅).

(** The world once the table of [Users] has been created. *)
Definition world_ready : world := (Document.tableCreate Users ∅ world_up).2.

(** *** Index tuples *)

Definition is_null (d : datum) : bool :=
  match d with
  | DNull => true
  | _ => false
  end.

(** How many components of an index tuple are [None]. *)
Definition wildcards (l : list datum) : nat := List.length (List.filter is_null l).

(** What [get] raises for a tuple with two [None]s. *)
Definition two_nones : exn :=
  StorageException ["can't list more than one None in an index tuple"].

(** A record agrees with an index tuple when it has every indexed field and
    each field equals the component at its position, unless that component
    is [None]. *)
Fixpoint agrees (fs : list string) (l : list datum) (d : row) : bool :=
  match fs, l with
  | [], [] => true
  | f :: fs', x :: l' =>
      match d !! f with
      | Some v => (is_null x || datum_eqb v x) && agrees fs' l' d
      | None => false
      end
  | _, _ => false
  end.

(** The rows of a table whose key under the index lies between two bounds. *)
Definition rows_between (ix : Reql.index_fn) (lo hi : list Reql.edge) (tb : Reql.stored)
    : list row :=
  List.filter (λ d, match Reql.index_key ix d with
                    | Some k => Reql.in_range k lo hi
                    | None => false
                    end) (Reql.rows tb).

(** What [raw] makes of a row before it is returned. *)
Definition projected (raw : projection) (d : row) : row :=
  match raw with
  | raw_fields l => Reql.pluck_row l d
  | _ => d
  end.

(** Three records, and a server that holds them in the table of [Users],
    with the compound index [ab] over the fields [a] and [b]. *)
Definition bob : row :=
  {[ "_id" := DStr "bob"; "name" := DStr "Bob"; "a" := DNum 5; "b" := DNum 9 ]}.
Definition cid : row :=
  {[ "_id" := DStr "cid"; "name" := DStr "Cid"; "a" := DNum 1; "b" := DNum 3 ]}.

Definition users_table : Reql.stored :=
  Reql.Stored "_id" [ann; bob; cid] {[ "ab" := Reql.on_fields ["a"; "b"] ]}.

Definition stocked_server : Reql.server :=
  Reql.Server {[ "Test" := {[ "users" := users_table ]} ]} 0.

Definition world_stocked : world :=
  World {[ "default" := ∅ ]} "" network_up 0 [] stocked_server.

(** *** Revisions *)

(** The revision [_revision(True)] stores: version 1 and the digest of the
    fields other than [_rev]. *)
Definition first_revision (md5_hexdigest : string → string) (json_dumps : row → string)
    (data : row) : datum :=
  DStr ("1-" ++ md5_hexdigest (json_dumps (base.delete "_rev" data))).

(** The instance [insert] sends to the server. *)
Definition stamped (md5_hexdigest : string → string) (json_dumps : row → string)
    (doc : document) : document :=
  if revisions (info_conf (__dInfo doc)) then
    set_dData (<["_rev" := first_revision md5_hexdigest json_dumps (_dData doc)]>
                 (base.delete "_rev" (_dData doc))) doc
  else doc.

(** The value [insert] passes on as [conflict]. *)
Definition cleaned_conflict (conflict : string) : string :=
  if bool_decide (conflict ∈ ["error"; "replace"; "update"]) then conflict else "error".

(** Stand-ins for [hashlib] and [json] in the worked examples: the digest of
    a string is the string itself, and a dict is written as its fields in
    key order. *)
Fixpoint show_datum (d : datum) : string :=
  match d with
  | DNull => "null"
  | DBool b => if b then "true" else "false"
  | DNum n => format_d n
  | DStr s => s
  | DArr l =>
      "[" ++ (fix go (l : list datum) : string :=
                match l with
                | [] => ""
                | x :: l' => show_datum x ++ ";" ++ go l'
                end) l ++ "]"
  end.

Definition demo_md5 (s : string) : string := s.
Definition demo_dumps (d : row) : string :=
  String.concat "," ((λ kv, kv.1 ++ ":" ++ show_datum kv.2) <$> map_to_list d).

(** A new record of [Users], the instance after [insert], and the instance
    after a field of it was set. *)
Definition dee : row := {[ "_id" := DStr "dee"; "name" := DStr "Dee" ]}.

Definition dee_inserted : document * world :=
  (Document.insert demo_md5 demo_dumps "error"
     (Doc users_info dee (changed_dict ∅), world_stocked)).2.

Definition dee_renamed : document * world :=
  (Document.s Users "name" (DStr "Di") dee_inserted).2.

(** The error [update] raises when the stored revision is not the one the
    instance holds. *)
Definition out_of_sync : exn :=
  StorageException ["Document can not be updated because it is out of sync with the DB"].

(** An instance of the record [ann] read at revision 1 and changed since,
    and a server on which the stored record has moved on to revision 2. *)
Definition ann_v1 : row := <["_rev" := DStr "1-aaaa"]> ann.
Definition ann_v2 : row := <["_rev" := DStr "2-bbbb"]> (<["name" := DStr "Anna"]> ann).

Definition stale_copy : document :=
  Doc users_info (<["name" := DStr "Annie"]> ann_v1)
      (changed_dict {[ "name" := DStr "Annie" ]}).

Definition world_moved_on : world :=
  World {[ "default" := ∅ ]} "" network_up 0 []
        (Reql.Server {[ "Test" := {[ "users" := Reql.Stored "_id" [ann_v2] ∅ ]} ]} 0).


(** ** Databases *)

(** [r.db_create(name)] and [r.db_drop(name)] on the server. *)
Module ReqlDb.

Inductive term : Type :=
| db_create (name : string)
| db_drop (name : string).

Definition run (t : term) : M Reql.server Reql.reply := λ s,
  match t with
  | db_create name =>
      match Reql.dbs s !! name with
      | Some _ =>
          (Raise (ReqlOpFailedError ("Database `" ++ name ++ "` already exists.")), s)
      | None =>
          (Ret (Reql.one (Some {[ "dbs_created" := DNum 1 ]})),
           Reql.Server (<[name := ∅]> (Reql.dbs s)) (Reql.keygen s))
      end
  | db_drop name =>
      match Reql.dbs s !! name with
      | Some _ =>
          (Ret (Reql.one (Some {[ "dbs_dropped" := DNum 1 ]})),
           Reql.Server (base.delete name (Reql.dbs s)) (Reql.keygen s))
      | None =>
          (Raise (ReqlOpFailedError ("Database `" ++ name ++ "` does not exist.")), s)
      end
  end.

End ReqlDb.

Definition run_db (oCon : conn) (t : ReqlDb.term) : M world Reql.reply :=
  λ w, let '(r, s') := ReqlDb.run t (rethinkdb w) in (r, set_rethinkdb s' w).

Definition is_ReqlOpFailedError (e : exn) : bool :=
  match e with
  | ReqlOpFailedError _ => true
  | _ => false
  end.

(** What a [with] block in a function leaves: a returned value, or nothing
    when control falls through to the code after it. *)
Definition falls_through {A} : option A := None.

(** [db_create(name, server='default')] *)
Definition db_create (name : string) (server : string) : M world bool :=
  outcome ← try (with_connect_with server
                   (λ oCon,
                      reply ← run_db oCon (ReqlDb.db_create name);
                      dRes ← as_dict reply;
                      if negb (has_field dRes "dbs_created")
                         || negb (truthy (default DNull (dRes !! "dbs_created")))
                      then mret (Some false)
                      else mret falls_through)
                   (mret falls_through));
  match outcome with
  | Ret (Some b) => mret b
  | Ret None => mret true
  | Raise e =>
      if is_ReqlOpFailedError e then mret true
      else if is_RqlRuntimeError e then mret false
      else raise e
  end.

(** [db_drop(name, server='default')] *)
Definition db_drop (name : string) (server : string) : M world bool :=
  outcome ← try (with_connect_with server
                   (λ oCon,
                      reply ← run_db oCon (ReqlDb.db_drop name);
                      dRes ← as_dict reply;
                      if negb (has_field dRes "dbs_dropped")
                         || negb (truthy (default DNull (dRes !! "dbs_dropped")))
                      then mret (Some false)
                      else mret falls_through)
                   (mret falls_through));
  match outcome with
  | Ret (Some b) => mret b
  | Ret None => mret true
  | Raise e => if is_RqlRuntimeError e then mret false else raise e
  end.

(** *** Changes to the fields of an instance *)

(** A call of [s] or of [d]. *)
Inductive edit : Type :=
| set_field (f : string) (v : datum)
| del_field (f : string).

Definition apply_edit (cls : class) (e : edit) : method unit :=
  match e with
  | set_field f v => Document.s cls f v
  | del_field f => Document.d f
  end.

(** A sequence of such calls by a caller that goes on after a call raised. *)
Definition apply_edits (cls : class) (es : list edit) : method unit :=
  for_each es (λ e, try (apply_edit cls e);; mret tt).

(** *** Updates *)

(** The cursor [update] builds for an instance whose primary key is [id]. *)
Definition update_cursor (replace : bool) (doc : document) (id : datum) : Reql.term :=
  let oCur := Reql.get (Document.table_of (__dInfo doc)) id in
  match _dChanged doc with
  | changed_dict c => if replace then Reql.replace oCur (_dData doc) else Reql.update oCur c
  | changed_bool _ => Reql.replace oCur (_dData doc)
  end.

Definition no_primary_key (what : string) : exn :=
  StorageException ["Can not " ++ what ++ " document with no primary key"].

(** A class like [Users] without revisions, and an instance of the stored
    record [ann] with a changed name. *)
Definition plain_conf : conf := Conf false "default" "Test" ∅ "_id" false.
Definition Plain : class := Class_ (Ret (Structure users_tree plain_conf)).
Definition plain_info : info_t := Info users_tree plain_conf "default" "Test".

Definition ann_renamed : document :=
  Doc plain_info (<["name" := DStr "Anna"]> ann) (changed_dict {[ "name" := DStr "Anna" ]}).

(** *** Looking up by primary key *)

(** The values [get] takes as one primary key: anything but [None] and a
    list. *)
Definition one_key (id : datum) : bool :=
  match id with
  | DNull | DArr _ => false
  | _ => true
  end.

(** The stored row with primary key [id], if there is one. *)
Definition stored_row (tb : Reql.stored) (id : datum) : option row :=
  List.find (Reql.has_key (Reql.primary_key tb) id) (Reql.rows tb).

(** A new instance of [Users] holding the record [dee]. *)
Definition dee_doc : document := Doc users_info dee (changed_dict ∅).

(** The error for an index that is not declared ([tree]) or not known to
    the server ([table]). *)
Definition no_index (index place : string) : exn :=
  StorageException ["no index"; index; place].

(** The rows of a table without those whose primary key is [id]. *)
Definition rows_without (tb : Reql.stored) (id : datum) : list row :=
  List.filter (λ x, negb (Reql.has_key (Reql.primary_key tb) id x)) (Reql.rows tb).

(** A class whose keys the server makes up, and a new record without one. *)
Definition auto_conf : conf := Conf true "default" "Test" ∅ "_id" false.
Definition auto_info : info_t := Info users_tree auto_conf "default" "Test".
Definition eve_doc : document :=
  Doc auto_info {[ "name" := DStr "Eve" ]} (changed_dict ∅).

(** A string without the separator of a revision: what a hexadecimal digest
    is, and what ['%d'] writes for a number that is not negative. *)
Fixpoint dashless (s : string) : bool :=
  match s with
  | EmptyString => true
  | String c s' => negb (Ascii.eqb c "-") && dashless s'
  end.
(** * Properties *)

(** ** The monad *)

Ltac unfold_monad :=
  unfold self, assign, zoom, lift in *;
  unfold mbind, mret, M_bind, M_ret, res_bind, res_ret, bind, ret, raise, try, gets,
    modify in *;
  cbn [fst snd the_world with_world world_has_world method_has_world] in *.

(** ** The table-name prefix *)

Lemma globalPrefix_falsy v w :
  falsy_arg v = true → globalPrefix v w = (Ret (Some (__msPrefix w)), w).
Proof.
  destruct v as [[|a v]|]; try discriminate; reflexivity.
Qed.

Lemma globalPrefix_truthy v w :
  falsy_arg (Some v) = false → globalPrefix (Some v) w = (Ret None, set_prefix v w).
Proof.
  destruct v; [discriminate | reflexivity].
Qed.

Lemma globalPrefix_never_empties v w :
  __msPrefix w ≠ "" → __msPrefix (globalPrefix v w).2 ≠ "".
Proof.
  intros Hw. destruct (falsy_arg v) eqn:E.
  - by rewrite globalPrefix_falsy.
  - destruct v as [v|]; [|discriminate].
    rewrite globalPrefix_truthy by done. cbn. by destruct v.
Qed.

Lemma globalPrefix_calls_never_empty vs w :
  __msPrefix w ≠ "" → __msPrefix (globalPrefix_calls vs w).2 ≠ "".
Proof.
  revert w. induction vs as [|v vs IH]; intros w Hw; [done|].
  unfold globalPrefix_calls in *. cbn [for_each]. unfold_monad.
  pose proof (globalPrefix_never_empties v w Hw) as Hv.
  destruct (globalPrefix v w) as [[o|e] w1]; cbn in *; [|done].
  by apply IH.
Qed.

Lemma globalPrefix_calls_falsy vs w :
  forallb falsy_arg vs = true → (globalPrefix_calls vs w).2 = w.
Proof.
  revert w. induction vs as [|v vs IH]; intros w Hvs; [done|].
  apply andb_prop in Hvs as [Hv Hvs].
  unfold globalPrefix_calls in *. cbn [for_each]. unfold_monad.
  rewrite globalPrefix_falsy by done. by apply IH.
Qed.

Lemma info_prefixed cls st db w :
  struct cls = Ret st →
  Document.info cls db w =
    (Ret (Info (struct_tree st) (struct_conf st)
               (default (conf_server (struct_conf st)) (db !! "server"))
               (__msPrefix w ++ unprefixed (struct_conf st) db)), w).
Proof.
  intros Hst. unfold Document.info, unprefixed. unfold_monad. rewrite Hst.
  rewrite (globalPrefix_falsy None) by done.
  destruct (__msPrefix w) eqn:Hp; cbn;
    destruct (db !! "server"), (db !! "postfix"); reflexivity.
Qed.

(** C10: a call of [globalPrefix] with a falsy argument (none, [None] or the
    empty string) returns the current prefix and leaves it as it is; so once
    the prefix was set to a non-empty [p] no sequence of calls makes it empty
    again, calls with falsy arguments keep the very [p], and [info] resolves
    every database name with the current prefix in front. *)
Theorem globalPrefix_falsy_reads_and_prefix_sticks (p : string)
    (vs : list (option string)) (w : world) cls st (db : gmap string string) :
  p ≠ "" →
  struct cls = Ret st →
  let w1 := (globalPrefix (Some p) w).2 in
  let w2 := (globalPrefix_calls vs w1).2 in
  globalPrefix None w = (Ret (Some (__msPrefix w)), w)
  ∧ globalPrefix (Some "") w = (Ret (Some (__msPrefix w)), w)
  ∧ __msPrefix w1 = p
  ∧ __msPrefix w2 ≠ ""
  ∧ (forallb falsy_arg vs = true → __msPrefix w2 = p)
  ∧ ∃ i, Document.info cls db w2 = (Ret i, w2)
         ∧ info_db i = __msPrefix w2 ++ unprefixed (struct_conf st) db.
Proof.
  intros Hp Hst w1 w2.
  assert (Hw1 : __msPrefix w1 = p).
  { subst w1. rewrite globalPrefix_truthy; [done | by destruct p]. }
  split; [done|]. split; [done|]. split; [done|]. split; [|split].
  - subst w2. apply globalPrefix_calls_never_empty. by rewrite Hw1.
  - intros Hvs. subst w2. by rewrite globalPrefix_calls_falsy.
  - eexists. split; [by apply info_prefixed | done].
Qed.

Lemma globalPrefix_falsy_reads_and_prefix_sticks_witness :
  "dev_" ≠ ""
  ∧ struct Users = Ret (Structure users_tree users_conf)
  ∧ let w1 := (globalPrefix (Some "dev_") world_up).2 in
    let w2 := (globalPrefix_calls [None; Some ""; None] w1).2 in
    globalPrefix None world_up = (Ret (Some (__msPrefix world_up)), world_up)
    ∧ globalPrefix (Some "") world_up = (Ret (Some (__msPrefix world_up)), world_up)
    ∧ __msPrefix w1 = "dev_"
    ∧ __msPrefix w2 ≠ ""
    ∧ (forallb falsy_arg [None; Some ""; None] = true → __msPrefix w2 = "dev_")
    ∧ ∃ i, Document.info Users ∅ w2 = (Ret i, w2)
           ∧ info_db i = __msPrefix w2 ++ unprefixed users_conf ∅.
Proof.
  split; [discriminate|]. split; [reflexivity|].
  apply (globalPrefix_falsy_reads_and_prefix_sticks "dev_" [None; Some ""; None] world_up
           Users (Structure users_tree users_conf) ∅); [discriminate | reflexivity].
Defined.

(** With the prefix set to [dev_], the database of [Users] resolves to
    [dev_Test], also after an attempt to clear the prefix. *)
Example info_after_prefix :
  let w1 := (globalPrefix (Some "dev_") world_up).2 in
  let w2 := (globalPrefix (Some "") w1).2 in
  ∃ i, (Document.info Users ∅ w2).1 = Ret i ∧ info_db i = "dev_Test".
Proof. eexists. split; vm_compute; reflexivity. Qed.

(** ** Acquiring a connection *)

Lemma _connection_at_unregistered depth server errcnt w :
  __mdServers w !! server = None →
  ∃ e, _connection_at (S depth) server errcnt w = (Raise e, w)
       ∧ match e with ValueError _ => True | _ => False end.
Proof.
  intros Hs. cbn [_connection_at]. unfold_monad. rewrite Hs. by eexists.
Qed.

Lemma _connection_at_step depth server errcnt w details :
  __mdServers w !! server = Some details →
  _connection_at (S depth) server errcnt w =
    let w1 := set_calls (S (calls w)) w in
    match network w details (calls w) with
    | Ret oCon => (Ret oCon, w1)
    | Raise (RqlDriverError args) =>
        if errcnt + 1 =? 3 then (Raise (StorageException args), w1)
        else _connection_at depth server (errcnt + 1) (emit (Slept 1) w1)
    | Raise e => (Raise e, w1)
    end.
Proof.
  intros Hs. cbn [_connection_at]. unfold_monad. rewrite Hs.
  unfold r_connect, sleep. unfold_monad.
  destruct (network w details (calls w)) as [c|[]]; try reflexivity.
  by destruct (errcnt + 1 =? 3).
Qed.

Lemma after_attempts_1 w : after_attempts 1 w = set_calls (S (calls w)) w.
Proof.
  unfold after_attempts, set_calls. cbn. rewrite app_nil_r. f_equal. lia.
Qed.

Lemma _connection_at_spec depth server w details :
  __mdServers w !! server = Some details →
  ∃ n : nat,
    (1 ≤ n ≤ 3)%nat
    ∧ (∀ k : nat, (k < n - 1)%nat → driver_error (network w details (calls w + k)) = true)
    ∧ (driver_error (network w details (calls w + (n - 1))) = true → n = 3%nat)
    ∧ _connection_at (S (S (S depth))) server 0 w =
        (handed_on (bool_decide (n = 3%nat)) (network w details (calls w + (n - 1))),
         after_attempts n w).
Proof.
  intros Hs.
  rewrite (_connection_at_step _ _ _ _ _ Hs). cbn zeta.
  destruct (driver_error (network w details (calls w))) eqn:D1; cycle 1.
  { exists 1%nat. cbn [Nat.sub]. rewrite Nat.add_0_r, after_attempts_1, D1.
    split; [lia|]. split; [intros k Hk; lia|]. split; [done|].
    by destruct (network w details (calls w)) as [c|[]]. }
  destruct (network w details (calls w)) as [c|[| | | | | | | |args1| |]] eqn:E1;
    try discriminate. clear D1.
  change (0 + 1 =? 3) with false. cbn match.
  set (w1 := emit (Slept 1) (set_calls (S (calls w)) w)).
  assert (Hs1 : __mdServers w1 !! server = Some details) by done.
  rewrite (_connection_at_step _ _ _ _ _ Hs1). cbn zeta.
  change (network w1) with (network w). change (calls w1) with (S (calls w)).
  assert (Hk1 : ∀ k : nat, (k < 1)%nat →
                driver_error (network w details (calls w + k)) = true).
  { intros k Hk. assert (k = 0)%nat as -> by lia. by rewrite Nat.add_0_r, E1. }
  destruct (driver_error (network w details (S (calls w)))) eqn:D2; cycle 1.
  { exists 2%nat. cbn [Nat.sub]. replace (calls w + 1)%nat with (S (calls w)) by lia.
    rewrite D2.
    split; [lia|]. split; [done|]. split; [done|].
    assert (Hw : set_calls (S (S (calls w))) w1 = after_attempts 2 w).
    { unfold after_attempts, set_calls, w1, emit. cbn. f_equal. lia. }
    rewrite Hw.
    by destruct (network w details (S (calls w))) as [c|[]]. }
  destruct (network w details (S (calls w))) as [c|[| | | | | | | |args2| |]] eqn:E2;
    try discriminate. clear D2.
  change (0 + 1 + 1 =? 3) with false. cbn match.
  set (w2 := emit (Slept 1) (set_calls (S (calls w1)) w1)).
  assert (Hs2 : __mdServers w2 !! server = Some details) by done.
  rewrite (_connection_at_step _ _ _ _ _ Hs2). cbn zeta.
  change (network w2) with (network w). change (calls w2) with (S (S (calls w))).
  change (0 + 1 + 1 + 1 =? 3) with true. cbn match.
  exists 3%nat. cbn [Nat.sub]. replace (calls w + 2)%nat with (S (S (calls w))) by lia.
  split; [lia|]. split; [|split; [done|]].
  - intros k Hk. assert (k = 0 ∨ k = 1)%nat as [-> | ->] by lia.
    + by rewrite Nat.add_0_r, E1.
    + replace (calls w + 1)%nat with (S (calls w)) by lia. by rewrite E2.
  - assert (Hw : set_calls (S (S (S (calls w)))) w2 = after_attempts 3 w).
    { unfold after_attempts, set_calls, w2, w1, emit. cbn.
      rewrite <- app_assoc. cbn. f_equal. lia. }
    rewrite Hw.
    by destruct (network w details (S (S (calls w)))) as [c|[]].
Qed.

(** C4: for a registered server, [_connection] calls [r.connect] at least
    once and at most three times, sleeping one second before each call after
    the first; every call before the last one failed with a driver error; a
    driver error at the last call means it was the third, and is then raised
    as a [StorageException] with the arguments of that driver error, while
    any other outcome of the last call is handed on as it is.  No call is made
    after that. *)
Theorem _connection_retries_three_times server w details :
  __mdServers w !! server = Some details →
  ∃ n : nat,
    (1 ≤ n ≤ 3)%nat
    ∧ (∀ k : nat, (k < n - 1)%nat → driver_error (network w details (calls w + k)) = true)
    ∧ (driver_error (network w details (calls w + (n - 1))) = true → n = 3%nat)
    ∧ _connection server w =
        (handed_on (bool_decide (n = 3%nat)) (network w details (calls w + (n - 1))),
         after_attempts n w)
    ∧ calls (_connection server w).2 = (calls w + n)%nat
    ∧ trace (_connection server w).2 = (trace w ++ replicate (n - 1) (Slept 1))%list.
Proof.
  intros Hs. unfold _connection.
  change recursion_limit with (S (S (S 997))).
  destruct (_connection_at_spec 997 server w details Hs) as (n & Hn & Hk & Hl & Heq).
  exists n. rewrite Heq. cbn [snd after_attempts calls trace].
  split; [exact Hn|]. split; [exact Hk|]. split; [exact Hl|]. done.
Qed.

Lemma _connection_retries_three_times_witness :
  __mdServers world_down !! "default" = Some ∅
  ∧ ∃ n : nat,
      (1 ≤ n ≤ 3)%nat
      ∧ (∀ k : nat, (k < n - 1)%nat →
           driver_error (network world_down ∅ (calls world_down + k)) = true)
      ∧ (driver_error (network world_down ∅ (calls world_down + (n - 1))) = true →
           n = 3%nat)
      ∧ _connection "default" world_down =
          (handed_on (bool_decide (n = 3%nat))
             (network world_down ∅ (calls world_down + (n - 1))),
           after_attempts n world_down)
      ∧ calls (_connection "default" world_down).2 = (calls world_down + n)%nat
      ∧ trace (_connection "default" world_down).2 =
          (trace world_down ++ replicate (n - 1) (Slept 1))%list.
Proof.
  split; [reflexivity|].
  apply (_connection_retries_three_times "default" world_down ∅). reflexivity.
Defined.

(** On a network that is down, the third driver error ends the attempts. *)
Example _connection_gives_up :
  _connection "default" world_down =
    (Raise (StorageException ["Could not connect to localhost:28015."]),
     after_attempts 3 world_down).
Proof. vm_compute. reflexivity. Qed.

(** ** Scoped use of a connection *)

Lemma with_connect_with_unfold {S} `{HasWorld S} {A} server (body : conn → M S A)
    (after : M S A) (s : S) :
  with_connect_with server body after s =
    match _connection server (the_world s) with
    | (Raise e, w1) => (Raise e, with_world w1 s)
    | (Ret c, w1) =>
        let s2 := (body c (with_world w1 s)).2 in
        ((body c (with_world w1 s)).1, with_world (emit (Closed c) (the_world s2)) s2)
    end.
Proof.
  unfold with_connect_with, connect_with__init__, __enter__, __exit__, close.
  unfold_monad.
  destruct (_connection server (the_world s)) as [[c|e] w1]; [|reflexivity].
  cbn. rewrite !the_with_world, with_with_world.
  by destruct (body c (with_world w1 s)) as [[v|e] s2].
Qed.

(** C5: once [connect_with] has acquired connection [c], the [with]
    statement hands on what its body returned or raised, and the state it
    leaves is the one the body left with exactly one [close] of [c] added at
    the end, on the normal and on the exceptional exit alike. *)
Theorem connect_with_closes_once {St} `{HasWorld St} {A} server (body : conn → M St A)
    (after : M St A) (s : St) (c : conn) (w1 : world) :
  _connection server (the_world s) = (Ret c, w1) →
  let s1 := with_world w1 s in
  let s2 := (body c s1).2 in
  let out := with_connect_with server body after s in
  out.1 = (body c s1).1
  ∧ (∀ e, (body c s1).1 = Raise e → out.1 = Raise e)
  ∧ the_world out.2 = emit (Closed c) (the_world s2)
  ∧ trace (the_world out.2) = (trace (the_world s2) ++ [Closed c])%list
  ∧ closes c (trace (the_world out.2)) = S (closes c (trace (the_world s2))).
Proof.
  intros Hc s1 s2 out. subst out.
  rewrite with_connect_with_unfold, Hc. cbn [fst snd]. fold s1. fold s2.
  rewrite the_with_world.
  split; [done|]. split; [done|]. split; [done|]. split; [done|].
  cbn [trace emit]. unfold closes.
  rewrite List.filter_app, List.length_app. cbn. rewrite Nat.eqb_refl. cbn. lia.
Qed.

(** A body that runs a query and raises in the middle of the [with] block. *)
Lemma connect_with_closes_once_witness :
  _connection "default" (the_world world_up) = (Ret 0%nat, set_calls 1 world_up)
  ∧ let body := λ _ : conn, raise (S := world) (A := bool) (KeyError "deleted") in
    let s1 := with_world (set_calls 1 world_up) world_up in
    let s2 := (body 0%nat s1).2 in
    let out := with_connect_with "default" body (mret true) world_up in
    out.1 = (body 0%nat s1).1
    ∧ (∀ e, (body 0%nat s1).1 = Raise e → out.1 = Raise e)
    ∧ the_world out.2 = emit (Closed 0%nat) (the_world s2)
    ∧ trace (the_world out.2) = (trace (the_world s2) ++ [Closed 0%nat])%list
    ∧ closes 0%nat (trace (the_world out.2)) = S (closes 0%nat (trace (the_world s2))).
Proof.
  split; [vm_compute; reflexivity|].
  apply (connect_with_closes_once "default"
           (λ _ : conn, raise (S := world) (A := bool) (KeyError "deleted"))
           (mret true) world_up 0%nat (set_calls 1 world_up)).
  vm_compute. reflexivity.
Defined.

(** When no connection is acquired, the body does not run and nothing is
    closed. *)
Lemma connect_with_not_acquired {S} `{HasWorld S} {A} server (body : conn → M S A)
    (after : M S A) (s : S) e w1 :
  _connection server (the_world s) = (Raise e, w1) →
  with_connect_with server body after s = (Raise e, with_world w1 s).
Proof.
  intros Hc. by rewrite with_connect_with_unfold, Hc.
Qed.

(** ** Deleting a record *)

Ltac run_delete doc w1 id :=
  destruct (Reql.run (Reql.delete (Reql.get (Document.table_of (__dInfo doc)) id))
                     (rethinkdb w1)) as [[[[dRes|]|l]|e] s1]; cbn;
  [ destruct (dRes !! "deleted") as [v|]; cbn;
    [ destruct (datum_eqb v (DNum 1)); cbn | ] | | | ].

(** C9: for an instance that has its primary key, whatever [delete] does
    other than return [True] leaves the instance as it was, so after a
    [False] (the server deleted no row) the primary key is still among the
    fields; a [True] comes with exactly the primary key removed. *)
Theorem delete_drops_key_only_on_true (doc : document) (w : world) :
  has_field (_dData doc) (primary (info_conf (__dInfo doc))) = true →
  let pk := primary (info_conf (__dInfo doc)) in
  let out := Document.delete (doc, w) in
  (out.1 = Ret false → out.2.1 = doc ∧ has_field (_dData out.2.1) pk = true)
  ∧ (out.1 ≠ Ret true → out.2.1 = doc)
  ∧ (has_field (_dData out.2.1) pk = false → out.1 = Ret true)
  ∧ (out.1 = Ret true → out.2.1 = set_dData (base.delete pk (_dData doc)) doc).
Proof.
  intros Hpk pk out. subst pk out.
  unfold Document.delete. unfold_monad. rewrite Hpk. cbn [negb].
  rewrite with_connect_with_unfold. cbn [the_world with_world method_has_world fst snd].
  destruct (_connection (info_server (__dInfo doc)) w) as [[c|e] w1];
    [|cbn; rewrite Hpk; by repeat split].
  pose proof Hpk as Hpk'.
  unfold has_field in Hpk.
  destruct (_dData doc !! primary (info_conf (__dInfo doc))) as [id|] eqn:Hid; [|done].
  unfold getitem, run, as_dict. unfold_monad. rewrite Hid. cbn [fst snd].
  run_delete doc w1 id; rewrite ?Hpk'; repeat split; try done.
Qed.

(** When the server answers that it deleted no row, [delete] returns
    [False]. *)
Lemma delete_false_when_none_deleted (doc : document) (w w1 : world) c id dRes v s1 :
  _dData doc !! primary (info_conf (__dInfo doc)) = Some id →
  _connection (info_server (__dInfo doc)) w = (Ret c, w1) →
  Reql.run (Reql.delete (Reql.get (Document.table_of (__dInfo doc)) id)) (rethinkdb w1)
    = (Ret (Reql.one (Some dRes)), s1) →
  dRes !! "deleted" = Some v → datum_eqb v (DNum 1) = false →
  Document.delete (doc, w) = (Ret false, (doc, emit (Closed c) (set_rethinkdb s1 w1))).
Proof.
  intros Hid Hc Hrun Hv Hne.
  unfold Document.delete. unfold_monad. unfold has_field. rewrite Hid. cbn [negb].
  rewrite with_connect_with_unfold. cbn [the_world with_world method_has_world fst snd].
  rewrite Hc. unfold getitem, run, as_dict. unfold_monad.
  rewrite Hid. cbn [fst snd]. rewrite Hrun. cbn. rewrite Hv. cbn. rewrite Hne.
  reflexivity.
Qed.

(** An instance whose record is not in the table: no row is deleted, the
    call returns [False] and the instance keeps its key. *)
Lemma delete_drops_key_only_on_true_witness :
  has_field (_dData ann_doc) (primary (info_conf (__dInfo ann_doc))) = true
  ∧ (Document.delete (ann_doc, world_ready)).1 = Ret false
  ∧ let pk := primary (info_conf (__dInfo ann_doc)) in
    let out := Document.delete (ann_doc, world_ready) in
    (out.1 = Ret false → out.2.1 = ann_doc ∧ has_field (_dData out.2.1) pk = true)
    ∧ (out.1 ≠ Ret true → out.2.1 = ann_doc)
    ∧ (has_field (_dData out.2.1) pk = false → out.1 = Ret true)
    ∧ (out.1 = Ret true → out.2.1 = set_dData (base.delete pk (_dData ann_doc)) ann_doc).
Proof.
  split; [vm_compute; reflexivity|].
  split; [vm_compute; reflexivity|].
  apply (delete_drops_key_only_on_true ann_doc world_ready). vm_compute. reflexivity.
Defined.

(** ** Creating a table *)

Lemma _connection_up server w details c :
  __mdServers w !! server = Some details →
  network w details (calls w) = Ret c →
  _connection server w = (Ret c, set_calls (S (calls w)) w).
Proof.
  intros Hs Hn. unfold _connection. change recursion_limit with (S 999).
  rewrite (_connection_at_step _ _ _ _ _ Hs). cbn zeta. by rewrite Hn.
Qed.

Lemma find_table_put s db name tb :
  Reql.find_table (Reql.put_table s db name tb) db name = Ret tb.
Proof.
  unfold Reql.find_table, Reql.find_db, Reql.put_table. cbn.
  rewrite lookup_insert_eq. cbn. by rewrite lookup_insert_eq.
Qed.

Lemma find_table_inv s db name tb :
  Reql.find_table s db name = Ret tb →
  ∃ tables, Reql.dbs s !! db = Some tables ∧ tables !! name = Some tb.
Proof.
  unfold Reql.find_table, Reql.find_db. intros Hf.
  destruct (Reql.dbs s !! db) as [tables|]; cbn in Hf; [|done].
  exists tables. split; [done|].
  destruct (tables !! name); by inversion Hf.
Qed.

Lemma table_create_existing s db name pk tb :
  Reql.find_table s db name = Ret tb →
  ∃ msg, Reql.run (Reql.table_create db name pk) s = (Raise (ReqlOpFailedError msg), s).
Proof.
  intros (tables & Hdb & Htb)%find_table_inv.
  unfold Reql.run, Reql.find_db. rewrite Hdb, Htb. by eexists.
Qed.

Lemma table_create_fresh s db name pk tables :
  Reql.dbs s !! db = Some tables → tables !! name = None →
  Reql.run (Reql.table_create db name pk) s =
    (Ret (Reql.one (Some {[ "tables_created" := DNum 1 ]})),
     Reql.put_table s db name (Reql.Stored pk [] ∅)).
Proof.
  intros Hdb Htb. unfold Reql.run, Reql.find_db. by rewrite Hdb, Htb.
Qed.

Lemma index_create_fresh s db name tb index fn :
  Reql.find_table s db name = Ret tb →
  Reql.indexes tb !! index = None →
  Reql.run (Reql.index_create (Reql.table db name) index fn) s =
    (Ret (Reql.one (Some {[ "created" := DNum 1 ]})),
     Reql.put_table s db name
       (Reql.Stored (Reql.primary_key tb) (Reql.rows tb)
          (<[index := default (Reql.on_field index) fn]> (Reql.indexes tb)))).
Proof.
  intros Hf Hi. unfold Reql.run. by rewrite Hf, Hi.
Qed.

Lemma index_create_for_recognised dInfo sIndex mFields :
  recognised mFields = true →
  ∃ fn, Document.index_create_for dInfo sIndex mFields =
          Ret (Reql.index_create (Document.table_of dInfo) sIndex fn).
Proof.
  intros Hr. destruct mFields as [|f|fs|repr]; cbn; [by eexists | | |done].
  - destruct f; by eexists.
  - destruct fs; by eexists.
Qed.

Lemma create_index_fresh dInfo c i def w tb :
  recognised def = true →
  Reql.find_table (rethinkdb w) (info_db dInfo) (_name (info_tree dInfo)) = Ret tb →
  Reql.indexes tb !! i = None →
  ∃ fn,
    Document.create_index dInfo c (i, def) w =
      (Ret tt,
       set_rethinkdb
         (Reql.put_table (rethinkdb w) (info_db dInfo) (_name (info_tree dInfo))
            (Reql.Stored (Reql.primary_key tb) (Reql.rows tb)
               (<[i := fn]> (Reql.indexes tb)))) w).
Proof.
  intros Hdef Hf Hi.
  destruct (index_create_for_recognised dInfo i def Hdef) as [fn Hfn].
  exists (default (Reql.on_field i) fn).
  unfold Document.create_index. unfold_monad. cbn [fst snd].
  rewrite Hfn. unfold run, Document.table_of.
  by rewrite (index_create_fresh _ _ _ tb).
Qed.

Lemma create_indexes_ok dInfo c (l : list (string * index_def)) :
  ∀ w tb,
    NoDup l.*1 →
    Forall (λ ix, recognised ix.2 = true) l →
    Reql.find_table (rethinkdb w) (info_db dInfo) (_name (info_tree dInfo)) = Ret tb →
    (∀ i, i ∈ l.*1 → Reql.indexes tb !! i = None) →
    ∃ s' tb',
      for_each l (Document.create_index dInfo c) w = (Ret tt, set_rethinkdb s' w)
      ∧ Reql.find_table s' (info_db dInfo) (_name (info_tree dInfo)) = Ret tb'.
Proof.
  induction l as [|[i def] l IH]; intros w tb Hnd Hrec Hf Hfresh.
  { exists (rethinkdb w), tb. split; [|done]. by destruct w. }
  cbn [fmap list_fmap fst] in Hnd. apply NoDup_cons in Hnd as [Hi Hnd].
  apply Forall_cons in Hrec as [Hdef Hrec]. cbn [snd] in Hdef.
  destruct (create_index_fresh dInfo c i def w tb Hdef Hf) as [fn Hstep].
  { apply Hfresh. cbn. left. }
  cbn [for_each]. unfold_monad. rewrite Hstep.
  set (tb1 := Reql.Stored _ _ _) in *.
  set (w1 := set_rethinkdb _ w) in *.
  destruct (IH w1 tb1) as (s' & tb' & Hloop & Hf'); try done.
  - apply find_table_put.
  - intros j Hj. cbn. rewrite lookup_insert_ne.
    + apply Hfresh. cbn. by right.
    + intros ->. done.
  - exists s', tb'. split; [|done]. rewrite Hloop. by destruct w.
Qed.

Lemma tableCreate_existing cls st db w details c tb :
  struct cls = Ret st →
  __mdServers w !! default (conf_server (struct_conf st)) (db !! "server") = Some details →
  network w details (calls w) = Ret c →
  Reql.find_table (rethinkdb w) (__msPrefix w ++ unprefixed (struct_conf st) db)
    (_name (struct_tree st)) = Ret tb →
  ∃ msg,
    Document.tableCreate cls db w =
      (Ret false, emit (Closed c) (emit (Printed msg) (set_calls (S (calls w)) w))).
Proof.
  intros Hst Hs Hn Hf.
  unfold Document.tableCreate. unfold_monad.
  rewrite (info_prefixed _ _ _ _ Hst). cbn [info_server info_db info_tree info_conf].
  rewrite with_connect_with_unfold. cbn [the_world with_world world_has_world].
  rewrite (_connection_up _ _ _ _ Hs Hn). cbn [fst snd].
  unfold run. cbn [rethinkdb set_calls].
  destruct (table_create_existing _ _ _ (primary (struct_conf st)) _ Hf) as [msg Hrun].
  rewrite Hrun. cbn. exists msg. do 2 f_equal.
Qed.

Lemma tableCreate_fresh cls st db w details c tables :
  struct cls = Ret st →
  __mdServers w !! default (conf_server (struct_conf st)) (db !! "server") = Some details →
  network w details (calls w) = Ret c →
  Reql.dbs (rethinkdb w) !! (__msPrefix w ++ unprefixed (struct_conf st) db) = Some tables →
  tables !! _name (struct_tree st) = None →
  (∀ i def, indexes (struct_conf st) !! i = Some def → recognised def = true) →
  ∃ s' tb',
    Document.tableCreate cls db w =
      (Ret true, emit (Closed c) (set_rethinkdb s' (set_calls (S (calls w)) w)))
    ∧ Reql.find_table s' (__msPrefix w ++ unprefixed (struct_conf st) db)
        (_name (struct_tree st)) = Ret tb'.
Proof.
  intros Hst Hs Hn Hdb Htb Hrec.
  unfold Document.tableCreate. unfold_monad.
  rewrite (info_prefixed _ _ _ _ Hst). cbn [info_server info_db info_tree info_conf].
  rewrite with_connect_with_unfold. cbn [the_world with_world world_has_world].
  rewrite (_connection_up _ _ _ _ Hs Hn). cbn [fst snd].
  unfold run. cbn [rethinkdb set_calls].
  rewrite (table_create_fresh _ _ _ _ _ Hdb Htb). cbn [as_dict].
  unfold_monad. unfold has_field. rewrite lookup_singleton_eq.
  cbn -[for_each Reql.put_table].
  set (dInfo := Info _ _ _ _).
  set (w1 := set_rethinkdb _ _).
  destruct (create_indexes_ok dInfo c (map_to_list (indexes (struct_conf st))) w1
              (Reql.Stored (primary (struct_conf st)) [] ∅))
    as (s' & tb' & Hloop & Hf').
  - apply NoDup_fst_map_to_list.
  - apply Forall_forall. intros [i def] Hin. cbn.
    apply (Hrec i def). by apply elem_of_map_to_list.
  - subst w1 dInfo. cbn. apply find_table_put.
  - done.
  - rewrite Hloop. cbn. exists s', tb'. split; [|done]. by destruct w.
Qed.

(** C7: on a reachable server whose database exists and has no table of the
    class's name yet, and with index definitions of the shapes [tableCreate]
    handles, the first [tableCreate] returns [True] and the second returns
    [False]; the "already exists" error of the second call is caught, so
    neither call raises. *)
Theorem tableCreate_twice cls st (db : gmap string string) w details tables :
  struct cls = Ret st →
  __mdServers w !! default (conf_server (struct_conf st)) (db !! "server") = Some details →
  (∀ k, ∃ c, network w details k = Ret c) →
  Reql.dbs (rethinkdb w) !! (__msPrefix w ++ unprefixed (struct_conf st) db) = Some tables →
  tables !! _name (struct_tree st) = None →
  (∀ i def, indexes (struct_conf st) !! i = Some def → recognised def = true) →
  let first := Document.tableCreate cls db w in
  let second := Document.tableCreate cls db first.2 in
  first.1 = Ret true ∧ second.1 = Ret false.
Proof.
  intros Hst Hs Hup Hdb Htb Hrec first second. subst second first.
  destruct (Hup (calls w)) as [c Hc].
  destruct (tableCreate_fresh cls st db w details c tables Hst Hs Hc Hdb Htb Hrec)
    as (s' & tb' & Hfirst & Hf').
  rewrite Hfirst. cbn [fst snd]. split; [done|].
  set (w1 := emit _ _).
  destruct (Hup (calls w1)) as [c' Hc'].
  destruct (tableCreate_existing cls st db w1 details c' tb' Hst Hs Hc' Hf') as [msg ->].
  done.
Qed.

Lemma tableCreate_twice_witness :
  struct Users = Ret (Structure users_tree users_conf)
  ∧ __mdServers world_up !! "default" = Some ∅
  ∧ Reql.dbs (rethinkdb world_up) !! "Test" = Some ∅
  ∧ let first := Document.tableCreate Users ∅ world_up in
    let second := Document.tableCreate Users ∅ first.2 in
    first.1 = Ret true ∧ second.1 = Ret false.
Proof.
  split; [reflexivity|]. split; [reflexivity|]. split; [reflexivity|].
  apply (tableCreate_twice Users (Structure users_tree users_conf) ∅ world_up ∅ ∅).
  - reflexivity.
  - reflexivity.
  - intros k. by exists k.
  - reflexivity.
  - reflexivity.
  - intros i def. cbn [struct_conf users_conf indexes].
    intros [<- <-]%lookup_singleton_Some. reflexivity.
Defined.

(** An index definition of an unknown shape makes the first call raise,
    after the table was created. *)
Example tableCreate_unknown_index :
  let cls := Class_ (Ret (Structure users_tree
                 (Conf false "default" "Test" {[ "n" := ix_other "5" ]} "_id" false))) in
  (Document.tableCreate cls ∅ world_up).1
    = Raise (StorageException ["Unknown index format: 5"]).
Proof. vm_compute. reflexivity. Qed.

(** ** Looking up by an index tuple *)

Lemma datum_ind' (P : datum → Prop) :
  P DNull → (∀ b, P (DBool b)) → (∀ n, P (DNum n)) → (∀ s, P (DStr s)) →
  (∀ l, Forall P l → P (DArr l)) →
  ∀ d, P d.
Proof.
  intros HN HB HZ HS HA. fix IH 1.
  intros [|b|n|s|l]; [exact HN | apply HB | apply HZ | apply HS |].
  apply HA. induction l as [|x l IHl]; constructor; [apply IH | exact IHl].
Qed.

Lemma datum_eqb_eq a : ∀ b, datum_eqb a b = true ↔ a = b.
Proof.
  induction a as [|x|x|x|xs IH] using datum_ind'; intros [|y|y|y|ys]; cbn;
    try (split; [discriminate | intros; discriminate]); try done.
  - rewrite Bool.eqb_true_iff. split; congruence.
  - rewrite Z.eqb_eq. split; congruence.
  - rewrite String.eqb_eq. split; congruence.
  - revert ys. induction IH as [|x xs Hx _ IHxs]; intros [|y ys];
      try (split; [discriminate | intros; discriminate]); try done.
    rewrite andb_true_iff, Hx, IHxs. split.
    + intros [-> [= ->]]. done.
    + intros [= -> ->]. done.
Qed.

Lemma string_compare_refl s : String.compare s s = Eq.
Proof.
  pose proof (String.compare_antisym s s) as H.
  by destruct (String.compare s s).
Qed.

Lemma compare_eq a : ∀ b, Reql.compare a b = Eq ↔ a = b.
Proof.
  induction a as [|x|x|x|xs IH] using datum_ind'; intros [|y|y|y|ys]; cbn;
    try (split; [discriminate | intros; discriminate]); try done.
  - destruct x, y; cbn; split; try done.
  - rewrite Z.compare_eq_iff. split; congruence.
  - split; [intros ->%String.compare_eq_iff; done | intros [= ->]].
    apply string_compare_refl.
  - revert ys. induction IH as [|x xs Hx _ IHxs]; intros [|y ys];
      try (split; [discriminate | intros; discriminate]); try done.
    destruct (Reql.compare x y) eqn:E.
    + apply Hx in E as ->. rewrite IHxs. split; [intros [= ->] | intros [= ->]]; done.
    + split; [discriminate|]. intros [= -> ->].
      assert (Reql.compare y y = Eq) as E' by (by apply Hx). congruence.
    + split; [discriminate|]. intros [= -> ->].
      assert (Reql.compare y y = Eq) as E' by (by apply Hx). congruence.
Qed.

Lemma wildcards_cons x l :
  wildcards (x :: l) = ((if is_null x then 1 else 0) + wildcards l)%nat.
Proof. unfold wildcards. cbn. by destruct (is_null x). Qed.

Lemma find_none_taken l : ∀ i k,
  k ≠ -1 →
  Document.find_none l i k = if decide (wildcards l = 0%nat) then Ret k else Raise two_nones.
Proof.
  induction l as [|x l IH]; intros i k Hk; [done|].
  rewrite wildcards_cons.
  destruct x; cbn [Document.find_none is_null]; try (by rewrite IH).
  destruct (k =? -1) eqn:E; [lia|]. cbn. by destruct (decide _).
Qed.

Lemma find_none_many l : ∀ i,
  0 ≤ i → (2 ≤ wildcards l)%nat → Document.find_none l i (-1) = Raise two_nones.
Proof.
  induction l as [|x l IH]; intros i Hi Hl; [cbn in Hl; lia|].
  rewrite wildcards_cons in Hl.
  destruct x; cbn [Document.find_none is_null] in *; try (apply IH; lia).
  cbn. rewrite find_none_taken by lia.
  destruct (decide _); [lia | done].
Qed.

Lemma find_none_one (pre post : list datum) : ∀ i,
  0 ≤ i → wildcards pre = 0%nat → wildcards post = 0%nat →
  Document.find_none (pre ++ DNull :: post)%list i (-1) = Ret (i + Z.of_nat (List.length pre)).
Proof.
  induction pre as [|x pre IH]; intros i Hi Hpre Hpost.
  - cbn. rewrite find_none_taken by lia. rewrite Hpost. cbn. f_equal. lia.
  - rewrite wildcards_cons in Hpre.
    destruct x; cbn [is_null] in Hpre; try lia;
      cbn [app Document.find_none]; rewrite IH by lia; f_equal; cbn [List.length]; lia.
Qed.

Lemma edges_with_sentinel (e : Reql.edge) (pre post : list datum) :
  <[Z.to_nat (0 + Z.of_nat (List.length pre)) := e]> (Reql.val <$> (pre ++ DNull :: post)%list)
  = ((Reql.val <$> pre) ++ e :: (Reql.val <$> post))%list.
Proof.
  rewrite Z.add_0_l, Nat2Z.id, fmap_app. cbn [fmap list_fmap].
  replace (List.length pre) with (List.length (Reql.val <$> pre) + 0)%nat
    by (rewrite length_fmap; lia).
  by rewrite insert_app_r.
Qed.

Lemma select_by_many_nones oCur l ix :
  ix ≠ "" → (2 ≤ wildcards l)%nat →
  Document.select_by oCur (by_tuple l) (Some ix) = Raise two_nones.
Proof.
  intros Hix Hl. unfold Document.select_by.
  apply String.eqb_neq in Hix as ->. cbn [negb].
  rewrite find_none_many by (done || lia). done.
Qed.

Lemma select_by_one_none oCur (pre post : list datum) ix :
  ix ≠ "" → wildcards pre = 0%nat → wildcards post = 0%nat →
  Document.select_by oCur (by_tuple (pre ++ DNull :: post)%list) (Some ix) =
    Ret (Reql.between oCur
           ((Reql.val <$> pre) ++ Reql.minval :: (Reql.val <$> post))%list
           ((Reql.val <$> pre) ++ Reql.maxval :: (Reql.val <$> post))%list ix, true).
Proof.
  intros Hix Hpre Hpost. unfold Document.select_by.
  apply String.eqb_neq in Hix as ->. cbn [negb].
  rewrite find_none_one by (done || lia). unfold_monad.
  destruct (Z.gtb_spec (0 + Z.of_nat (List.length pre)) (-1)); [|lia].
  by rewrite !edges_with_sentinel.
Qed.

Lemma in_range_last_open (d : row) (pre : list datum) : ∀ fs : list string,
  wildcards pre = 0%nat →
  List.length fs = Datatypes.S (List.length pre) →
  match mapM (λ f, d !! f) fs with
  | Some k =>
      Reql.in_range (DArr k) ((Reql.val <$> pre) ++ [Reql.minval])%list
                             ((Reql.val <$> pre) ++ [Reql.maxval])%list
  | None => false
  end = agrees fs (pre ++ [DNull])%list d.
Proof.
  induction pre as [|x pre IH]; intros [|f fs] Hpre Hlen; try discriminate.
  - destruct fs; [|discriminate]. cbn. destruct (d !! f); reflexivity.
  - rewrite wildcards_cons in Hpre.
    assert (is_null x = false) as Hx by (destruct (is_null x); [lia | done]).
    assert (wildcards pre = 0%nat) as Hpre' by lia.
    specialize (IH fs Hpre' ltac:(cbn in Hlen; lia)).
    cbn [mapM agrees app]. rewrite Hx. cbn [orb].
    destruct (d !! f) as [v|]; [|reflexivity]. cbn [mbind option_bind].
    rewrite <- IH. clear IH.
    destruct (mapM (λ f0 : string, d !! f0) fs) as [k|]; cbn [mbind option_bind mret option_ret];
      [|by rewrite andb_false_r].
    unfold Reql.in_range. cbn [fmap list_fmap app Reql.compare_bound Reql.compare_edge].
    destruct (Reql.compare v x) eqn:E.
    + apply compare_eq in E as ->.
      assert (datum_eqb x x = true) as -> by (by apply datum_eqb_eq). reflexivity.
    + assert (datum_eqb v x = false) as ->; [|reflexivity].
      destruct (datum_eqb v x) eqn:E'; [|done].
      apply datum_eqb_eq in E' as ->.
      assert (Reql.compare x x = Eq) by (by apply compare_eq). congruence.
    + assert (datum_eqb v x = false) as ->; [|reflexivity].
      destruct (datum_eqb v x) eqn:E'; [|done].
      apply datum_eqb_eq in E' as ->.
      assert (Reql.compare x x = Eq) by (by apply compare_eq). congruence.
Qed.

Lemma rows_between_last_open tb (pre : list datum) (fs : list string) :
  wildcards pre = 0%nat →
  List.length fs = Datatypes.S (List.length pre) →
  rows_between (Reql.on_fields fs)
    ((Reql.val <$> pre) ++ [Reql.minval])%list
    ((Reql.val <$> pre) ++ [Reql.maxval])%list tb
  = List.filter (agrees fs (pre ++ [DNull])%list) (Reql.rows tb).
Proof.
  intros Hpre Hlen. unfold rows_between. apply List.filter_ext. intros d.
  rewrite <- (in_range_last_open d pre fs Hpre Hlen).
  unfold Reql.index_key. by destruct (mapM _ fs).
Qed.

Lemma run_between s db name tb index ix lo hi raw :
  Reql.find_table s db name = Ret tb →
  Reql.indexes tb !! index = Some ix →
  Reql.run (Document.with_pluck raw (Reql.between (Reql.table db name) lo hi index)) s =
    (Ret (Reql.many (projected raw <$> rows_between ix lo hi tb)), s).
Proof.
  intros Hf Hi.
  assert (Reql.select tb (Reql.between (Reql.table db name) lo hi index)
          = Ret (Reql.many (rows_between ix lo hi tb))) as Hsel.
  { cbn. unfold Reql.find_index. by rewrite Hi. }
  destruct raw as [|b|fields]; unfold Reql.run; cbn [Document.with_pluck Reql.source];
    rewrite Hf; cbn [projected].
  - rewrite Hsel. by rewrite list_fmap_id.
  - rewrite Hsel. by rewrite list_fmap_id.
  - clear Hsel. cbn. unfold Reql.find_index. rewrite Hi. done.
Qed.

Lemma listed_raw cls l db w :
  Document.listed cls (raw_bool true) l db w = (Ret (several (as_raw <$> l)), w).
Proof. reflexivity. Qed.

(** C3 (as amended): [get] by a declared index with a tuple.  With more
    than one [None] in the tuple it raises a [StorageException] and closes
    the connection.  With exactly one [None], at position [length pre], it
    asks for the rows between the tuple with [r.minval] at that position and
    the tuple with [r.maxval] there, and returns the rows of the table whose
    index key lies between the two bounds in the order of the server
    (projected and listed as [raw] says).  When the [None] is the last
    component of a tuple as long as the index, these are exactly the rows
    that agree with the tuple on the other components. *)
Theorem get_by_index_tuple cls st (db : gmap string string) w details c tb index ix
    (l : list datum) raw :
  struct cls = Ret st →
  index ≠ "" →
  has_field_def index (indexes (struct_conf st)) = true →
  __mdServers w !! default (conf_server (struct_conf st)) (db !! "server") = Some details →
  network w details (calls w) = Ret c →
  Reql.find_table (rethinkdb w) (__msPrefix w ++ unprefixed (struct_conf st) db)
    (_name (struct_tree st)) = Ret tb →
  Reql.indexes tb !! index = Some ix →
  let w1 := set_calls (S (calls w)) w in
  let oCur := Reql.table (__msPrefix w ++ unprefixed (struct_conf st) db)
                         (_name (struct_tree st)) in
  let out := Document.get cls (by_tuple l) (Some index) None None raw order_none 0 db w in
  ((2 ≤ wildcards l)%nat → out = (Raise two_nones, emit (Closed c) w1))
  ∧ (∀ pre post : list datum,
       l = (pre ++ DNull :: post)%list → wildcards pre = 0%nat → wildcards post = 0%nat →
       let lo := ((Reql.val <$> pre) ++ Reql.minval :: (Reql.val <$> post))%list in
       let hi := ((Reql.val <$> pre) ++ Reql.maxval :: (Reql.val <$> post))%list in
       let found := rows_between ix lo hi tb in
       let listing := Document.listed cls raw (projected raw <$> found) db w1 in
       Document.select_by oCur (by_tuple l) (Some index)
         = Ret (Reql.between oCur lo hi index, true)
       ∧ out = (listing.1, emit (Closed c) listing.2)
       ∧ (∀ fs, ix = Reql.on_fields fs → post = [] → List.length fs = List.length l →
            found = List.filter (agrees fs l) (Reql.rows tb))).
Proof.
  intros Hst Hix Hdecl Hs Hn Hf Hi w1 oCur out. subst out.
  unfold Document.get. unfold_monad.
  rewrite (info_prefixed _ _ _ _ Hst). cbn [info_server info_db info_tree info_conf].
  rewrite Hdecl. rewrite andb_false_r.
  rewrite with_connect_with_unfold. cbn [the_world with_world world_has_world].
  rewrite (_connection_up _ _ _ _ Hs Hn). cbn [fst snd].
  unfold Document.table_of. cbn [info_db info_tree]. fold oCur. fold w1.
  split.
  - intros Hl. by rewrite (select_by_many_nones _ _ _ Hix Hl).
  - intros pre post -> Hpre Hpost.
    rewrite (select_by_one_none _ _ _ _ Hix Hpre Hpost).
    set (lo := ((Reql.val <$> pre) ++ Reql.minval :: (Reql.val <$> post))%list).
    set (hi := ((Reql.val <$> pre) ++ Reql.maxval :: (Reql.val <$> post))%list).
    set (found := rows_between ix lo hi tb).
    set (listing := Document.listed cls raw (projected raw <$> found) db w1).
    split; [done|]. split.
    + cbn [Document.with_order]. change (0 >? 0) with false. change (0 =? 1) with false.
      cbn match. unfold run. cbn [rethinkdb w1 set_calls]. unfold oCur.
      rewrite (run_between _ _ _ tb index ix lo hi raw Hf Hi). fold found.
      cbn [reply_truthy negb]. cbn match.
      subst listing.
      replace (set_rethinkdb (rethinkdb w) w1) with w1 by (by destruct w).
      by destruct (Document.listed cls raw (projected raw <$> found) db w1) as [[?|?] ?].
    + intros fs -> -> Hlen. subst found lo hi. cbn [fmap list_fmap].
      apply rows_between_last_open; [done|].
      rewrite List.length_app in Hlen. cbn in Hlen. lia.
Qed.

(** The tuple [(5, None)] on the index over [(a, b)] finds the records with
    [a = 5]. *)
Lemma get_by_index_tuple_witness :
  (struct Users = Ret (Structure users_tree users_conf)
   ∧ "ab" ≠ ""
   ∧ has_field_def "ab" (indexes users_conf) = true
   ∧ __mdServers world_stocked !! "default" = Some ∅
   ∧ network world_stocked ∅ (calls world_stocked) = Ret 0%nat
   ∧ Reql.find_table (rethinkdb world_stocked) "Test" "users" = Ret users_table
   ∧ Reql.indexes users_table !! "ab" = Some (Reql.on_fields ["a"; "b"]))
  ∧ Document.get Users (by_tuple [DNum 5; DNull]) (Some "ab") None None (raw_bool true)
      order_none 0 ∅ world_stocked
    = (Ret (several [as_raw ann; as_raw bob]),
       emit (Closed 0%nat) (set_calls 1 world_stocked)).
Proof.
  assert (H1 : struct Users = Ret (Structure users_tree users_conf)) by reflexivity.
  assert (H2 : "ab" ≠ "") by discriminate.
  assert (H3 : has_field_def "ab" (indexes users_conf) = true) by reflexivity.
  assert (H4 : __mdServers world_stocked !! "default" = Some ∅) by reflexivity.
  assert (H5 : network world_stocked ∅ (calls world_stocked) = Ret 0%nat) by reflexivity.
  assert (H6 : Reql.find_table (rethinkdb world_stocked) "Test" "users" = Ret users_table)
    by reflexivity.
  assert (H7 : Reql.indexes users_table !! "ab" = Some (Reql.on_fields ["a"; "b"]))
    by reflexivity.
  split; [by repeat split|].
  assert (H4' : __mdServers world_stocked
                  !! default (conf_server (struct_conf (Structure users_tree users_conf)))
                             ((∅ : gmap string string) !! "server") = Some ∅)
    by (vm_compute; reflexivity).
  assert (H6' : Reql.find_table (rethinkdb world_stocked)
                  (__msPrefix world_stocked
                     ++ unprefixed (struct_conf (Structure users_tree users_conf)) ∅)
                  (_name (struct_tree (Structure users_tree users_conf))) = Ret users_table)
    by (vm_compute; reflexivity).
  destruct (get_by_index_tuple Users (Structure users_tree users_conf) ∅ world_stocked ∅
              0%nat users_table "ab" (Reql.on_fields ["a"; "b"]) [DNum 5; DNull]
              (raw_bool true) H1 H2 H3 H4' H5 H6' H7) as [_ Hone].
  destruct (Hone [DNum 5] [] eq_refl eq_refl eq_refl) as (_ & Hout & Hlast).
  rewrite Hout, listed_raw. cbn [fst snd projected].
  rewrite (Hlast ["a"; "b"] eq_refl eq_refl eq_refl). reflexivity.
Defined.

(** The tuple [(None, 7)] on the same index: every record lies between
    [(minval, 7)] and [(maxval, 7)], so records whose [b] is not [7] are
    returned as well. *)
Lemma get_first_open_returns_unmatched :
  let out := Document.get Users (by_tuple [DNull; DNum 7]) (Some "ab") None None
               (raw_bool true) order_none 0 ∅ world_stocked in
  out.1 = Ret (several [as_raw ann; as_raw bob; as_raw cid])
  ∧ agrees ["a"; "b"] [DNull; DNum 7] bob = false
  ∧ agrees ["a"; "b"] [DNull; DNum 7] cid = false
  ∧ out.1 ≠ Ret (several (as_raw <$> List.filter (agrees ["a"; "b"] [DNull; DNum 7])
                                        (Reql.rows users_table))).
Proof.
  split; [vm_compute; reflexivity|].
  split; [vm_compute; reflexivity|].
  split; [vm_compute; reflexivity|].
  vm_compute. discriminate.
Qed.

(** Two [None]s in the tuple. *)
Example get_two_nones :
  (Document.get Users (by_tuple [DNull; DNull]) (Some "ab") None None (raw_bool true)
     order_none 0 ∅ world_stocked).1 = Raise two_nones.
Proof. vm_compute. reflexivity. Qed.

(** ** Inserting a record *)

Lemma _revision_init md5 dumps doc w :
  Document._revision md5 dumps true (doc, w) =
    (Ret true,
     (set_dData (<["_rev" := first_revision md5 dumps (_dData doc)]>
                   (base.delete "_rev" (_dData doc))) doc, w)).
Proof.
  unfold Document._revision. unfold_monad. unfold has_field, first_revision.
  destruct (_dData doc !! "_rev") eqn:E; cbn; [done|].
  by rewrite (delete_id _ _ E).
Qed.

(** C6 (as amended): when the reply of the server to the insert has neither
    [inserted] nor [replaced] equal to 1, which includes the reply for zero
    rows affected, [insert] raises nothing: it returns [None], with the
    connection closed and the instance as it was sent. *)
Theorem insert_returns_None_when_nothing_written md5 dumps doc w conflict c w1 dRes s2
    vi vr :
  _connection (info_server (__dInfo doc)) w = (Ret c, w1) →
  Reql.run (Reql.insert (Document.table_of (__dInfo doc))
                        (_dData (stamped md5 dumps doc)) (cleaned_conflict conflict))
           (rethinkdb w1) = (Ret (Reql.one (Some dRes)), s2) →
  dRes !! "inserted" = Some vi → datum_eqb vi (DNum 1) = false →
  dRes !! "replaced" = Some vr → datum_eqb vr (DNum 1) = false →
  Document.insert md5 dumps conflict (doc, w) =
    (Ret DNull, (stamped md5 dumps doc, emit (Closed c) (set_rethinkdb s2 w1))).
Proof.
  intros Hc Hrun Hvi Hi Hvr Hr.
  unfold Document.insert. fold (cleaned_conflict conflict). unfold_monad.
  unfold stamped in *.
  destruct (revisions (info_conf (__dInfo doc))); [rewrite _revision_init|];
    rewrite with_connect_with_unfold;
    cbn [the_world with_world method_has_world fst snd];
    rewrite Hc; unfold run, as_dict, getitem; unfold_monad; cbn [fst snd];
    rewrite Hrun; cbn [fst snd]; rewrite Hvi, Hi; cbn [negb]; rewrite Hvr, Hr;
    reflexivity.
Qed.

(** A record whose key is taken, with [conflict='error']: the server writes
    nothing and says so, and [insert] returns [None]. *)
Lemma insert_returns_None_when_nothing_written_witness :
  (_connection (info_server (__dInfo ann_doc)) world_stocked
     = (Ret 0%nat, set_calls 1 world_stocked)
   ∧ Reql.run (Reql.insert (Document.table_of (__dInfo ann_doc))
                 (_dData (stamped demo_md5 demo_dumps ann_doc)) (cleaned_conflict "error"))
        (rethinkdb (set_calls 1 world_stocked))
       = (Ret (Reql.one (Some (<["first_error" := DStr "Duplicate primary key"]>
                                 (Reql.counts 0 0 0 0 0 1)))), stocked_server))
  ∧ Document.insert demo_md5 demo_dumps "error" (ann_doc, world_stocked) =
      (Ret DNull,
       (stamped demo_md5 demo_dumps ann_doc,
        emit (Closed 0%nat) (set_rethinkdb stocked_server (set_calls 1 world_stocked)))).
Proof.
  assert (H1 : _connection (info_server (__dInfo ann_doc)) world_stocked
               = (Ret 0%nat, set_calls 1 world_stocked)) by (vm_compute; reflexivity).
  assert (H2 : Reql.run (Reql.insert (Document.table_of (__dInfo ann_doc))
                 (_dData (stamped demo_md5 demo_dumps ann_doc)) (cleaned_conflict "error"))
                 (rethinkdb (set_calls 1 world_stocked))
               = (Ret (Reql.one (Some (<["first_error" := DStr "Duplicate primary key"]>
                                         (Reql.counts 0 0 0 0 0 1)))), stocked_server))
    by (vm_compute; reflexivity).
  split; [by split|].
  apply (insert_returns_None_when_nothing_written demo_md5 demo_dumps ann_doc world_stocked
           "error" 0%nat (set_calls 1 world_stocked) _ stocked_server (DNum 0) (DNum 0)
           H1 H2); reflexivity.
Defined.

(** The same call, with the reply of the server shown: no row was inserted
    or replaced, and the call returns [None] where the specification has it
    fail. *)
Lemma insert_duplicate_returns_None :
  let out := Document.insert demo_md5 demo_dumps "error" (ann_doc, world_stocked) in
  (∃ dRes, Reql.run (Reql.insert (Reql.table "Test" "users")
                       (_dData (stamped demo_md5 demo_dumps ann_doc)) "error")
             stocked_server = (Ret (Reql.one (Some dRes)), stocked_server)
           ∧ dRes !! "inserted" = Some (DNum 0)
           ∧ dRes !! "replaced" = Some (DNum 0)
           ∧ dRes !! "unchanged" = Some (DNum 0))
  ∧ out.1 = Ret DNull
  ∧ ∀ e, out.1 ≠ Raise e.
Proof.
  split; [|split].
  - eexists. split; [vm_compute; reflexivity|]. by repeat split.
  - vm_compute. reflexivity.
  - intros e. vm_compute. discriminate.
Qed.

(** ** Finding records by their fields *)

Lemma filter_raises_NameError cls obj raw orderby db w :
  Document.filter cls obj raw orderby db w =
    match struct cls with
    | Ret _ => (Raise (NameError "sServer"), w)
    | Raise e => (Raise e, w)
    end.
Proof.
  unfold Document.filter. unfold_monad.
  destruct (struct cls) as [st|e] eqn:Hst.
  - by rewrite (info_prefixed _ _ _ _ Hst).
  - unfold Document.info. unfold_monad. by rewrite Hst.
Qed.

(** C8: two stored records have [a = 5], and [filter] with that mapping
    raises a [NameError] before it opens a connection, instead of returning
    them. *)
Theorem filter_raises_instead_of_finding :
  List.filter (Reql.matches {[ "a" := DNum 5 ]}) (Reql.rows users_table) = [ann; bob]
  ∧ Document.filter Users {[ "a" := DNum 5 ]} (raw_bool true) order_none ∅ world_stocked
    = (Raise (NameError "sServer"), world_stocked).
Proof.
  split; [vm_compute; reflexivity|].
  by rewrite filter_raises_NameError.
Qed.

(** ** Revisions and updates *)

Lemma update_revisioned_raises md5 dumps (doc : document) w replace id rev :
  revisions (info_conf (__dInfo doc)) = true →
  changed_truthy (_dChanged doc) = true →
  _dData doc !! primary (info_conf (__dInfo doc)) = Some id →
  _dData doc !! "_rev" = Some rev →
  Document.update md5 dumps replace (doc, w) = (Raise (AttributeError "revision"), (doc, w)).
Proof.
  intros Hrev Hch Hid Hr.
  unfold Document.update. unfold_monad. rewrite Hch. cbn [negb].
  cbn [fst snd]. unfold has_field, getitem. rewrite Hid. cbn [negb]. unfold_monad.
  rewrite Hrev, Hr. reflexivity.
Qed.

(** C1: a record inserted with revisioning carries version 1 and the digest
    of its other fields; after a field of it is changed, [update] raises an
    [AttributeError], because the class has no method [revision], and leaves
    the revision at version 1. *)
Theorem update_revisioned_raises_AttributeError :
  _dData dee_inserted.1 !! "_rev" = Some (first_revision demo_md5 demo_dumps dee)
  ∧ _dData dee_renamed.1 !! "name" = Some (DStr "Di")
  ∧ changed_truthy (_dChanged dee_renamed.1) = true
  ∧ Document.update demo_md5 demo_dumps false dee_renamed
    = (Raise (AttributeError "revision"), dee_renamed)
  ∧ _dData dee_renamed.1 !! "_rev" = Some (first_revision demo_md5 demo_dumps dee).
Proof.
  split; [vm_compute; reflexivity|].
  split; [vm_compute; reflexivity|].
  split; [vm_compute; reflexivity|].
  split; [|vm_compute; reflexivity].
  destruct dee_renamed as [doc w] eqn:E.
  apply (update_revisioned_raises demo_md5 demo_dumps doc w false (DStr "dee")
           (first_revision demo_md5 demo_dumps dee));
    change doc with (doc, w).1; rewrite <- E; vm_compute; reflexivity.
Qed.

(** [_revision()] on an instance whose content did not change returns
    [False] and leaves the instance without its [_rev] field. *)
Example _revision_unchanged_drops_rev :
  let out := Document._revision demo_md5 demo_dumps false dee_inserted in
  out.1 = Ret false ∧ _dData out.2.1 !! "_rev" = None.
Proof. split; vm_compute; reflexivity. Qed.

(** [_revision()] on an instance whose content changed moves the version
    from 1 to 2 and stores the new digest. *)
Example _revision_changed_increments :
  let out := Document._revision demo_md5 demo_dumps false dee_renamed in
  out.1 = Ret true
  ∧ _dData out.2.1 !! "_rev"
    = Some (DStr ("2-" ++ demo_md5 (demo_dumps (base.delete "_rev" (_dData dee_renamed.1))))).
Proof. split; vm_compute; reflexivity. Qed.

(** C2: the stored record is at revision 2, the instance holds revision 1
    and has a changed field.  [update] raises an [AttributeError] and not the
    out-of-sync [StorageException]; the stored record is not written and no
    connection is opened. *)
Theorem update_stale_raises_AttributeError :
  let out := Document.update demo_md5 demo_dumps false (stale_copy, world_moved_on) in
  _dData stale_copy !! "_rev" = Some (DStr "1-aaaa")
  ∧ ann_v2 !! "_rev" = Some (DStr "2-bbbb")
  ∧ out = (Raise (AttributeError "revision"), (stale_copy, world_moved_on))
  ∧ out.1 ≠ Raise out_of_sync.
Proof.
  split; [vm_compute; reflexivity|].
  split; [vm_compute; reflexivity|].
  assert (H : Document.update demo_md5 demo_dumps false (stale_copy, world_moved_on)
              = (Raise (AttributeError "revision"), (stale_copy, world_moved_on))).
  { apply (update_revisioned_raises demo_md5 demo_dumps stale_copy world_moved_on false
             (DStr "ann") (DStr "1-aaaa")); vm_compute; reflexivity. }
  cbn zeta. rewrite H. split; [done | discriminate].
Qed.

(** A current copy fares no better: its [update] raises the same
    [AttributeError], so no copy ever updates successfully. *)
Example update_current_raises_AttributeError :
  let current := Doc users_info (<["name" := DStr "Annie"]> ann_v2)
                     (changed_dict {[ "name" := DStr "Annie" ]}) in
  (Document.update demo_md5 demo_dumps false (current, world_moved_on)).1
    = Raise (AttributeError "revision").
Proof. vm_compute. reflexivity. Qed.

(** * Further properties *)

(** ** The server registry *)

(** X1: [server] stores the details under a name that is not registered
    yet and returns [True]; a second registration of that name without
    [update] returns [False] and keeps the first details; with [update] it
    replaces them.  Other names are not touched. *)
Theorem server_keeps_first_registration name (d1 d2 : row) w :
  __mdServers w !! name = None →
  let first := server name d1 false w in
  let again := server name d2 false first.2 in
  let forced := server name d2 true first.2 in
  first.1 = Ret true
  ∧ __mdServers first.2 !! name = Some d1
  ∧ again = (Ret false, first.2)
  ∧ forced.1 = Ret true
  ∧ __mdServers forced.2 !! name = Some d2
  ∧ ∀ other, other ≠ name →
      __mdServers first.2 !! other = __mdServers w !! other
      ∧ __mdServers forced.2 !! other = __mdServers w !! other.
Proof.
  intros Hfree first again forced. subst again forced first.
  unfold server. unfold_monad. rewrite Hfree.
  rewrite bool_decide_eq_true_2 by done. cbn.
  rewrite lookup_insert_eq. cbn.
  rewrite lookup_insert_eq. cbn.
  split; [done|]. split; [done|]. split; [done|]. split; [done|]. split; [done|].
  intros other Hne. by rewrite !lookup_insert_ne.
Qed.

Lemma server_keeps_first_registration_witness :
  __mdServers world_up !! "replica" = None
  ∧ let first := server "replica" {[ "host" := DStr "a" ]} false world_up in
    let again := server "replica" {[ "host" := DStr "b" ]} false first.2 in
    let forced := server "replica" {[ "host" := DStr "b" ]} true first.2 in
    first.1 = Ret true
    ∧ __mdServers first.2 !! "replica" = Some {[ "host" := DStr "a" ]}
    ∧ again = (Ret false, first.2)
    ∧ forced.1 = Ret true
    ∧ __mdServers forced.2 !! "replica" = Some {[ "host" := DStr "b" ]}
    ∧ ∀ other, other ≠ "replica" →
        __mdServers first.2 !! other = __mdServers world_up !! other
        ∧ __mdServers forced.2 !! other = __mdServers world_up !! other.
Proof.
  split; [reflexivity|].
  apply (server_keeps_first_registration "replica" {[ "host" := DStr "a" ]}
           {[ "host" := DStr "b" ]} world_up).
  reflexivity.
Defined.

(** ** Connections that are not made *)

(** X2: for a server name that is not registered, [_connection] raises a
    [ValueError] at once: [r.connect] is not called and nothing sleeps, and a
    [with connect_with(...)] block on that name does not run its body. *)
Theorem _connection_unregistered_raises {St} `{HasWorld St} {A} name
    (body : conn → M St A) (after : M St A) (s : St) :
  __mdServers (the_world s) !! name = None →
  ∃ msg,
    _connection name (the_world s) = (Raise (ValueError msg), the_world s)
    ∧ with_connect_with name body after s
      = (Raise (ValueError msg), with_world (the_world s) s).
Proof.
  intros Hs. unfold _connection. change recursion_limit with (Datatypes.S 999).
  destruct (_connection_at_unregistered 999 name 0 (the_world s) Hs) as (e & He & Hv).
  destruct e; try done. eexists. split; [exact He|].
  rewrite with_connect_with_unfold. unfold _connection.
  change recursion_limit with (Datatypes.S 999). by rewrite He.
Qed.

Lemma _connection_unregistered_raises_witness :
  __mdServers (the_world world_up) !! "nowhere" = None
  ∧ ∃ msg,
      _connection "nowhere" (the_world world_up) = (Raise (ValueError msg), the_world world_up)
      ∧ with_connect_with "nowhere" (λ _ : conn, mret true) (mret false) world_up
        = (Raise (ValueError msg), with_world (the_world world_up) world_up).
Proof.
  split; [reflexivity|].
  apply (_connection_unregistered_raises "nowhere" (λ _ : conn, mret true) (mret false)
           world_up).
  reflexivity.
Defined.

(** X3: when [_connection] fails for a registered server, with whatever
    exception, the [with connect_with(...)] block raises that exception, its
    body does not run, and no connection is closed. *)
Theorem connect_with_failure_skips_body {St} `{HasWorld St} {A} name
    (body : conn → M St A) (after : M St A) (s : St) e w1 :
  _connection name (the_world s) = (Raise e, w1) →
  let out := with_connect_with name body after s in
  out = (Raise e, with_world w1 s)
  ∧ (∀ c, closes c (trace (the_world out.2)) = closes c (trace w1)).
Proof.
  intros Hc out. subst out. rewrite with_connect_with_unfold, Hc.
  split; [done|]. intros c. cbn [snd]. by rewrite the_with_world.
Qed.

Lemma connect_with_failure_skips_body_witness :
  _connection "default" (the_world world_down)
    = (Raise (StorageException ["Could not connect to localhost:28015."]),
       after_attempts 3 world_down)
  ∧ let out := with_connect_with "default" (λ _ : conn, mret true) (mret false) world_down in
    out = (Raise (StorageException ["Could not connect to localhost:28015."]),
           with_world (after_attempts 3 world_down) world_down)
    ∧ (∀ c, closes c (trace (the_world out.2))
            = closes c (trace (after_attempts 3 world_down))).
Proof.
  split; [vm_compute; reflexivity|].
  apply (connect_with_failure_skips_body "default" (λ _ : conn, mret true) (mret false)
           world_down).
  vm_compute. reflexivity.
Defined.

(** ** The fields of an instance *)

Lemma s_outcome cls field value doc w :
  Document.s cls field value (doc, w) =
    match struct cls with
    | Raise e => (Raise e, (doc, w))
    | Ret st =>
        match nodes (struct_tree st) !! field with
        | None => (Raise (KeyError field), (doc, w))
        | Some n =>
            if node_valid n value then
              (Ret tt,
               (Doc (__dInfo doc) (<[field := node_clean n value]> (_dData doc))
                    match _dChanged doc with
                    | changed_dict c => changed_dict (<[field := node_clean n value]> c)
                    | changed_bool b => changed_bool b
                    end, w))
            else (Raise (ValueError field), (doc, w))
        end
    end.
Proof.
  unfold Document.s. unfold_monad.
  destruct (struct cls) as [st|e]; [|done].
  destruct (nodes (struct_tree st) !! field) as [n|]; [|done].
  destruct (node_valid n value); [|done]. cbn.
  destruct doc as [i data [c|b]]; reflexivity.
Qed.

Lemma d_outcome field doc w :
  Document.d field (doc, w) =
    if has_field (_dData doc) field then
      (Ret tt, (Doc (__dInfo doc) (base.delete field (_dData doc)) (changed_bool true), w))
    else (Raise (KeyError field), (doc, w)).
Proof.
  unfold Document.d. unfold_monad. by destruct (has_field (_dData doc) field).
Qed.

Lemma apply_edit_keeps_full_replace cls e doc w :
  _dChanged doc = changed_bool true →
  _dChanged (apply_edit cls e (doc, w)).2.1 = changed_bool true
  ∧ (apply_edit cls e (doc, w)).2.2 = w.
Proof.
  intros Hc. destruct e as [f v|f]; cbn [apply_edit].
  - rewrite s_outcome. destruct (struct cls) as [st|?]; [|done].
    destruct (nodes (struct_tree st) !! f) as [n|]; [|done].
    destruct (node_valid n v); [|done]. cbn. by rewrite Hc.
  - rewrite d_outcome. by destruct (has_field (_dData doc) f).
Qed.

Lemma apply_edits_keep_full_replace cls es : ∀ doc w,
  _dChanged doc = changed_bool true →
  _dChanged (apply_edits cls es (doc, w)).2.1 = changed_bool true
  ∧ (apply_edits cls es (doc, w)).2.2 = w.
Proof.
  induction es as [|e es IH]; intros doc w Hc; [done|].
  unfold apply_edits in *. cbn [for_each]. unfold_monad.
  destruct (apply_edit_keeps_full_replace cls e doc w Hc) as [Hc' Hw].
  destruct (apply_edit cls e (doc, w)) as [r [doc' w']]. cbn in Hc', Hw. subst w'.
  cbn. by apply IH.
Qed.

(** X4: [d] on a field the instance has removes the field and sets the
    dirty state to [True]; [g] then returns the default for that field and
    [__contains__] is false; and the dirty state stays [True] through any
    later calls of [s] and [d], whether they succeed or raise.  The module
    state is not touched. *)
Theorem d_forces_full_replace cls field default (es : list edit) doc w :
  has_field (_dData doc) field = true →
  field ≠ "" →
  let out := Document.d field (doc, w) in
  out.1 = Ret tt
  ∧ _dData out.2.1 = base.delete field (_dData doc)
  ∧ _dChanged out.2.1 = changed_bool true
  ∧ Document.g (Some field) default out.2 = (Ret (field_value default), out.2)
  ∧ Document.__contains__ field out.2 = (Ret false, out.2)
  ∧ _dChanged (apply_edits cls es out.2).2.1 = changed_bool true
  ∧ (apply_edits cls es out.2).2.2 = w.
Proof.
  intros Hf Hne out. subst out. rewrite d_outcome, Hf. cbn [fst snd _dData _dChanged].
  split; [done|]. split; [done|]. split; [done|].
  assert (has_field (base.delete field (_dData doc)) field = false) as Hgone.
  { unfold has_field. by rewrite lookup_delete_eq. }
  split; [|split].
  - unfold Document.g. unfold_monad. cbn [_dData]. rewrite Hgone.
    by destruct field.
  - unfold Document.__contains__. unfold_monad. cbn [_dData]. by rewrite Hgone.
  - by apply apply_edits_keep_full_replace.
Qed.

Lemma d_forces_full_replace_witness :
  has_field (_dData ann_doc) "name" = true
  ∧ "name" ≠ ""
  ∧ let es := [set_field "name" (DStr "Anna"); del_field "zip"; set_field "age" (DNum 3)] in
    let out := Document.d "name" (ann_doc, world_up) in
    out.1 = Ret tt
    ∧ _dData out.2.1 = base.delete "name" (_dData ann_doc)
    ∧ _dChanged out.2.1 = changed_bool true
    ∧ Document.g (Some "name") (DStr "?") out.2 = (Ret (field_value (DStr "?")), out.2)
    ∧ Document.__contains__ "name" out.2 = (Ret false, out.2)
    ∧ _dChanged (apply_edits Users es out.2).2.1 = changed_bool true
    ∧ (apply_edits Users es out.2).2.2 = world_up.
Proof.
  split; [reflexivity|]. split; [discriminate|].
  apply (d_forces_full_replace Users "name" (DStr "?")
           [set_field "name" (DStr "Anna"); del_field "zip"; set_field "age" (DNum 3)]
           ann_doc world_up); [reflexivity | discriminate].
Defined.

(** X5: a successful [s(field, value)] stores the cleaned value: [g] on
    that field returns it whatever the default, [__contains__] is true, the
    other fields keep their values, and the field is recorded in
    [_dChanged] when that is a dict. *)
Theorem s_then_g_returns_cleaned cls st n field value default doc w :
  struct cls = Ret st →
  nodes (struct_tree st) !! field = Some n →
  node_valid n value = true →
  field ≠ "" →
  let out := Document.s cls field value (doc, w) in
  out.1 = Ret tt
  ∧ out.2.2 = w
  ∧ Document.g (Some field) default out.2 = (Ret (field_value (node_clean n value)), out.2)
  ∧ Document.__contains__ field out.2 = (Ret true, out.2)
  ∧ (∀ other, other ≠ field → _dData out.2.1 !! other = _dData doc !! other)
  ∧ (∀ c, _dChanged doc = changed_dict c →
          _dChanged out.2.1 = changed_dict (<[field := node_clean n value]> c)).
Proof.
  intros Hst Hn Hv Hne out. subst out. rewrite s_outcome, Hst, Hn, Hv.
  cbn [fst snd _dData _dChanged].
  assert (has_field (<[field := node_clean n value]> (_dData doc)) field = true) as Hin.
  { unfold has_field. by rewrite lookup_insert_eq. }
  split; [done|]. split; [done|]. split; [|split; [|split]].
  - unfold Document.g. unfold_monad. cbn [_dData]. rewrite Hin. unfold getitem.
    rewrite lookup_insert_eq. by destruct field.
  - unfold Document.__contains__. unfold_monad. cbn [_dData]. by rewrite Hin.
  - intros other Ho. by rewrite lookup_insert_ne.
  - by intros c ->.
Qed.

Lemma s_then_g_returns_cleaned_witness :
  struct Users = Ret (Structure users_tree users_conf)
  ∧ nodes users_tree !! "name" = Some (Node (λ _, true) (λ v, v))
  ∧ let out := Document.s Users "name" (DStr "Anna") (ann_doc, world_up) in
    out.1 = Ret tt
    ∧ out.2.2 = world_up
    ∧ Document.g (Some "name") DNull out.2 = (Ret (field_value (DStr "Anna")), out.2)
    ∧ Document.__contains__ "name" out.2 = (Ret true, out.2)
    ∧ (∀ other, other ≠ "name" → _dData out.2.1 !! other = _dData ann_doc !! other)
    ∧ (∀ c, _dChanged ann_doc = changed_dict c →
            _dChanged out.2.1 = changed_dict (<["name" := DStr "Anna"]> c)).
Proof.
  split; [reflexivity|]. split; [reflexivity|].
  apply (s_then_g_returns_cleaned Users (Structure users_tree users_conf)
           (Node (λ _, true) (λ v, v)) "name" (DStr "Anna") DNull ann_doc world_up);
    [reflexivity | reflexivity | reflexivity | discriminate].
Defined.

(** X6: [s] raises [KeyError] for a field the tree does not have and
    [ValueError] for a value the field's node rejects, and [d] raises
    [KeyError] for a field the instance does not have; in each case the
    instance and the module state stay as they were. *)
Theorem field_errors_change_nothing cls st field value doc w :
  struct cls = Ret st →
  (nodes (struct_tree st) !! field = None →
     Document.s cls field value (doc, w) = (Raise (KeyError field), (doc, w)))
  ∧ (∀ n, nodes (struct_tree st) !! field = Some n → node_valid n value = false →
       Document.s cls field value (doc, w) = (Raise (ValueError field), (doc, w)))
  ∧ (has_field (_dData doc) field = false →
       Document.d field (doc, w) = (Raise (KeyError field), (doc, w))).
Proof.
  intros Hst. split; [|split].
  - intros Hn. by rewrite s_outcome, Hst, Hn.
  - intros n Hn Hv. by rewrite s_outcome, Hst, Hn, Hv.
  - intros Hf. by rewrite d_outcome, Hf.
Qed.

Lemma field_errors_change_nothing_witness :
  struct Users = Ret (Structure users_tree users_conf)
  ∧ Document.s Users "zip" (DNum 1) (ann_doc, world_up)
    = (Raise (KeyError "zip"), (ann_doc, world_up))
  ∧ Document.d "zip" (ann_doc, world_up) = (Raise (KeyError "zip"), (ann_doc, world_up)).
Proof.
  split; [reflexivity|].
  destruct (field_errors_change_nothing Users (Structure users_tree users_conf) "zip"
              (DNum 1) ann_doc world_up eq_refl) as (Hs & _ & Hd).
  split; [apply Hs | apply Hd]; reflexivity.
Defined.

(** ** Constructing and updating instances *)

Lemma changed_truthy_empty : changed_truthy (changed_dict ∅) = false.
Proof. unfold changed_truthy. by rewrite map_to_list_empty. Qed.

Lemma update_clean md5 dumps replace doc w :
  changed_truthy (_dChanged doc) = false →
  Document.update md5 dumps replace (doc, w) = (Ret false, (doc, w)).
Proof.
  intros Hc. unfold Document.update. unfold_monad. by rewrite Hc.
Qed.

(** X7: the constructor raises [ValueError] for data that is not empty and
    not valid for the tree; for empty data (which it does not validate) and
    for valid data it gives an instance that holds the cleaned data, resolved
    for the current prefix, with no pending changes, so that [update] on it
    returns [False] and connects to nothing. *)
Theorem constructor_validates_and_is_clean md5 dumps replace cls st data
    (db : gmap string string) w :
  struct cls = Ret st →
  let out := Document.__init__ cls data db w in
  (is_empty data = false → valid (struct_tree st) data = false →
     out = (Raise (ValueError (validation_fail (struct_tree st) data)), w))
  ∧ (is_empty data = true ∨ valid (struct_tree st) data = true →
     ∃ doc, out = (Ret doc, w)
            ∧ _dData doc = clean (struct_tree st) data
            ∧ _dChanged doc = changed_dict ∅
            ∧ info_db (__dInfo doc) = __msPrefix w ++ unprefixed (struct_conf st) db
            ∧ Document.update md5 dumps replace (doc, w) = (Ret false, (doc, w))).
Proof.
  intros Hst out. subst out. unfold Document.__init__. unfold_monad.
  rewrite (info_prefixed _ _ _ _ Hst). cbn [info_tree].
  split.
  - intros He Hv. by rewrite He, Hv.
  - intros Hok. eexists. split; [|split; [|split; [|split]]].
    + destruct Hok as [-> | Hv]; [reflexivity|].
      rewrite Hv. by destruct (is_empty data).
    + done.
    + done.
    + done.
    + apply update_clean. apply changed_truthy_empty.
Qed.

Lemma constructor_validates_and_is_clean_witness :
  struct Users = Ret (Structure users_tree users_conf)
  ∧ ∃ doc, Document.__init__ Users ann ∅ world_up = (Ret doc, world_up)
           ∧ _dData doc = clean users_tree ann
           ∧ _dChanged doc = changed_dict ∅
           ∧ info_db (__dInfo doc) = __msPrefix world_up ++ unprefixed users_conf ∅
           ∧ Document.update demo_md5 demo_dumps false (doc, world_up)
             = (Ret false, (doc, world_up)).
Proof.
  split; [reflexivity|].
  destruct (constructor_validates_and_is_clean demo_md5 demo_dumps false Users
              (Structure users_tree users_conf) ann ∅ world_up eq_refl) as [_ Hok].
  apply Hok. right. reflexivity.
Defined.

(** X8: [update] on an instance without pending changes returns [False];
    with pending changes but without a primary key it raises a
    [StorageException], and so does [delete] without a primary key.  None of
    the three touches the instance or the module state: no connection is
    asked for. *)
Theorem update_and_delete_guards md5 dumps replace doc w :
  (changed_truthy (_dChanged doc) = false →
     Document.update md5 dumps replace (doc, w) = (Ret false, (doc, w)))
  ∧ (changed_truthy (_dChanged doc) = true →
     has_field (_dData doc) (primary (info_conf (__dInfo doc))) = false →
     Document.update md5 dumps replace (doc, w) = (Raise (no_primary_key "update"), (doc, w)))
  ∧ (has_field (_dData doc) (primary (info_conf (__dInfo doc))) = false →
     Document.delete (doc, w) = (Raise (no_primary_key "delete"), (doc, w))).
Proof.
  split; [apply update_clean|]. split.
  - intros Hc Hpk. unfold Document.update. unfold_monad. rewrite Hc. cbn [negb fst snd].
    by rewrite Hpk.
  - intros Hpk. unfold Document.delete. unfold_monad. by rewrite Hpk.
Qed.

Lemma update_and_delete_guards_witness :
  let doc := Doc users_info {[ "name" := DStr "Eve" ]}
                 (changed_dict {[ "name" := DStr "Eve" ]}) in
  Document.update demo_md5 demo_dumps false (doc, world_down)
    = (Raise (no_primary_key "update"), (doc, world_down))
  ∧ Document.delete (doc, world_down) = (Raise (no_primary_key "delete"), (doc, world_down)).
Proof.
  cbn zeta.
  destruct (update_and_delete_guards demo_md5 demo_dumps false
              (Doc users_info {[ "name" := DStr "Eve" ]}
                   (changed_dict {[ "name" := DStr "Eve" ]})) world_down)
    as (_ & Hu & Hd).
  split; [apply Hu | apply Hd]; vm_compute; reflexivity.
Defined.

(** X9: [update] on a class without revisions, for an instance with
    pending changes and a primary key: when the reply of the server has
    [replaced] equal to 1 the call returns [True] and the pending changes
    are cleared, so that a second [update] returns [False] without a
    connection; otherwise it returns [False] and the pending changes stay.
    The connection is closed in both cases. *)
Theorem update_clears_changes_on_success md5 dumps replace doc w id c w1 dRes s2 v :
  revisions (info_conf (__dInfo doc)) = false →
  changed_truthy (_dChanged doc) = true →
  _dData doc !! primary (info_conf (__dInfo doc)) = Some id →
  _connection (info_server (__dInfo doc)) w = (Ret c, w1) →
  Reql.run (update_cursor replace doc id) (rethinkdb w1) = (Ret (Reql.one (Some dRes)), s2) →
  dRes !! "replaced" = Some v →
  let w2 := emit (Closed c) (set_rethinkdb s2 w1) in
  let out := Document.update md5 dumps replace (doc, w) in
  (datum_eqb v (DNum 1) = true →
     out = (Ret true, (set_dChanged (changed_dict ∅) doc, w2))
     ∧ Document.update md5 dumps replace out.2 = (Ret false, out.2))
  ∧ (datum_eqb v (DNum 1) = false → out = (Ret false, (doc, w2))).
Proof.
  intros Hrev Hch Hid Hc Hrun Hv w2 out.
  assert (out = if datum_eqb v (DNum 1)
                then (Ret true, (set_dChanged (changed_dict ∅) doc, w2))
                else (Ret false, (doc, w2))) as Hout.
  { subst out. unfold Document.update. unfold_monad. rewrite Hch. cbn [negb fst snd].
    unfold has_field, getitem. rewrite Hid. cbn [negb]. unfold_monad.
    rewrite Hrev. rewrite with_connect_with_unfold.
    cbn [the_world with_world method_has_world fst snd]. rewrite Hc.
    unfold run, as_dict. unfold_monad. cbn [fst snd].
    unfold update_cursor in Hrun.
    destruct (_dChanged doc) as [ch|b] eqn:Ech.
    - destruct replace; rewrite Hrun; cbn [fst snd]; rewrite Hv; cbn;
        by destruct (datum_eqb v (DNum 1)).
    - rewrite Hrun; cbn [fst snd]; rewrite Hv; cbn;
        by destruct (datum_eqb v (DNum 1)). }
  split.
  - intros Hone. rewrite Hout, Hone. split; [done|].
    apply update_clean. apply changed_truthy_empty.
  - intros Hne. by rewrite Hout, Hne.
Qed.

Lemma update_clears_changes_on_success_witness :
  revisions (info_conf (__dInfo ann_renamed)) = false
  ∧ changed_truthy (_dChanged ann_renamed) = true
  ∧ (Document.update demo_md5 demo_dumps false (ann_renamed, world_stocked)).1 = Ret true
  ∧ _dChanged (Document.update demo_md5 demo_dumps false (ann_renamed, world_stocked)).2.1
    = changed_dict ∅.
Proof.
  split; [reflexivity|]. split; [vm_compute; reflexivity|].
  assert (Hrun : ∃ dRes s2,
             Reql.run (update_cursor false ann_renamed (DStr "ann"))
                      (rethinkdb (set_calls 1 world_stocked))
               = (Ret (Reql.one (Some dRes)), s2)
             ∧ dRes !! "replaced" = Some (DNum 1)).
  { eexists _, _. split; vm_compute; reflexivity. }
  destruct Hrun as (dRes & s2 & Hrun & Hv).
  assert (Hid : _dData ann_renamed !! primary (info_conf (__dInfo ann_renamed))
                = Some (DStr "ann")) by (vm_compute; reflexivity).
  assert (Hc : _connection (info_server (__dInfo ann_renamed)) world_stocked
               = (Ret 0%nat, set_calls 1 world_stocked)) by (vm_compute; reflexivity).
  assert (Hch : changed_truthy (_dChanged ann_renamed) = true) by (vm_compute; reflexivity).
  pose proof (update_clears_changes_on_success demo_md5 demo_dumps false ann_renamed
                world_stocked (DStr "ann") 0%nat (set_calls 1 world_stocked) dRes s2 (DNum 1)
                eq_refl Hch Hid Hc Hrun Hv) as [Hyes _].
  destruct (Hyes eq_refl) as [Hout _]. rewrite Hout. split; reflexivity.
Defined.

(** ** Round trips through the server *)

Lemma is_empty_lookup (d : row) k v : d !! k = Some v → is_empty d = false.
Proof.
  intros Hk. unfold is_empty. apply bool_decide_eq_false_2.
  intros ->%map_to_list_empty_iff. by rewrite lookup_empty in Hk.
Qed.

Lemma find_snoc {A} (f : A → bool) l x :
  List.find f l = None → List.find f (l ++ [x]) = if f x then Some x else None.
Proof.
  induction l as [|y l IH]; cbn; [done|].
  destruct (f y); [done | apply IH].
Qed.

Lemma info_for_prefix cls db w i w' :
  Document.info cls db w = (Ret i, w) →
  __msPrefix w' = __msPrefix w →
  Document.info cls db w' = (Ret i, w')
  ∧ ∃ st, struct cls = Ret st ∧ info_tree i = struct_tree st ∧ info_conf i = struct_conf st
          ∧ info_server i = default (conf_server (struct_conf st)) (db !! "server")
          ∧ info_db i = __msPrefix w ++ unprefixed (struct_conf st) db.
Proof.
  intros Hi Hp. destruct (struct cls) as [st|e] eqn:Hst.
  - rewrite (info_prefixed _ _ _ _ Hst) in Hi. rewrite (info_prefixed _ _ _ _ Hst).
    injection Hi as <-. rewrite Hp. split; [done|]. by exists st.
  - unfold Document.info in Hi. unfold_monad. by rewrite Hst in Hi.
Qed.

Lemma insert_new_row md5 dumps doc w conflict c w1 tb id :
  auto_id (info_conf (__dInfo doc)) = false →
  _connection (info_server (__dInfo doc)) w = (Ret c, w1) →
  Reql.find_table (rethinkdb w1) (info_db (__dInfo doc)) (_name (info_tree (__dInfo doc)))
    = Ret tb →
  Reql.primary_key tb = primary (info_conf (__dInfo doc)) →
  _dData (stamped md5 dumps doc) !! primary (info_conf (__dInfo doc)) = Some id →
  stored_row tb id = None →
  Document.insert md5 dumps conflict (doc, w) =
    (Ret id,
     (stamped md5 dumps doc,
      emit (Closed c)
        (set_rethinkdb
           (Reql.put_table (rethinkdb w1) (info_db (__dInfo doc))
              (_name (info_tree (__dInfo doc)))
              (Reql.with_rows tb (Reql.rows tb ++ [_dData (stamped md5 dumps doc)])))
           w1))).
Proof.
  intros Hauto Hc Hf Hpk Hid Hnew.
  unfold Document.insert. fold (cleaned_conflict conflict). unfold_monad.
  unfold stamped in *. unfold stored_row in Hnew. rewrite Hpk in Hnew.
  destruct (revisions (info_conf (__dInfo doc))); [rewrite _revision_init|];
    rewrite with_connect_with_unfold;
    cbn [the_world with_world method_has_world fst snd];
    rewrite Hc; unfold run, as_dict, getitem, Document.table_of; unfold_monad;
    cbn [fst snd _dData set_dData __dInfo];
    unfold Reql.run, Reql.do_insert; rewrite Hf, Hpk;
    cbn [_dData set_dData] in Hid; rewrite Hid, Hnew;
    cbn [fst snd];
    change (Reql.counts 1 0 0 0 0 0 !! "inserted") with (Some (DNum 1));
    cbn [datum_eqb negb Z.eqb Pos.eqb]; cbn [__dInfo set_dData _dData];
    rewrite Hauto; cbn [_dData set_dData fst snd]; rewrite Hid; reflexivity.
Qed.

Lemma run_get s db name tb id raw :
  Reql.find_table s db name = Ret tb →
  Reql.run (Document.with_pluck raw (Reql.get (Reql.table db name) id)) s =
    (Ret (Reql.one (projected raw <$> stored_row tb id)), s).
Proof.
  intros Hf.
  destruct raw as [|b|fields]; unfold Reql.run; cbn [Document.with_pluck Reql.source];
    rewrite Hf; cbn [projected]; cbn; unfold stored_row;
    by destruct (find _ _).
Qed.

Lemma select_by_one_key oCur id :
  one_key id = true →
  Document.select_by oCur (by_value id) None = Ret (Reql.get oCur id, false).
Proof. by destruct id. Qed.

(** What [get] makes of the row found by a primary key. *)
Lemma get_by_key cls (db : gmap string string) w i details c tb id raw :
  Document.info cls db w = (Ret i, w) →
  __mdServers w !! info_server i = Some details →
  network w details (calls w) = Ret c →
  Reql.find_table (rethinkdb w) (info_db i) (_name (info_tree i)) = Ret tb →
  one_key id = true →
  let w1 := set_calls (Datatypes.S (calls w)) w in
  Document.get cls (by_value id) None None None raw order_none 0 db w =
    match projected raw <$> stored_row tb id with
    | Some row =>
        if is_empty row then (Ret nothing, emit (Closed c) w1)
        else
          let made := Document.raw_or_instance cls raw row db w1 in
          (match made.1 with
           | Ret it => Ret (single it)
           | Raise e => Raise e
           end, emit (Closed c) made.2)
    | None => (Ret nothing, emit (Closed c) w1)
    end.
Proof.
  intros Hi Hs Hn Hf Hid w1.
  unfold Document.get. unfold_monad. rewrite Hi. cbn [fst snd].
  rewrite with_connect_with_unfold. cbn [the_world with_world world_has_world].
  rewrite (_connection_up _ _ _ _ Hs Hn). cbn [fst snd]. fold w1.
  rewrite (select_by_one_key _ _ Hid).
  cbn [Document.with_order]. change (0 >? 0) with false. change (0 =? 1) with false.
  cbn match. unfold run, Document.table_of. cbn [rethinkdb w1 set_calls].
  rewrite (run_get _ _ _ tb id raw Hf).
  replace (set_rethinkdb (rethinkdb w) w1) with w1 by (by destruct w).
  destruct (projected raw <$> stored_row tb id) as [row|]; cbn [reply_truthy negb];
    [|done].
  destruct (is_empty row); cbn [negb]; [done|].
  by destruct (Document.raw_or_instance cls raw row db w1) as [[?|?] ?].
Qed.

Lemma run_table s db name tb raw :
  Reql.find_table s db name = Ret tb →
  Reql.run (Document.with_pluck raw (Reql.table db name)) s =
    (Ret (Reql.many (projected raw <$> Reql.rows tb)), s).
Proof.
  intros Hf.
  destruct raw as [|b|fields]; unfold Reql.run; cbn [Document.with_pluck Reql.source];
    rewrite Hf; cbn [projected]; cbn; by rewrite ?list_fmap_id.
Qed.

(** X10: [get] without an id returns the rows of the table as a list (an
    empty list for an empty table, not [None] and not an error); [get] with
    one primary key that no stored row has returns [None].  Both close the
    connection they opened. *)
Theorem get_whole_table_and_missing_key cls (db : gmap string string) w i details c tb :
  Document.info cls db w = (Ret i, w) →
  __mdServers w !! info_server i = Some details →
  network w details (calls w) = Ret c →
  Reql.find_table (rethinkdb w) (info_db i) (_name (info_tree i)) = Ret tb →
  let w1 := emit (Closed c) (set_calls (Datatypes.S (calls w)) w) in
  Document.get cls (by_value DNull) None None None (raw_bool true) order_none 0 db w
    = (Ret (several (as_raw <$> Reql.rows tb)), w1)
  ∧ (Reql.rows tb = [] →
       ∀ raw, Document.get cls (by_value DNull) None None None raw order_none 0 db w
              = (Ret (several []), w1))
  ∧ (∀ id raw, one_key id = true → stored_row tb id = None →
       Document.get cls (by_value id) None None None raw order_none 0 db w
       = (Ret nothing, w1)).
Proof.
  intros Hi Hs Hn Hf w1.
  assert (∀ raw, Document.get cls (by_value DNull) None None None raw order_none 0 db w
                 = let listing := Document.listed cls raw (projected raw <$> Reql.rows tb) db
                                    (set_calls (Datatypes.S (calls w)) w) in
                   (listing.1, emit (Closed c) listing.2)) as Hall.
  { intros raw. unfold Document.get. unfold_monad. rewrite Hi. cbn [fst snd].
    rewrite with_connect_with_unfold. cbn [the_world with_world world_has_world].
    rewrite (_connection_up _ _ _ _ Hs Hn). cbn [fst snd Document.select_by].
    cbn [Document.with_order]. change (0 >? 0) with false. change (0 =? 1) with false.
    cbn match. unfold run, Document.table_of. cbn [rethinkdb set_calls].
    rewrite (run_table _ _ _ tb raw Hf). cbn [reply_truthy negb]. cbn match.
    replace (set_rethinkdb (rethinkdb w) (set_calls (Datatypes.S (calls w)) w))
      with (set_calls (Datatypes.S (calls w)) w) by (by destruct w).
    by destruct (Document.listed cls raw _ db _) as [[?|?] ?]. }
  split; [|split].
  - rewrite Hall. cbn zeta. rewrite listed_raw. cbn [fst snd projected].
    by rewrite list_fmap_id.
  - intros Hrows raw. rewrite Hall, Hrows. cbn [fmap list_fmap].
    unfold Document.listed. by destruct (raw_truthy raw).
  - intros id raw Hid Hmiss.
    rewrite (get_by_key cls db w i details c tb id raw Hi Hs Hn Hf Hid).
    by rewrite Hmiss.
Qed.

Lemma get_whole_table_and_missing_key_witness :
  (Document.info Users ∅ world_ready = (Ret users_info, world_ready)
   ∧ __mdServers world_ready !! "default" = Some ∅
   ∧ network world_ready ∅ (calls world_ready) = Ret 1%nat)
  ∧ Document.get Users (by_value DNull) None None None raw_none order_none 0 ∅ world_ready
    = (Ret (several []), emit (Closed 1%nat) (set_calls 2 world_ready))
  ∧ Document.get Users (by_value (DStr "ann")) None None None raw_none order_none 0 ∅
      world_ready
    = (Ret nothing, emit (Closed 1%nat) (set_calls 2 world_ready)).
Proof.
  assert (Hi : Document.info Users ∅ world_ready = (Ret users_info, world_ready))
    by (vm_compute; reflexivity).
  assert (Hs : __mdServers world_ready !! info_server users_info = Some ∅)
    by (vm_compute; reflexivity).
  assert (Hn : network world_ready ∅ (calls world_ready) = Ret 1%nat)
    by (vm_compute; reflexivity).
  assert (Hf : ∃ tb, Reql.find_table (rethinkdb world_ready) (info_db users_info)
                       (_name (info_tree users_info)) = Ret tb ∧ Reql.rows tb = []).
  { eexists. split; vm_compute; reflexivity. }
  destruct Hf as (tb & Hf & Hrows).
  split; [by repeat split|].
  destruct (get_whole_table_and_missing_key Users ∅ world_ready users_info ∅ 1%nat tb
              Hi Hs Hn Hf) as (_ & Hempty & Hmiss).
  split.
  - apply (Hempty Hrows).
  - apply Hmiss; [reflexivity|]. unfold stored_row. by rewrite Hrows.
Defined.

Lemma has_key_own (d : row) pk id : d !! pk = Some id → Reql.has_key pk id d = true.
Proof.
  intros Hd. unfold Reql.has_key. rewrite Hd. by apply datum_eqb_eq.
Qed.

(** X11: insert, then look up.  For a class whose keys are given by the
    caller ([auto_id] off), inserting an instance whose key no stored row has
    returns that key, and a [get] by the key then returns the record as it
    was sent (with its first revision when revisions are on): as a plain dict
    for [raw=True], and as a clean instance holding the cleaned record when
    the record is valid for the tree. *)
Theorem insert_then_get_returns_record md5 dumps cls (db : gmap string string) doc w
    details tb id conflict :
  Document.info cls db w = (Ret (__dInfo doc), w) →
  auto_id (info_conf (__dInfo doc)) = false →
  __mdServers w !! info_server (__dInfo doc) = Some details →
  (∀ k, ∃ c, network w details k = Ret c) →
  Reql.find_table (rethinkdb w) (info_db (__dInfo doc)) (_name (info_tree (__dInfo doc)))
    = Ret tb →
  Reql.primary_key tb = primary (info_conf (__dInfo doc)) →
  _dData (stamped md5 dumps doc) !! primary (info_conf (__dInfo doc)) = Some id →
  one_key id = true →
  stored_row tb id = None →
  let sent := _dData (stamped md5 dumps doc) in
  let ins := Document.insert md5 dumps conflict (doc, w) in
  let look raw := Document.get cls (by_value id) None None None raw order_none 0 db ins.2.2 in
  ins.1 = Ret id
  ∧ ins.2.1 = stamped md5 dumps doc
  ∧ (look (raw_bool true)).1 = Ret (single (as_raw sent))
  ∧ (valid (info_tree (__dInfo doc)) sent = true →
       (look raw_none).1
       = Ret (single (as_doc (Doc (__dInfo doc) (clean (info_tree (__dInfo doc)) sent)
                                  (changed_dict ∅))))).
Proof.
  intros Hi Hauto Hs Hup Hf Hpk Hid Hone Hnew sent ins look.
  destruct (Hup (calls w)) as [c Hc].
  pose proof (_connection_up _ _ _ _ Hs Hc) as Hconn.
  assert (Hins : ins = (Ret id, (stamped md5 dumps doc,
             emit (Closed c)
               (set_rethinkdb
                  (Reql.put_table (rethinkdb w) (info_db (__dInfo doc))
                     (_name (info_tree (__dInfo doc)))
                     (Reql.with_rows tb (Reql.rows tb ++ [sent])))
                  (set_calls (Datatypes.S (calls w)) w))))).
  { subst ins.
    by rewrite (insert_new_row md5 dumps doc w conflict c
                  (set_calls (Datatypes.S (calls w)) w) tb id Hauto Hconn Hf Hpk Hid Hnew). }
  set (w' := emit _ _) in Hins.
  assert (Hw' : ins.2.2 = w') by (by rewrite Hins).
  split; [by rewrite Hins|]. split; [by rewrite Hins|].
  destruct (info_for_prefix cls db w (__dInfo doc) w' Hi eq_refl) as [Hi' _].
  destruct (Hup (calls w')) as [c' Hc'].
  assert (Hf' : Reql.find_table (rethinkdb w') (info_db (__dInfo doc))
                  (_name (info_tree (__dInfo doc)))
                = Ret (Reql.with_rows tb (Reql.rows tb ++ [sent]))).
  { subst w'. cbn. apply find_table_put. }
  assert (Hrow : stored_row (Reql.with_rows tb (Reql.rows tb ++ [sent])) id = Some sent).
  { unfold stored_row in *. cbn [Reql.with_rows Reql.primary_key Reql.rows].
    rewrite (find_snoc _ _ _ Hnew). rewrite Hpk. unfold sent.
    by rewrite (has_key_own _ _ _ Hid). }
  assert (Hfull : is_empty sent = false) by (by apply (is_empty_lookup _ _ _ Hid)).
  assert (Hlook : ∀ raw, match raw with raw_fields _ => False | _ => True end →
            look raw =
            let made := Document.raw_or_instance cls raw sent db
                          (set_calls (Datatypes.S (calls w')) w') in
            (match made.1 with
             | Ret it => Ret (single it)
             | Raise e => Raise e
             end, emit (Closed c') made.2)).
  { intros raw Hraw. subst look. cbn beta. rewrite Hw'.
    rewrite (get_by_key cls db w' (__dInfo doc) details c' _ id raw Hi' Hs Hc' Hf' Hone).
    rewrite Hrow. destruct raw; try done; cbn [fmap option_fmap option_map projected];
      by rewrite Hfull. }
  split.
  - rewrite Hlook by done. cbn zeta. unfold Document.raw_or_instance.
    cbn [raw_truthy]. by rewrite Hfull.
  - intros Hvalid. rewrite Hlook by done. cbn zeta. unfold Document.raw_or_instance.
    cbn [raw_truthy andb]. unfold Document.__init__. unfold_monad.
    destruct (info_for_prefix cls db w (__dInfo doc)
                (set_calls (Datatypes.S (calls w')) w') Hi eq_refl) as [-> _].
    cbn [fst snd]. by rewrite Hfull, Hvalid.
Qed.

Lemma insert_then_get_returns_record_witness :
  (Document.info Users ∅ world_stocked = (Ret (__dInfo dee_doc), world_stocked)
   ∧ auto_id (info_conf (__dInfo dee_doc)) = false
   ∧ _dData (stamped demo_md5 demo_dumps dee_doc) !! "_id" = Some (DStr "dee")
   ∧ stored_row users_table (DStr "dee") = None)
  ∧ let sent := _dData (stamped demo_md5 demo_dumps dee_doc) in
    let ins := Document.insert demo_md5 demo_dumps "error" (dee_doc, world_stocked) in
    let look raw := Document.get Users (by_value (DStr "dee")) None None None raw
                      order_none 0 ∅ ins.2.2 in
    ins.1 = Ret (DStr "dee")
    ∧ ins.2.1 = stamped demo_md5 demo_dumps dee_doc
    ∧ (look (raw_bool true)).1 = Ret (single (as_raw sent))
    ∧ (valid (info_tree (__dInfo dee_doc)) sent = true →
         (look raw_none).1
         = Ret (single (as_doc (Doc (__dInfo dee_doc)
                                    (clean (info_tree (__dInfo dee_doc)) sent)
                                    (changed_dict ∅))))).
Proof.
  assert (H1 : Document.info Users ∅ world_stocked = (Ret (__dInfo dee_doc), world_stocked))
    by (vm_compute; reflexivity).
  assert (H2 : auto_id (info_conf (__dInfo dee_doc)) = false) by reflexivity.
  assert (H3 : __mdServers world_stocked !! info_server (__dInfo dee_doc) = Some ∅)
    by (vm_compute; reflexivity).
  assert (H4 : ∀ k, ∃ c, network world_stocked ∅ k = Ret c) by (intros k; by exists k).
  assert (H5 : Reql.find_table (rethinkdb world_stocked) (info_db (__dInfo dee_doc))
                 (_name (info_tree (__dInfo dee_doc))) = Ret users_table)
    by (vm_compute; reflexivity).
  assert (H6 : Reql.primary_key users_table = primary (info_conf (__dInfo dee_doc)))
    by reflexivity.
  assert (H7 : _dData (stamped demo_md5 demo_dumps dee_doc)
                 !! primary (info_conf (__dInfo dee_doc)) = Some (DStr "dee"))
    by (vm_compute; reflexivity).
  assert (H8 : one_key (DStr "dee") = true) by reflexivity.
  assert (H9 : stored_row users_table (DStr "dee") = None) by (vm_compute; reflexivity).
  split; [by repeat split|].
  exact (insert_then_get_returns_record demo_md5 demo_dumps Users ∅ dee_doc world_stocked
           ∅ users_table (DStr "dee") "error" H1 H2 H3 H4 H5 H6 H7 H8 H9).
Defined.

Lemma pluck_row_lookup fields (d : row) k :
  k ∈ fields → Reql.pluck_row fields d !! k = d !! k.
Proof.
  intros Hk. unfold Reql.pluck_row.
  destruct (d !! k) as [v|] eqn:E.
  - by apply map_lookup_filter_Some_2.
  - apply map_lookup_filter_None. by left.
Qed.

Lemma find_has_key pk id l (d : row) :
  List.find (Reql.has_key pk id) l = Some d → ∃ v, d !! pk = Some v.
Proof.
  intros [_ Hd]%List.find_some. unfold Reql.has_key in Hd.
  destruct (d !! pk) as [v|]; [by exists v | done].
Qed.

(** X12: [exists] by one primary key returns [True] exactly when the table
    holds a row with that key, [False] otherwise; it never raises for a
    missing row, and it closes the connection it opened. *)
Theorem exists_iff_stored cls (db : gmap string string) w i details c tb id :
  Document.info cls db w = (Ret i, w) →
  __mdServers w !! info_server i = Some details →
  network w details (calls w) = Ret c →
  Reql.find_table (rethinkdb w) (info_db i) (_name (info_tree i)) = Ret tb →
  Reql.primary_key tb = primary (info_conf i) →
  one_key id = true →
  Document.exists_ cls (by_value id) None db w
    = (Ret (bool_decide (is_Some (stored_row tb id))),
       emit (Closed c) (set_calls (Datatypes.S (calls w)) w)).
Proof.
  intros Hi Hs Hn Hf Hpk Hid.
  unfold Document.exists_. unfold_monad. rewrite Hi. cbn [fst snd].
  rewrite (get_by_key cls db w i details c tb id _ Hi Hs Hn Hf Hid).
  destruct (stored_row tb id) as [row|] eqn:Hrow; cbn [fmap option_fmap option_map];
    [|by rewrite bool_decide_eq_false_2 by (by intros [? ?])].
  rewrite bool_decide_eq_true_2 by done.
  destruct (find_has_key _ _ _ _ Hrow) as [v Hv]. rewrite Hpk in Hv.
  assert (Hfull : is_empty (projected (raw_fields [primary (info_conf i)]) row) = false).
  { apply (is_empty_lookup _ (primary (info_conf i)) v). cbn [projected].
    rewrite pluck_row_lookup; [done | apply list_elem_of_here]. }
  rewrite Hfull. cbn zeta. unfold Document.raw_or_instance. cbn [raw_truthy andb negb].
  rewrite Hfull. cbn [negb]. unfold_monad. cbn [fst snd fetched_truthy].
  by rewrite Hfull.
Qed.

Lemma exists_iff_stored_witness :
  (Document.info Users ∅ world_stocked = (Ret users_info, world_stocked)
   ∧ stored_row users_table (DStr "ann") = Some ann
   ∧ stored_row users_table (DStr "dee") = None)
  ∧ (Document.exists_ Users (by_value (DStr "ann")) None ∅ world_stocked).1 = Ret true
  ∧ (Document.exists_ Users (by_value (DStr "dee")) None ∅ world_stocked).1 = Ret false.
Proof.
  assert (Hi : Document.info Users ∅ world_stocked = (Ret users_info, world_stocked))
    by (vm_compute; reflexivity).
  assert (Hs : __mdServers world_stocked !! info_server users_info = Some ∅)
    by (vm_compute; reflexivity).
  assert (Hn : network world_stocked ∅ (calls world_stocked) = Ret 0%nat) by reflexivity.
  assert (Hf : Reql.find_table (rethinkdb world_stocked) (info_db users_info)
                 (_name (info_tree users_info)) = Ret users_table)
    by (vm_compute; reflexivity).
  assert (Hann : stored_row users_table (DStr "ann") = Some ann) by (vm_compute; reflexivity).
  assert (Hdee : stored_row users_table (DStr "dee") = None) by (vm_compute; reflexivity).
  split; [by repeat split|].
  split.
  - rewrite (exists_iff_stored Users ∅ world_stocked users_info ∅ 0%nat users_table
               (DStr "ann") Hi Hs Hn Hf eq_refl eq_refl).
    by rewrite Hann.
  - rewrite (exists_iff_stored Users ∅ world_stocked users_info ∅ 0%nat users_table
               (DStr "dee") Hi Hs Hn Hf eq_refl eq_refl).
    by rewrite Hdee.
Defined.

(** ** Indexes that are not there *)

(** X13: [get], [exists] and [deleteGet] with an index name that the
    configuration does not declare raise the "no index ... tree"
    [StorageException] before any connection is asked for.  When the index
    is declared but the server does not have it, [get] by one value closes
    its connection and raises the "no index ... table" [StorageException],
    while [deleteGet] lets the error of the server through as it is. *)
Theorem missing_index_errors cls (db : gmap string string) w i index :
  Document.info cls db w = (Ret i, w) →
  index ≠ "" →
  (has_field_def index (indexes (info_conf i)) = false →
     (∀ _id filter contains raw orderby limit,
        Document.get cls _id (Some index) filter contains raw orderby limit db w
        = (Raise (no_index index "tree"), w))
     ∧ (∀ _id, Document.exists_ cls _id (Some index) db w = (Raise (no_index index "tree"), w))
     ∧ (∀ _id, Document.deleteGet cls _id (Some index) db w
               = (Raise (no_index index "tree"), w)))
  ∧ (has_field_def index (indexes (info_conf i)) = true →
     ∀ details c tb id,
       __mdServers w !! info_server i = Some details →
       network w details (calls w) = Ret c →
       Reql.find_table (rethinkdb w) (info_db i) (_name (info_tree i)) = Ret tb →
       Reql.indexes tb !! index = None →
       one_key id = true →
       let w1 := emit (Closed c) (set_calls (Datatypes.S (calls w)) w) in
       Document.get cls (by_value id) (Some index) None None raw_none order_none 0 db w
       = (Raise (no_index index "table"), w1)
       ∧ ∃ msg, Document.deleteGet cls (by_value id) (Some index) db w
                = (Raise (ReqlOpFailedError msg), w1)).
Proof.
  intros Hi Hix. apply String.eqb_neq in Hix as Hne. split.
  - intros Hdecl.
    assert (∀ _id filter contains raw orderby limit,
              Document.get cls _id (Some index) filter contains raw orderby limit db w
              = (Raise (no_index index "tree"), w)) as Hget.
    { intros. unfold Document.get. unfold_monad. rewrite Hi. cbn [fst snd].
      by rewrite Hne, Hdecl. }
    split; [exact Hget|]. split.
    + intros _id. unfold Document.exists_. unfold_monad. rewrite Hi. cbn [fst snd].
      by rewrite Hget.
    + intros _id. unfold Document.deleteGet. unfold_monad. rewrite Hi. cbn [fst snd].
      by rewrite Hne, Hdecl.
  - intros Hdecl details c tb id Hs Hn Hf Hmiss Hid w1.
    set (missing := ReqlOpFailedError ("Index `" ++ index ++ "` was not found on table.")).
    assert (Hrun1 : Reql.run (Reql.get_all (Reql.table (info_db i) (_name (info_tree i)))
                                [id] (Some index)) (rethinkdb w)
                    = (Raise missing, rethinkdb w)).
    { unfold Reql.run. cbn [Reql.source]. rewrite Hf.
      cbn [Reql.select]. unfold Reql.find_index. by rewrite Hmiss. }
    assert (Hrun2 : Reql.run (Reql.delete (Reql.get_all
                                (Reql.table (info_db i) (_name (info_tree i)))
                                [id] (Some index))) (rethinkdb w)
                    = (Raise missing, rethinkdb w)).
    { unfold Reql.run, Reql.do_write. cbn [Reql.source]. rewrite Hf.
      cbn [Reql.select]. unfold Reql.find_index. by rewrite Hmiss. }
    split.
    + unfold Document.get. unfold_monad. rewrite Hi. cbn [fst snd].
      rewrite Hne, Hdecl. cbn [negb andb].
      rewrite with_connect_with_unfold. cbn [the_world with_world world_has_world].
      rewrite (_connection_up _ _ _ _ Hs Hn). cbn [fst snd].
      assert (Document.select_by (Document.table_of i) (by_value id) (Some index)
              = Ret (Reql.get_all (Document.table_of i) [id] (Some index), true)) as ->.
      { unfold Document.select_by. rewrite Hne. by destruct id. }
      cbn [Document.with_order Document.with_pluck].
      change (0 >? 0) with false. cbn match.
      unfold run, Document.table_of. cbn [rethinkdb set_calls]. rewrite Hrun1.
      cbn. by destruct w.
    + eexists. unfold Document.deleteGet. unfold_monad. rewrite Hi. cbn [fst snd].
      rewrite Hne, Hdecl. cbn [negb andb].
      rewrite with_connect_with_unfold. cbn [the_world with_world world_has_world].
      rewrite (_connection_up _ _ _ _ Hs Hn). cbn [fst snd].
      unfold run, Document.table_of. cbn [rethinkdb set_calls].
      destruct id; try discriminate; rewrite Hrun2; cbn; by destruct w.
Qed.

Lemma missing_index_errors_witness :
  (Document.info Users ∅ world_stocked = (Ret users_info, world_stocked) ∧ "zip" ≠ "")
  ∧ Document.get Users (by_value (DNum 5)) (Some "zip") None None raw_none order_none 0 ∅
      world_stocked
    = (Raise (no_index "zip" "tree"), world_stocked)
  ∧ Document.deleteGet Users (by_value (DNum 5)) (Some "zip") ∅ world_stocked
    = (Raise (no_index "zip" "tree"), world_stocked).
Proof.
  assert (Hi : Document.info Users ∅ world_stocked = (Ret users_info, world_stocked))
    by (vm_compute; reflexivity).
  assert (Hne : "zip" ≠ "") by discriminate.
  split; [by split|].
  destruct (missing_index_errors Users ∅ world_stocked users_info "zip" Hi Hne)
    as [Hundeclared _].
  destruct (Hundeclared eq_refl) as (Hget & _ & Hdel).
  split; [apply Hget | apply Hdel].
Defined.

(** ** Deleting records *)

Lemma counts_deleted a b c d e f : Reql.counts a b c d e f !! "deleted" = Some (DNum d).
Proof. reflexivity. Qed.

Lemma filter_split_length {A} (f : A → bool) l :
  (List.length (List.filter f l) + List.length (List.filter (λ x, negb (f x)) l))%nat
  = List.length l.
Proof.
  induction l as [|x l IH]; [done|]. cbn. destruct (f x); cbn; lia.
Qed.

Lemma find_filter_out {A} (f : A → bool) l :
  List.find f (List.filter (λ x, negb (f x)) l) = None.
Proof.
  induction l as [|x l IH]; [done|]. cbn.
  destruct (f x) eqn:E; cbn; [done|]. by rewrite E.
Qed.

Lemma stored_row_without tb id :
  stored_row (Reql.with_rows tb (rows_without tb id)) id = None.
Proof. unfold stored_row, rows_without. cbn. apply find_filter_out. Qed.

Lemma run_delete_key s db name tb id :
  Reql.find_table s db name = Ret tb →
  Reql.run (Reql.delete (Reql.get (Reql.table db name) id)) s =
    match stored_row tb id with
    | None => (Ret Reql.skipped_one, s)
    | Some _ =>
        (Ret (Reql.one (Some (Reql.counts 0 0 0
                 (Z.of_nat (List.length
                    (List.filter (Reql.has_key (Reql.primary_key tb) id) (Reql.rows tb))))
                 0 0))),
         Reql.put_table s db name (Reql.with_rows tb (rows_without tb id)))
    end.
Proof.
  intros Hf. unfold Reql.run, Reql.do_write. cbn [Reql.source]. rewrite Hf.
  cbn [Reql.select]. unfold_monad. unfold stored_row.
  destruct (find _ _) as [d|] eqn:Hd; [|done].
  cbn [Reql.keys_of].
  apply List.find_some in Hd as [_ Hkey]. unfold Reql.has_key in Hkey.
  destruct (d !! Reql.primary_key tb) as [v|] eqn:Hv; [|done].
  apply datum_eqb_eq in Hkey as ->.
  assert (omap (λ x0 : row, x0 !! Reql.primary_key tb) (option_list (Some d)) = [id]) as ->.
  { cbn. by rewrite Hv. }
  assert (List.filter
            (λ x : row, negb (Reql.key_among (x !! Reql.primary_key tb) [id])) (Reql.rows tb)
          = rows_without tb id) as ->.
  { unfold rows_without. apply List.filter_ext. intros x.
    unfold Reql.key_among, Reql.has_key.
    destruct (x !! Reql.primary_key tb); cbn; by rewrite ?orb_false_r. }
  do 5 f_equal.
  pose proof (filter_split_length (Reql.has_key (Reql.primary_key tb) id) (Reql.rows tb)).
  unfold rows_without. lia.
Qed.

(** X14: [deleteGet] by one primary key returns 0 and leaves the table as
    it is when no row has the key; otherwise it returns the number of rows
    with the key and the table keeps exactly the other rows, so that no row
    with the key is left.  The connection is closed. *)
Theorem deleteGet_by_key cls (db : gmap string string) w i details c tb id :
  Document.info cls db w = (Ret i, w) →
  __mdServers w !! info_server i = Some details →
  network w details (calls w) = Ret c →
  Reql.find_table (rethinkdb w) (info_db i) (_name (info_tree i)) = Ret tb →
  one_key id = true →
  let w1 := set_calls (Datatypes.S (calls w)) w in
  let left := Reql.with_rows tb (rows_without tb id) in
  let out := Document.deleteGet cls (by_value id) None db w in
  (stored_row tb id = None → out = (Ret (DNum 0), emit (Closed c) w1))
  ∧ (is_Some (stored_row tb id) →
       out = (Ret (DNum (Z.of_nat (List.length
                 (List.filter (Reql.has_key (Reql.primary_key tb) id) (Reql.rows tb))))),
              emit (Closed c)
                (set_rethinkdb
                   (Reql.put_table (rethinkdb w) (info_db i) (_name (info_tree i)) left) w1)))
  ∧ stored_row left id = None.
Proof.
  intros Hi Hs Hn Hf Hid w1 left out.
  assert (out = let ran := Reql.run (Reql.delete (Reql.get
                                (Reql.table (info_db i) (_name (info_tree i))) id))
                             (rethinkdb w) in
                match ran.1 with
                | Ret (Reql.one (Some dRes)) =>
                    (match dRes !! "deleted" with
                     | Some v => Ret v
                     | None => Raise (KeyError "deleted")
                     end, emit (Closed c) (set_rethinkdb ran.2 w1))
                | Ret _ => (Raise (ValueError "reply is no object"),
                            emit (Closed c) (set_rethinkdb ran.2 w1))
                | Raise e => (Raise e, emit (Closed c) (set_rethinkdb ran.2 w1))
                end) as Hout.
  { subst out. unfold Document.deleteGet. unfold_monad. rewrite Hi. cbn [fst snd].
    rewrite with_connect_with_unfold. cbn [the_world with_world world_has_world].
    rewrite (_connection_up _ _ _ _ Hs Hn). cbn [fst snd]. fold w1.
    unfold run, Document.table_of, as_dict, getitem. cbn [rethinkdb w1 set_calls].
    destruct id; try discriminate; cbn zeta;
      destruct (Reql.run _ (rethinkdb w)) as [[[[dRes|]|l]|e] s1]; cbn; try done;
      by destruct (dRes !! "deleted"). }
  rewrite (run_delete_key _ _ _ tb id Hf) in Hout.
  split; [|split].
  - intros Hnone. rewrite Hout, Hnone. cbn. by destruct w.
  - intros [d Hd]. rewrite Hout, Hd. cbn [fst snd]. by rewrite counts_deleted.
  - apply stored_row_without.
Qed.

Lemma deleteGet_by_key_witness :
  (Document.info Users ∅ world_stocked = (Ret users_info, world_stocked)
   ∧ stored_row users_table (DStr "dee") = None
   ∧ is_Some (stored_row users_table (DStr "bob")))
  ∧ (Document.deleteGet Users (by_value (DStr "dee")) None ∅ world_stocked).1 = Ret (DNum 0)
  ∧ (Document.deleteGet Users (by_value (DStr "bob")) None ∅ world_stocked).1 = Ret (DNum 1).
Proof.
  assert (Hi : Document.info Users ∅ world_stocked = (Ret users_info, world_stocked))
    by (vm_compute; reflexivity).
  assert (Hs : __mdServers world_stocked !! info_server users_info = Some ∅)
    by (vm_compute; reflexivity).
  assert (Hn : network world_stocked ∅ (calls world_stocked) = Ret 0%nat) by reflexivity.
  assert (Hf : Reql.find_table (rethinkdb world_stocked) (info_db users_info)
                 (_name (info_tree users_info)) = Ret users_table)
    by (vm_compute; reflexivity).
  assert (Hdee : stored_row users_table (DStr "dee") = None) by (vm_compute; reflexivity).
  assert (Hbob : is_Some (stored_row users_table (DStr "bob")))
    by (exists bob; vm_compute; reflexivity).
  split; [by repeat split|].
  split.
  - destruct (deleteGet_by_key Users ∅ world_stocked users_info ∅ 0%nat users_table
                (DStr "dee") Hi Hs Hn Hf eq_refl) as (Hnone & _ & _).
    by rewrite (Hnone Hdee).
  - destruct (deleteGet_by_key Users ∅ world_stocked users_info ∅ 0%nat users_table
                (DStr "bob") Hi Hs Hn Hf eq_refl) as (_ & Hsome & _).
    rewrite (Hsome Hbob). cbn [fst]. vm_compute. reflexivity.
Defined.

Lemma find_none_filter {A} (f : A → bool) l :
  List.find f l = None → List.filter f l = [].
Proof.
  induction l as [|x l IH]; cbn; [done|]. destruct (f x); [done | exact IH].
Qed.

(** X15: delete, then look up.  When exactly one stored row has the
    primary key of the instance, [delete] returns [True], the instance loses
    its primary key (and nothing else), the table loses that row, and
    afterwards [exists] by the key is [False] and [get] by the key returns
    [None]. *)
Theorem delete_then_gone cls (db : gmap string string) doc w details tb id :
  Document.info cls db w = (Ret (__dInfo doc), w) →
  __mdServers w !! info_server (__dInfo doc) = Some details →
  (∀ k, ∃ c, network w details k = Ret c) →
  Reql.find_table (rethinkdb w) (info_db (__dInfo doc)) (_name (info_tree (__dInfo doc)))
    = Ret tb →
  Reql.primary_key tb = primary (info_conf (__dInfo doc)) →
  _dData doc !! primary (info_conf (__dInfo doc)) = Some id →
  one_key id = true →
  List.length (List.filter (Reql.has_key (Reql.primary_key tb) id) (Reql.rows tb)) = 1%nat →
  let del := Document.delete (doc, w) in
  del.1 = Ret true
  ∧ del.2.1 = set_dData (base.delete (primary (info_conf (__dInfo doc))) (_dData doc)) doc
  ∧ Reql.find_table (rethinkdb del.2.2) (info_db (__dInfo doc))
      (_name (info_tree (__dInfo doc))) = Ret (Reql.with_rows tb (rows_without tb id))
  ∧ (Document.exists_ cls (by_value id) None db del.2.2).1 = Ret false
  ∧ (Document.get cls (by_value id) None None None raw_none order_none 0 db del.2.2).1
    = Ret nothing.
Proof.
  intros Hi Hs Hup Hf Hpk Hid Hone Hcount del.
  destruct (Hup (calls w)) as [c Hc].
  set (left := Reql.with_rows tb (rows_without tb id)).
  set (w' := emit (Closed c)
               (set_rethinkdb
                  (Reql.put_table (rethinkdb w) (info_db (__dInfo doc))
                     (_name (info_tree (__dInfo doc))) left)
                  (set_calls (Datatypes.S (calls w)) w))).
  assert (Hstored : is_Some (stored_row tb id)).
  { destruct (stored_row tb id) as [d|] eqn:E; [by exists d|].
    unfold stored_row in E. apply find_none_filter in E. rewrite E in Hcount. done. }
  assert (Hdel : del = (Ret true,
            (set_dData (base.delete (primary (info_conf (__dInfo doc))) (_dData doc)) doc,
             w'))).
  { subst del. unfold Document.delete. unfold_monad. unfold has_field. rewrite Hid.
    cbn [negb]. rewrite with_connect_with_unfold.
    cbn [the_world with_world method_has_world fst snd].
    rewrite (_connection_up _ _ _ _ Hs Hc). unfold getitem, run, as_dict, Document.table_of.
    unfold_monad. rewrite Hid. cbn [fst snd rethinkdb set_calls].
    rewrite (run_delete_key _ _ _ tb id Hf).
    destruct Hstored as [d ->]. cbn [fst snd]. rewrite counts_deleted, Hcount.
    reflexivity. }
  assert (Hf' : Reql.find_table (rethinkdb w') (info_db (__dInfo doc))
                  (_name (info_tree (__dInfo doc))) = Ret left).
  { subst w'. cbn. apply find_table_put. }
  rewrite Hdel. cbn [fst snd].
  split; [done|]. split; [done|]. split; [done|].
  destruct (info_for_prefix cls db w (__dInfo doc) w' Hi eq_refl) as [Hi' _].
  destruct (Hup (calls w')) as [c' Hc'].
  split.
  - rewrite (exists_iff_stored cls db w' (__dInfo doc) details c' left id Hi' Hs Hc' Hf'
               Hpk Hone).
    cbn [fst]. f_equal. apply bool_decide_eq_false_2.
    subst left. rewrite stored_row_without. by intros [? ?].
  - rewrite (get_by_key cls db w' (__dInfo doc) details c' left id raw_none Hi' Hs Hc' Hf'
               Hone).
    subst left. by rewrite stored_row_without.
Qed.

Lemma delete_then_gone_witness :
  (Document.info Users ∅ world_stocked = (Ret (__dInfo ann_doc), world_stocked)
   ∧ _dData ann_doc !! "_id" = Some (DStr "ann")
   ∧ List.length (List.filter (Reql.has_key "_id" (DStr "ann")) (Reql.rows users_table))
     = 1%nat)
  ∧ let del := Document.delete (ann_doc, world_stocked) in
    del.1 = Ret true
    ∧ del.2.1 = set_dData (base.delete "_id" (_dData ann_doc)) ann_doc
    ∧ (Document.exists_ Users (by_value (DStr "ann")) None ∅ del.2.2).1 = Ret false
    ∧ (Document.get Users (by_value (DStr "ann")) None None None raw_none order_none 0 ∅
         del.2.2).1 = Ret nothing.
Proof.
  assert (H1 : Document.info Users ∅ world_stocked = (Ret (__dInfo ann_doc), world_stocked))
    by (vm_compute; reflexivity).
  assert (H2 : __mdServers world_stocked !! info_server (__dInfo ann_doc) = Some ∅)
    by (vm_compute; reflexivity).
  assert (H3 : ∀ k, ∃ c, network world_stocked ∅ k = Ret c) by (intros k; by exists k).
  assert (H4 : Reql.find_table (rethinkdb world_stocked) (info_db (__dInfo ann_doc))
                 (_name (info_tree (__dInfo ann_doc))) = Ret users_table)
    by (vm_compute; reflexivity).
  assert (H5 : Reql.primary_key users_table = primary (info_conf (__dInfo ann_doc)))
    by reflexivity.
  assert (H6 : _dData ann_doc !! primary (info_conf (__dInfo ann_doc)) = Some (DStr "ann"))
    by (vm_compute; reflexivity).
  assert (H7 : List.length (List.filter (Reql.has_key (Reql.primary_key users_table)
                                           (DStr "ann")) (Reql.rows users_table)) = 1%nat)
    by (vm_compute; reflexivity).
  split; [by repeat split|].
  destruct (delete_then_gone Users ∅ ann_doc world_stocked ∅ users_table (DStr "ann")
              H1 H2 H3 H4 H5 H6 eq_refl H7) as (Ha & Hb & _ & Hc & Hd).
  by repeat split.
Defined.

(** ** Dropping tables *)

Lemma table_drop_existing s db name tb :
  Reql.find_table s db name = Ret tb →
  ∃ tables,
    Reql.dbs s !! db = Some tables
    ∧ Reql.run (Reql.table_drop db name) s =
        (Ret (Reql.one (Some {[ "tables_dropped" := DNum 1 ]})),
         Reql.Server (<[db := base.delete name tables]> (Reql.dbs s)) (Reql.keygen s)).
Proof.
  intros Hf. destruct (find_table_inv _ _ _ _ Hf) as (tables & Hdb & Htb).
  exists tables. split; [done|]. unfold Reql.run. by rewrite Hf, Hdb.
Qed.

Lemma tableDelete_missing cls st db w details c e :
  struct cls = Ret st →
  __mdServers w !! default (conf_server (struct_conf st)) (db !! "server") = Some details →
  network w details (calls w) = Ret c →
  Reql.find_table (rethinkdb w) (__msPrefix w ++ unprefixed (struct_conf st) db)
    (_name (struct_tree st)) = Raise e →
  Document.tableDelete cls db w
    = (Ret false, emit (Closed c) (set_calls (Datatypes.S (calls w)) w)).
Proof.
  intros Hst Hs Hn Hf.
  unfold Document.tableDelete. unfold_monad.
  rewrite (info_prefixed _ _ _ _ Hst). cbn [info_server info_db info_tree info_conf].
  rewrite with_connect_with_unfold. cbn [the_world with_world world_has_world].
  rewrite (_connection_up _ _ _ _ Hs Hn). cbn [fst snd].
  unfold run. cbn [rethinkdb set_calls]. unfold Reql.run. rewrite Hf.
  assert (is_RqlRuntimeError e = true) as He.
  { unfold Reql.find_table, Reql.find_db in Hf. unfold_monad.
    destruct (Reql.dbs (rethinkdb w) !! _) as [tables|]; cbn in Hf;
      [destruct (tables !! _); [done|] |]; by injection Hf as <-. }
  cbn. rewrite He. cbn. by destruct w.
Qed.

(** X16: on a reachable server that has the table, the first [tableDelete]
    drops it and returns [True], a second one returns [False] (the error of
    the server for the missing table is caught), and a [tableCreate] after
    the drop returns [True] again. *)
Theorem tableDelete_twice cls st (db : gmap string string) w details tb :
  struct cls = Ret st →
  __mdServers w !! default (conf_server (struct_conf st)) (db !! "server") = Some details →
  (∀ k, ∃ c, network w details k = Ret c) →
  Reql.find_table (rethinkdb w) (__msPrefix w ++ unprefixed (struct_conf st) db)
    (_name (struct_tree st)) = Ret tb →
  (∀ i def, indexes (struct_conf st) !! i = Some def → recognised def = true) →
  let first := Document.tableDelete cls db w in
  let second := Document.tableDelete cls db first.2 in
  let again := Document.tableCreate cls db first.2 in
  first.1 = Ret true
  ∧ (∃ e, Reql.find_table (rethinkdb first.2)
            (__msPrefix w ++ unprefixed (struct_conf st) db) (_name (struct_tree st))
          = Raise e)
  ∧ second.1 = Ret false
  ∧ again.1 = Ret true.
Proof.
  intros Hst Hs Hup Hf Hrec first second again.
  destruct (Hup (calls w)) as [c Hc].
  destruct (table_drop_existing _ _ _ _ Hf) as (tables & Hdb & Hdrop).
  set (dbname := __msPrefix w ++ unprefixed (struct_conf st) db) in *.
  set (s1 := Reql.Server (<[dbname := base.delete (_name (struct_tree st)) tables]>
                            (Reql.dbs (rethinkdb w))) (Reql.keygen (rethinkdb w))) in *.
  set (w1 := emit (Closed c) (set_rethinkdb s1 (set_calls (Datatypes.S (calls w)) w))).
  assert (Hfirst : first = (Ret true, w1)).
  { subst first. unfold Document.tableDelete. unfold_monad.
    rewrite (info_prefixed _ _ _ _ Hst). cbn [info_server info_db info_tree info_conf].
    rewrite with_connect_with_unfold. cbn [the_world with_world world_has_world].
    rewrite (_connection_up _ _ _ _ Hs Hc). cbn [fst snd].
    unfold run. cbn [rethinkdb set_calls]. fold dbname. rewrite Hdrop.
    cbn [as_dict]. unfold_monad. unfold has_field. rewrite lookup_singleton_eq. cbn.
    reflexivity. }
  assert (Hdb1 : Reql.dbs (rethinkdb w1) !! dbname
                 = Some (base.delete (_name (struct_tree st)) tables)).
  { subst w1 s1. cbn. by rewrite lookup_insert_eq. }
  assert (Hgone : base.delete (_name (struct_tree st)) tables !! _name (struct_tree st)
                  = None) by apply lookup_delete_eq.
  assert (Hf1 : ∃ e, Reql.find_table (rethinkdb w1) dbname (_name (struct_tree st))
                     = Raise e).
  { unfold Reql.find_table, Reql.find_db. rewrite Hdb1. cbn. rewrite Hgone. by eexists. }
  subst second again. rewrite Hfirst. cbn [fst snd].
  split; [done|]. split; [exact Hf1|].
  destruct (Hup (calls w1)) as [c1 Hc1]. destruct Hf1 as [e He].
  split.
  - by rewrite (tableDelete_missing cls st db w1 details c1 e Hst Hs Hc1 He).
  - destruct (tableCreate_fresh cls st db w1 details c1 _ Hst Hs Hc1 Hdb1 Hgone Hrec)
      as (s' & tb' & -> & _). done.
Qed.

Lemma tableDelete_twice_witness :
  (struct Users = Ret (Structure users_tree users_conf)
   ∧ Reql.find_table (rethinkdb world_stocked) "Test" "users" = Ret users_table)
  ∧ let first := Document.tableDelete Users ∅ world_stocked in
    let second := Document.tableDelete Users ∅ first.2 in
    let again := Document.tableCreate Users ∅ first.2 in
    first.1 = Ret true ∧ second.1 = Ret false ∧ again.1 = Ret true.
Proof.
  split; [split; vm_compute; reflexivity|].
  assert (H2 : __mdServers world_stocked
                 !! default (conf_server (struct_conf (Structure users_tree users_conf)))
                            ((∅ : gmap string string) !! "server") = Some ∅)
    by (vm_compute; reflexivity).
  assert (H3 : ∀ k, ∃ c, network world_stocked ∅ k = Ret c) by (intros k; by exists k).
  assert (H4 : Reql.find_table (rethinkdb world_stocked)
                 (__msPrefix world_stocked
                    ++ unprefixed (struct_conf (Structure users_tree users_conf)) ∅)
                 (_name (struct_tree (Structure users_tree users_conf))) = Ret users_table)
    by (vm_compute; reflexivity).
  assert (H5 : ∀ i def, indexes (struct_conf (Structure users_tree users_conf)) !! i
                        = Some def → recognised def = true).
  { intros i def. cbn [struct_conf users_conf indexes].
    intros [<- <-]%lookup_singleton_Some. reflexivity. }
  destruct (tableDelete_twice Users (Structure users_tree users_conf) ∅ world_stocked ∅
              users_table eq_refl H2 H3 H4 H5) as (Ha & _ & Hb & Hc).
  split; [exact Ha|]. split; [exact Hb | exact Hc].
Defined.

(** ** Databases *)

Lemma db_create_outcome name srv w details c :
  __mdServers w !! srv = Some details →
  network w details (calls w) = Ret c →
  db_create name srv w =
    (Ret true,
     emit (Closed c)
       (set_rethinkdb
          match Reql.dbs (rethinkdb w) !! name with
          | Some _ => rethinkdb w
          | None => Reql.Server (<[name := ∅]> (Reql.dbs (rethinkdb w)))
                                (Reql.keygen (rethinkdb w))
          end (set_calls (Datatypes.S (calls w)) w))).
Proof.
  intros Hs Hn. unfold db_create. unfold_monad.
  rewrite with_connect_with_unfold. cbn [the_world with_world world_has_world].
  rewrite (_connection_up _ _ _ _ Hs Hn). cbn [fst snd].
  unfold run_db, ReqlDb.run. cbn [rethinkdb set_calls].
  destruct (Reql.dbs (rethinkdb w) !! name) as [tables|]; cbn; [done|].
  unfold has_field. rewrite lookup_singleton_eq. reflexivity.
Qed.

Lemma db_drop_outcome name srv w details c :
  __mdServers w !! srv = Some details →
  network w details (calls w) = Ret c →
  db_drop name srv w =
    match Reql.dbs (rethinkdb w) !! name with
    | Some _ =>
        (Ret true,
         emit (Closed c)
           (set_rethinkdb (Reql.Server (base.delete name (Reql.dbs (rethinkdb w)))
                                       (Reql.keygen (rethinkdb w)))
              (set_calls (Datatypes.S (calls w)) w)))
    | None =>
        (Ret false, emit (Closed c) (set_rethinkdb (rethinkdb w)
                                       (set_calls (Datatypes.S (calls w)) w)))
    end.
Proof.
  intros Hs Hn. unfold db_drop. unfold_monad.
  rewrite with_connect_with_unfold. cbn [the_world with_world world_has_world].
  rewrite (_connection_up _ _ _ _ Hs Hn). cbn [fst snd].
  unfold run_db, ReqlDb.run. cbn [rethinkdb set_calls].
  destruct (Reql.dbs (rethinkdb w) !! name) as [tables|]; cbn; [|done].
  unfold has_field. rewrite lookup_singleton_eq. reflexivity.
Qed.

(** X17: on a reachable registered server [db_create] returns [True]
    whether or not the database exists: a new database is created empty, an
    existing one is kept with its tables (the "already exists" error of the
    server is turned into [True]), other databases are not touched, and a
    second [db_create] returns [True] again without changing the server. *)
Theorem db_create_is_idempotent name srv w details :
  __mdServers w !! srv = Some details →
  (∀ k, ∃ c, network w details k = Ret c) →
  let first := db_create name srv w in
  let second := db_create name srv first.2 in
  first.1 = Ret true
  ∧ Reql.dbs (rethinkdb first.2) !! name
    = Some (default ∅ (Reql.dbs (rethinkdb w) !! name))
  ∧ (∀ other, other ≠ name →
       Reql.dbs (rethinkdb first.2) !! other = Reql.dbs (rethinkdb w) !! other)
  ∧ second.1 = Ret true
  ∧ rethinkdb second.2 = rethinkdb first.2.
Proof.
  intros Hs Hup first second. subst second first.
  destruct (Hup (calls w)) as [c Hc].
  rewrite (db_create_outcome name srv w details c Hs Hc). cbn [fst snd].
  set (w1 := emit _ _).
  assert (Hdb : Reql.dbs (rethinkdb w1) !! name
                = Some (default ∅ (Reql.dbs (rethinkdb w) !! name))).
  { subst w1. cbn. destruct (Reql.dbs (rethinkdb w) !! name) eqn:E; cbn; [done|].
    by rewrite lookup_insert_eq. }
  split; [done|]. split; [exact Hdb|]. split.
  - intros other Hne. subst w1. cbn.
    destruct (Reql.dbs (rethinkdb w) !! name); cbn; [done|]. by rewrite lookup_insert_ne.
  - destruct (Hup (calls w1)) as [c1 Hc1].
    rewrite (db_create_outcome name srv w1 details c1 Hs Hc1). cbn [fst snd].
    split; [done|]. by rewrite Hdb.
Qed.

Lemma db_create_is_idempotent_witness :
  __mdServers world_stocked !! "default" = Some ∅
  ∧ let first := db_create "Test" "default" world_stocked in
    let second := db_create "Test" "default" first.2 in
    first.1 = Ret true
    ∧ Reql.dbs (rethinkdb first.2) !! "Test"
      = Some (default ∅ (Reql.dbs (rethinkdb world_stocked) !! "Test"))
    ∧ (∀ other, other ≠ "Test" →
         Reql.dbs (rethinkdb first.2) !! other = Reql.dbs (rethinkdb world_stocked) !! other)
    ∧ second.1 = Ret true
    ∧ rethinkdb second.2 = rethinkdb first.2.
Proof.
  split; [reflexivity|].
  apply (db_create_is_idempotent "Test" "default" world_stocked ∅); [reflexivity|].
  intros k. by exists k.
Defined.

(** X18: on a reachable registered server [db_drop] of an existing
    database returns [True] and removes it, leaving the other databases; a
    [db_drop] of a database that does not exist returns [False] without
    raising and changes nothing on the server; so a second drop is [False].
    A [db_create] after the drop gives an empty database. *)
Theorem db_drop_twice name srv w details tables :
  __mdServers w !! srv = Some details →
  (∀ k, ∃ c, network w details k = Ret c) →
  Reql.dbs (rethinkdb w) !! name = Some tables →
  let first := db_drop name srv w in
  let second := db_drop name srv first.2 in
  let again := db_create name srv first.2 in
  first.1 = Ret true
  ∧ Reql.dbs (rethinkdb first.2) !! name = None
  ∧ (∀ other, other ≠ name →
       Reql.dbs (rethinkdb first.2) !! other = Reql.dbs (rethinkdb w) !! other)
  ∧ second.1 = Ret false
  ∧ rethinkdb second.2 = rethinkdb first.2
  ∧ again.1 = Ret true
  ∧ Reql.dbs (rethinkdb again.2) !! name = Some ∅.
Proof.
  intros Hs Hup Hdb first second again. subst second again first.
  destruct (Hup (calls w)) as [c Hc].
  rewrite (db_drop_outcome name srv w details c Hs Hc), Hdb. cbn [fst snd].
  set (w1 := emit _ _).
  assert (Hgone : Reql.dbs (rethinkdb w1) !! name = None).
  { subst w1. cbn. apply lookup_delete_eq. }
  split; [done|]. split; [exact Hgone|]. split.
  - intros other Hne. subst w1. cbn. by rewrite lookup_delete_ne.
  - destruct (Hup (calls w1)) as [c1 Hc1].
    rewrite (db_drop_outcome name srv w1 details c1 Hs Hc1), Hgone. cbn [fst snd].
    split; [done|]. split; [done|].
    rewrite (db_create_outcome name srv w1 details c1 Hs Hc1), Hgone. cbn [fst snd].
    split; [done|]. cbn. by rewrite lookup_insert_eq.
Qed.

Lemma db_drop_twice_witness :
  (__mdServers world_up !! "default" = Some ∅
   ∧ Reql.dbs (rethinkdb world_up) !! "Test" = Some ∅)
  ∧ let first := db_drop "Test" "default" world_up in
    let second := db_drop "Test" "default" first.2 in
    let again := db_create "Test" "default" first.2 in
    first.1 = Ret true
    ∧ Reql.dbs (rethinkdb first.2) !! "Test" = None
    ∧ (∀ other, other ≠ "Test" →
         Reql.dbs (rethinkdb first.2) !! other = Reql.dbs (rethinkdb world_up) !! other)
    ∧ second.1 = Ret false
    ∧ rethinkdb second.2 = rethinkdb first.2
    ∧ again.1 = Ret true
    ∧ Reql.dbs (rethinkdb again.2) !! "Test" = Some ∅.
Proof.
  split; [split; reflexivity|].
  apply (db_drop_twice "Test" "default" world_up ∅ ∅); [reflexivity | | reflexivity].
  intros k. by exists k.
Defined.

(** ** What [insert] returns *)

(** X19: [insert] after the server reported one inserted row.  With
    [auto_id] on, the first generated key of the reply is stored in the
    instance as its primary key and returned; if the reply has no generated
    keys (the caller gave the key), the call raises [KeyError] although the
    row was written.  With [auto_id] off the call returns the primary key
    the instance holds, and raises [KeyError] if it holds none.  The
    connection is closed in every case. *)
Theorem insert_follows_reply md5 dumps doc w conflict c w1 dRes s2 vi :
  _connection (info_server (__dInfo doc)) w = (Ret c, w1) →
  Reql.run (Reql.insert (Document.table_of (__dInfo doc))
                        (_dData (stamped md5 dumps doc)) (cleaned_conflict conflict))
           (rethinkdb w1) = (Ret (Reql.one (Some dRes)), s2) →
  dRes !! "inserted" = Some vi → datum_eqb vi (DNum 1) = true →
  let pk := primary (info_conf (__dInfo doc)) in
  let sent := stamped md5 dumps doc in
  let w2 := emit (Closed c) (set_rethinkdb s2 w1) in
  let out := Document.insert md5 dumps conflict (doc, w) in
  (auto_id (info_conf (__dInfo doc)) = true →
     (∀ k rest, dRes !! "generated_keys" = Some (DArr (k :: rest)) →
        out = (Ret k, (set_dData (<[pk := k]> (_dData sent)) sent, w2)))
     ∧ (dRes !! "generated_keys" = None →
        out = (Raise (KeyError "generated_keys"), (sent, w2))))
  ∧ (auto_id (info_conf (__dInfo doc)) = false →
     (∀ id, _dData sent !! pk = Some id → out = (Ret id, (sent, w2)))
     ∧ (_dData sent !! pk = None → out = (Raise (KeyError pk), (sent, w2)))).
Proof.
  intros Hc Hrun Hvi Hone pk sent w2 out.
  assert (Hout : out =
            if auto_id (info_conf (__dInfo doc)) then
              match dRes !! "generated_keys" with
              | Some (DArr (k :: _)) =>
                  (Ret k, (set_dData (<[pk := k]> (_dData sent)) sent, w2))
              | Some (DArr []) => (Raise (IndexError "list index out of range"), (sent, w2))
              | Some _ =>
                  (Raise (TypeError "object has no attribute __getitem__"), (sent, w2))
              | None => (Raise (KeyError "generated_keys"), (sent, w2))
              end
            else match _dData sent !! pk with
                 | Some id => (Ret id, (sent, w2))
                 | None => (Raise (KeyError pk), (sent, w2))
                 end).
  { subst out sent pk w2. unfold Document.insert. fold (cleaned_conflict conflict).
    unfold_monad. unfold stamped in *.
    destruct (revisions (info_conf (__dInfo doc))); [rewrite _revision_init|];
      rewrite with_connect_with_unfold;
      cbn [the_world with_world method_has_world fst snd];
      rewrite Hc; unfold run, as_dict, getitem, first_item; unfold_monad; cbn [fst snd];
      rewrite Hrun; cbn [fst snd]; rewrite Hvi, Hone; cbn [negb];
      (destruct (auto_id (info_conf (__dInfo doc)));
       [ destruct (dRes !! "generated_keys") as [[| | | |[|k rest]]|]; cbn;
         rewrite ?lookup_insert_eq; reflexivity
       | cbn [fst snd]; match goal with |- context [?m !! ?k] =>
           destruct (m !! k) eqn:E end; cbn in E |- *; rewrite ?E; reflexivity ]). }
  split.
  - intros Hauto. rewrite Hauto in Hout. split.
    + intros k rest Hk. by rewrite Hout, Hk.
    + intros Hk. by rewrite Hout, Hk.
  - intros Hauto. rewrite Hauto in Hout. split.
    + intros id Hid. by rewrite Hout, Hid.
    + intros Hid. by rewrite Hout, Hid.
Qed.

Lemma insert_follows_reply_witness :
  auto_id (info_conf (__dInfo eve_doc)) = true
  ∧ let out := Document.insert demo_md5 demo_dumps "error" (eve_doc, world_stocked) in
    out.1 = Ret (Reql.generated_key 0)
    ∧ _dData out.2.1 = <["_id" := Reql.generated_key 0]> (_dData eve_doc).
Proof.
  split; [reflexivity|].
  assert (Hc : _connection (info_server (__dInfo eve_doc)) world_stocked
               = (Ret 0%nat, set_calls 1 world_stocked)) by (vm_compute; reflexivity).
  assert (Hrun : ∃ dRes s2,
             Reql.run (Reql.insert (Document.table_of (__dInfo eve_doc))
                         (_dData (stamped demo_md5 demo_dumps eve_doc))
                         (cleaned_conflict "error"))
                      (rethinkdb (set_calls 1 world_stocked))
               = (Ret (Reql.one (Some dRes)), s2)
             ∧ dRes !! "inserted" = Some (DNum 1)
             ∧ dRes !! "generated_keys" = Some (DArr [Reql.generated_key 0])).
  { eexists _, _. split; [vm_compute; reflexivity|]. split; vm_compute; reflexivity. }
  destruct Hrun as (dRes & s2 & Hrun & Hvi & Hkeys).
  pose proof (insert_follows_reply demo_md5 demo_dumps eve_doc world_stocked "error" 0%nat
                (set_calls 1 world_stocked) dRes s2 (DNum 1) Hc Hrun Hvi eq_refl)
    as [Hauto _].
  destruct (Hauto eq_refl) as [Hgen _].
  cbn zeta. rewrite (Hgen _ _ Hkeys). split; reflexivity.
Defined.

(** With [auto_id] on and the key given by the caller, the row is written
    and the call raises. *)
Example insert_auto_id_with_key_raises :
  let doc := Doc auto_info dee (changed_dict ∅) in
  let out := Document.insert demo_md5 demo_dumps "error" (doc, world_stocked) in
  out.1 = Raise (KeyError "generated_keys")
  ∧ ∃ tb, Reql.find_table (rethinkdb out.2.2) "Test" "users" = Ret tb
          ∧ stored_row tb (DStr "dee") = Some dee.
Proof.
  split; [vm_compute; reflexivity|].
  eexists. split; vm_compute; reflexivity.
Qed.

(** ** Revision strings *)

(** Splitting a revision at its dash gives the version and the hash, and
    [int] reads back what [%d] wrote. *)
Lemma split_dashless h : dashless h = true → split "-" h = [h].
Proof.
  induction h as [|c h IH]; cbn; [done|].
  intros [Hc Hh]%andb_true_iff. destruct (Ascii.eqb c "-"); [done|].
  by rewrite (IH Hh).
Qed.

Lemma split_at_dash a b :
  dashless a = true → split "-" (a ++ String "-" b) = a :: split "-" b.
Proof.
  induction a as [|c a IH]; cbn [dashless]; [done|].
  intros [Hc Ha]%andb_true_iff.
  change (String c a ++ String "-" b) with (String c (a ++ String "-" b)).
  cbn [split]. destruct (Ascii.eqb c "-"); [done|].
  by rewrite (IH Ha).
Qed.

Lemma dashless_uint d : dashless (NilEmpty.string_of_uint d) = true.
Proof. induction d; cbn; done. Qed.

Lemma dashless_format_d n : 0 ≤ n → dashless (format_d n) = true.
Proof.
  intros Hn. unfold format_d. destruct n as [|p|p]; [reflexivity| |lia].
  cbn. destruct (Pos.to_uint p); try apply dashless_uint. reflexivity.
Qed.

Lemma int_format_d {St} n (s : St) : int (format_d n) s = (Ret n, s).
Proof.
  unfold int, format_d. rewrite NilZero.isi.
  - by rewrite DecimalZ.of_to.
  - destruct n; cbn; intros [=]; eapply DecimalPos.Unsigned.to_uint_nonnil; eauto.
  - destruct n; cbn; intros [=]; eapply DecimalPos.Unsigned.to_uint_nonnil; eauto.
Qed.

Lemma split_revision n h :
  0 ≤ n → dashless h = true → split "-" (format_d n ++ "-" ++ h) = [format_d n; h].
Proof.
  intros Hn Hh. change ("-" ++ h) with (String "-" h).
  rewrite split_at_dash by by apply dashless_format_d.
  by rewrite split_dashless.
Qed.

(** X20: [_revision()] on an instance whose [_rev] is [<n>-<hash>], with
    [n] not negative and no dash in the hash.  When the hash is the digest of
    the other fields it returns [False] and the instance is left without
    [_rev].  Otherwise [_rev] becomes version [n + 1] with the new digest and
    the call returns [True], marking [_rev] in the dict of changes; a
    [_dChanged] that is [True] stays as it is. *)
Theorem _revision_bumps_or_drops md5 dumps doc w n h :
  0 ≤ n → dashless h = true →
  _dData doc !! "_rev" = Some (DStr (format_d n ++ "-" ++ h)) →
  let rest := base.delete "_rev" (_dData doc) in
  let digest := md5 (dumps rest) in
  let bumped :=
    set_dData (<["_rev" := DStr (format_d (n + 1) ++ "-" ++ digest)]> rest) doc in
  let out := Document._revision md5 dumps false (doc, w) in
  (h = digest → out = (Ret false, (set_dData rest doc, w)))
  ∧ (h ≠ digest →
       match _dChanged doc with
       | changed_dict c =>
           out = (Ret true,
                  (set_dChanged (changed_dict (<["_rev" := DBool true]> c)) bumped, w))
       | changed_bool true => out = (Ret true, (bumped, w))
       | changed_bool false =>
           out = (Raise (TypeError "bool object does not support item assignment"),
                  (bumped, w))
       end).
Proof.
  intros Hn Hh Hrev rest digest bumped out. subst out bumped.
  unfold Document._revision, getitem. unfold_monad. rewrite Hrev. cbn [fst snd].
  rewrite split_revision by done. cbn [_dData set_dData fst snd]. fold rest. fold digest.
  split.
  - intros ->. by rewrite String.eqb_refl.
  - intros Hne. apply String.eqb_neq in Hne. rewrite Hne. cbn [negb].
    rewrite int_format_d. cbn [fst snd _dData set_dData _dChanged].
    destruct doc as [i dd [c|[]]]; reflexivity.
Qed.

(** The inserted record [dee] after its name was set: revision 1 becomes
    revision 2 over the new fields. *)
Lemma _revision_bumps_or_drops_witness :
  let doc := dee_renamed.1 in
  let out := Document._revision demo_md5 demo_dumps false dee_renamed in
  _dData doc !! "_rev" = Some (DStr "1-_id:dee,name:Dee")
  ∧ out.1 = Ret true
  ∧ _dData out.2.1 !! "_rev" = Some (DStr "2-_id:dee,name:Di").
Proof.
  assert (Hrev : _dData dee_renamed.1 !! "_rev"
                 = Some (DStr (format_d 1 ++ "-" ++ "_id:dee,name:Dee")))
    by (vm_compute; reflexivity).
  pose proof (_revision_bumps_or_drops demo_md5 demo_dumps dee_renamed.1 dee_renamed.2
                1 "_id:dee,name:Dee" ltac:(lia) eq_refl Hrev) as [_ Hbump].
  assert (Hne : "_id:dee,name:Dee"
                ≠ demo_md5 (demo_dumps (base.delete "_rev" (_dData dee_renamed.1))))
    by (vm_compute; discriminate).
  specialize (Hbump Hne).
  assert (Hch : ∃ c, _dChanged dee_renamed.1 = changed_dict c)
    by (eexists; vm_compute; reflexivity).
  destruct Hch as [c Hch]. rewrite Hch in Hbump.
  cbn zeta. split; [vm_compute; reflexivity|].
  rewrite <- (surjective_pairing dee_renamed) in Hbump. rewrite Hbump.
  split; [reflexivity|]. vm_compute. reflexivity.
Defined.


